(** * Day-plan scheduler of the assignment tracker

    Shallow embedding of [buildDayPlan] and its helpers from
    [src/components/PlansView.tsx], with the properties of the day plan
    stated and proved over it.

    Conventions of the embedding.
    - JavaScript numbers that hold minutes, counts and indices are integers
      ([Z]); the two places where the source divides ([totalMinutes /
      CHUNK_MINUTES] and [i / (chunkMinutes.length - 1)]) are computed in
      exact rationals ([Q]) and brought back with [Math.ceil] and
      [Math.round]; the rounding of IEEE doubles is not modelled.
    - Strings are [string]; [<] and [>] on strings are the code-unit
      lexicographic order ([String.ltb]).
    - The override record ([Record<string, ChunkOverride>]) is a
      [gmap string ChunkOverride.t]; optional fields are [option]s. (Every
      key looked up ends in ["|"] and an index, so no inherited property of
      a JavaScript object is ever hit.)
    - The date library is a parameter of the development: the scheduler
      only needs parsing of a due string to an instant, the calendar day of
      an instant in the fixed zone, the instant at which a calendar day
      starts, and the [YYYY-MM-DD] rendering of a day. *)

From Stdlib Require Import ZArith QArith Qround Lia Ascii String Sorted.
From stdpp Require Import base option list strings pretty gmap.

Local Open Scope Z_scope.

(** ** JavaScript primitives *)

Module Math.
Definition max (a b : Z) : Z := Z.max a b.
Definition min (a b : Z) : Z := Z.min a b.
Definition ceil (x : Q) : Z := Qceiling x.
Definition floor (x : Q) : Z := Qfloor x.
(** [Math.round] rounds half-way cases towards +∞. *)
Definition round (x : Q) : Z := Qfloor (x + (1 # 2))%Q.
End Math.

(** [a / b] on numbers. *)
Definition num_div (a b : Z) : Q := (inject_Z a / inject_Z b)%Q.

(** A JavaScript number that may be [NaN] ([None]). *)
Definition num_sub (a b : option Z) : option Z :=
  match a, b with
  | Some x, Some y => Some (x - y)
  | _, _ => None
  end.

(** [Array.prototype.sort(comparefn)]: a stable sort; a comparator result
    of [NaN] counts as [+0] (ECMAScript SortCompare). *)
Section ArraySort.
Context {A : Type} (comparefn : A → A → option Z).

Definition sortCompare (x y : A) : Z := default 0 (comparefn x y).

Fixpoint sort_insert (x : A) (l : list A) : list A :=
  match l with
  | [] => [x]
  | y :: l' =>
      if sortCompare x y <=? 0 then x :: y :: l' else y :: sort_insert x l'
  end.

Fixpoint Array_sort (l : list A) : list A :=
  match l with
  | [] => []
  | x :: l' => sort_insert x (Array_sort l')
  end.
End ArraySort.

(** ** Data model *)

Module Assignment.
Record t := mk {
  id : string;
  course : option string;
  title : string;
  dueISO : string;
  notes : option string;
  estimateMinutes : option Z
}.
End Assignment.

Module ChunkOverride.
Record t := mk {
  done : option bool;
  dayISO : option string
}.
(** The empty object [{}]. *)
Definition empty : t := mk None None.
End ChunkOverride.

Module PlanChunk.
Record t := mk {
  key : string;
  assignmentId : string;
  course : option string;
  title : string;
  dueISO : string;
  dayISO : string;
  minutes : Z;
  done : bool
}.
End PlanChunk.

Abbreviation OverridesByChunkKey := (gmap string ChunkOverride.t).

Definition PLAN_KEY : string := "assignment_plan_day_overrides_v1".

(** ** Day plan settings *)

Definition CHUNK_MINUTES : Z := 30.
Definition MIN_LAST_CHUNK : Z := 10.

(** [`${assignmentId}|${index}`] *)
Definition chunkKey (assignmentId : string) (index : nat) : string :=
  assignmentId +:+ "|" +:+ pretty index.

(** No ["|"] occurs in the string (true of the decimal rendering of an
    index). *)
Fixpoint noBar (s : string) : Prop :=
  match s with
  | EmptyString => True
  | String c s' => c ≠ "|"%char ∧ noBar s'
  end.

Definition clampToView (dayISO viewStartISO viewEndISO : string) : string :=
  if String.ltb dayISO viewStartISO then viewStartISO
  else if String.ltb viewEndISO dayISO then viewEndISO
  else dayISO.

(** ** Splitting an estimate into chunks *)

(** [chunkMinutes[chunkMinutes.length - 1] += mins] *)
Definition addToLast (chunkMinutes : list Z) (mins : Z) : list Z :=
  alter (λ m, m + mins) (length chunkMinutes - 1)%nat chunkMinutes.

(** The loop [for (let i = 0; i < chunkCount; i++)]: [steps] is the number
    of iterations still allowed by the loop test, [chunkCount - i]. *)
Fixpoint splitLoop (steps : nat) (i totalMinutes : Z) (chunkMinutes : list Z)
  : list Z :=
  match steps with
  | O => chunkMinutes
  | S steps' =>
      let remaining := totalMinutes - i * CHUNK_MINUTES in
      let mins := Math.min CHUNK_MINUTES remaining in
      if (mins <? MIN_LAST_CHUNK) && (0 <? length chunkMinutes)%nat
      then addToLast chunkMinutes mins (* break *)
      else splitLoop steps' (i + 1) totalMinutes (chunkMinutes ++ [mins])
  end.

Definition chunkCountOf (totalMinutes : Z) : Z :=
  Math.max 1 (Math.ceil (num_div totalMinutes CHUNK_MINUTES)).

Definition splitMinutes (totalMinutes : Z) : list Z :=
  splitLoop (Z.to_nat (chunkCountOf totalMinutes)) 0 totalMinutes [].

Definition totalMinutesOf (a : Assignment.t) : Z :=
  Math.max 30 (default 60 (Assignment.estimateMinutes a)).

Definition sumZ (l : list Z) : Z := foldr Z.add 0 l.

(** ** The date library, as the scheduler uses it

    Instants are epoch milliseconds. A [DateTime] that sits at the start of
    a day in the zone [TZ] is represented by the number of that calendar
    day (consecutive days have consecutive numbers), so that
    [dt.plus({ days: d })] is addition and [a.diff(b, "days").days] is
    subtraction on day numbers. *)
Class DateLib := {
  (** [DateTime.fromISO(s).setZone(TZ)]: the instant, [None] when invalid. *)
  fromISO : string → option Z;
  (** [new Date(s).getTime()], [None] for [NaN]. *)
  Date_getTime : string → option Z;
  (** [dt.startOf("day")] in [TZ]: the calendar day an instant falls on. *)
  localDay : Z → Z;
  (** [valueOf] of the start of a calendar day. *)
  dayStart : Z → Z;
  (** [dt.toISODate()] of a calendar day, [YYYY-MM-DD]. *)
  toISODate : Z → string
}.

(** What the scheduler reads from its surroundings: the clock
    ([DateTime.now()]) is read by [buildDayPlan]; the storage is only
    touched by [loadOverrides] and [saveOverrides]. *)
Record Ambient := {
  DateTime_now : Z;
  localStorage : gmap string string
}.

Section Scheduler.
Context `{DateLib}.

(** [DateTime.min(dueDay, viewEnd)]: the first argument is kept exactly
    when [Math.min] of the two timestamps is its own; the timestamp of an
    invalid [DateTime] is [NaN], which is never kept. *)
Definition DateTime_min (dueDay : option Z) (viewEnd : Z) : Z :=
  match dueDay with
  | Some d => if dayStart d <=? dayStart viewEnd then d else viewEnd
  | None => viewEnd
  end.

(** [due < viewStart.minus({ days: 30 })]; a comparison with an invalid
    [DateTime] is false. *)
Definition isStale (viewStart : Z) (due : option Z) : bool :=
  match due with
  | Some t => t <? dayStart (viewStart - 30)
  | None => false
  end.

(** [days[dayIndex]] *)
Definition array_get {A} (l : list A) (i : Z) : option A :=
  if i <? 0 then None else l !! Z.to_nat i.

(** Default day index of chunk [i] out of [n] over [windowLen] days. *)
Definition dayIndexOf (i n windowLen : Z) : Z :=
  let ratio : Q := if n =? 1 then 0%Q else num_div i (n - 1) in
  if windowLen =? 1 then 0
  else Math.round (ratio * inject_Z (windowLen - 1))%Q.

(** [windowLen], the number of days in the planning window of an
    assignment: today up to [min(dueDay, viewEnd)]. *)
Definition windowLenOf (viewStart : Z) (due : option Z) : Z :=
  let viewEnd := viewStart + 6 in
  let dueDay := localDay <$> due in
  let lastDay := DateTime_min dueDay viewEnd in
  let diffDays : Q := inject_Z (lastDay - viewStart) in
  let windowDays := Math.max 0 (Math.floor diffDays) in
  windowDays + 1.

(** The list [days] of an assignment's window. *)
Definition windowDaysOf (viewStart windowLen : Z) : list string :=
  (λ d, toISODate (viewStart + d)) <$> seqZ 0 windowLen.

(** Body of the loop [for (let i = 0; i < chunkMinutes.length; i++)]:
    the chunk pushed for index [i], whose minutes are [chunkMinutes[i]];
    [len] is [chunkMinutes.length]. A [days] lookup is never out of range
    (lemma [defaultDay_defined]); the empty string stands for [undefined]. *)
Definition planChunk (viewStart : Z) (overrides : OverridesByChunkKey)
    (a : Assignment.t) (len : nat) (windowLen : Z)
    (i : nat) (mins : Z) : PlanChunk.t :=
  let viewEnd := viewStart + 6 in
  let viewStartISO := toISODate viewStart in
  let viewEndISO := toISODate viewEnd in
  let days := windowDaysOf viewStart windowLen in
  let key := chunkKey (Assignment.id a) i in
  let ov := default ChunkOverride.empty (overrides !! key) in
  let dayIndex := dayIndexOf (Z.of_nat i) (Z.of_nat len) windowLen in
  let defaultDayISO := default "" (array_get days dayIndex) in
  let plannedDayISO :=
    clampToView (default defaultDayISO (ChunkOverride.dayISO ov))
      viewStartISO viewEndISO in
  PlanChunk.mk key (Assignment.id a) (Assignment.course a)
    (Assignment.title a) (Assignment.dueISO a) plannedDayISO mins
    (default false (ChunkOverride.done ov)).

(** Body of the loop [for (const a of sorted)]: the chunks pushed for
    one assignment ([[]] when the loop [continue]s). *)
Definition planAssignment (viewStart : Z) (overrides : OverridesByChunkKey)
    (a : Assignment.t) : list PlanChunk.t :=
  let due := fromISO (Assignment.dueISO a) in
  if isStale viewStart due then []
  else
    let totalMinutes := totalMinutesOf a in
    let chunkMinutes := splitMinutes totalMinutes in
    let windowLen := windowLenOf viewStart due in
    imap (planChunk viewStart overrides a (length chunkMinutes) windowLen)
         chunkMinutes.

Definition compareDue (a b : Assignment.t) : option Z :=
  num_sub (Date_getTime (Assignment.dueISO a))
          (Date_getTime (Assignment.dueISO b)).

Definition compareChunks (x y : PlanChunk.t) : option Z :=
  if bool_decide (PlanChunk.dayISO x ≠ PlanChunk.dayISO y)
  then Some (if String.ltb (PlanChunk.dayISO x) (PlanChunk.dayISO y)
             then -1 else 1)
  else num_sub (Date_getTime (PlanChunk.dueISO x))
               (Date_getTime (PlanChunk.dueISO y)).

Definition buildDayPlan (env : Ambient) (items : list Assignment.t)
    (overrides : OverridesByChunkKey) : list PlanChunk.t :=
  let now := DateTime_now env in
  let viewStart := localDay now in
  let sorted := Array_sort compareDue items in
  let chunks :=
    foldl (λ chunks a, chunks ++ planAssignment viewStart overrides a)
          [] sorted in
  Array_sort compareChunks chunks.
End Scheduler.

(** ** Assumptions on the date library

    The start of a later calendar day is a later instant. *)
Definition dayStart_increasing `{DateLib} : Prop :=
  ∀ d1 d2 : Z, d1 < d2 → dayStart d1 < dayStart d2.

(** The seven dates of the window that starts on [viewStart], rendered as
    [YYYY-MM-DD], are in string order (true of ISO dates in years 0000 to
    9999). *)
Definition window_sorted `{DateLib} (viewStart : Z) : Prop :=
  ∀ i j : Z, 0 ≤ i → i ≤ j → j ≤ 6 →
    String.leb (toISODate (viewStart + i)) (toISODate (viewStart + j)) = true.

(** The ISO dates of the days from [lo] to [hi] are in strict string
    order, as the days are (true of [YYYY-MM-DD] in years 0000 to 9999). *)
Definition iso_dates_ordered `{DateLib} (lo hi : Z) : Prop :=
  ∀ d1 d2 : Z, lo ≤ d1 → d1 < d2 → d2 ≤ hi →
    String.ltb (toISODate d1) (toISODate d2) = true.

(** The day the window ends on for an assignment: [min(dueDay, viewEnd)],
    or [viewEnd] when the due string does not parse. *)
Definition lastDayOf `{DateLib} (viewStart : Z) (due : option Z) : Z :=
  match due with
  | Some t => Z.min (localDay t) (viewStart + 6)
  | None => viewStart + 6
  end.

(** [viewStart]: the calendar day of [DateTime.now()]. *)
Definition viewStartOf `{DateLib} (env : Ambient) : Z :=
  localDay (DateTime_now env).

(** The chunks of a plan that carry the id of an assignment. *)
Definition chunksOf (a : Assignment.t) (plan : list PlanChunk.t)
  : list PlanChunk.t :=
  filter (λ c, PlanChunk.assignmentId c = Assignment.id a) plan.

(** [toggleDone(key)] of the plan view: the new override map. *)
Definition toggleDone (key : string) (prev : OverridesByChunkKey)
  : OverridesByChunkKey :=
  let old := default ChunkOverride.empty (prev !! key) in
  <[key := ChunkOverride.mk
             (Some (negb (default false (ChunkOverride.done old))))
             (ChunkOverride.dayISO old)]> prev.

(** [saveMoveDay] with [movingKey = key] and the picked day [dayISO]. *)
Definition moveDay (key dayISO : string) (prev : OverridesByChunkKey)
  : OverridesByChunkKey :=
  let old := default ChunkOverride.empty (prev !! key) in
  <[key := ChunkOverride.mk (ChunkOverride.done old) (Some dayISO)]> prev.

(** The chunk [c] with its [done] flag set. *)
Definition markDone (c : PlanChunk.t) : PlanChunk.t :=
  PlanChunk.mk (PlanChunk.key c) (PlanChunk.assignmentId c)
    (PlanChunk.course c) (PlanChunk.title c) (PlanChunk.dueISO c)
    (PlanChunk.dayISO c) (PlanChunk.minutes c) true.

Definition markDoneAt (key : string) (c : PlanChunk.t) : PlanChunk.t :=
  if bool_decide (PlanChunk.key c = key) then markDone c else c.

(** ** The time zone of the process

    [DateTime.fromISO(s)] and [new Date(s)] are called without a zone: a
    string that carries no UTC offset is read in the time zone of the
    process (luxon's default zone, the local time of [Date]), so what they
    return is indexed by that zone. Everything else the scheduler asks of
    the library goes through [setZone(TZ)] and does not see the zone of the
    process. An instance of [DateLib] is the library in one process. *)
Class ZonedLib := {
  Zone : Type;
  (** [DateTime.fromISO(s).setZone(TZ)] in a process of the given zone. *)
  fromISO_in : Zone → string → option Z;
  (** [new Date(s).getTime()] in a process of the given zone. *)
  Date_getTime_in : Zone → string → option Z;
  TZ_localDay : Z → Z;
  TZ_dayStart : Z → Z;
  TZ_toISODate : Z → string
}.

Definition libIn `{ZonedLib} (zone : Zone) : DateLib := {|
  fromISO := fromISO_in zone;
  Date_getTime := Date_getTime_in zone;
  localDay := TZ_localDay;
  dayStart := TZ_dayStart;
  toISODate := TZ_toISODate
|}.

(** A process that runs the scheduler: its clock and storage, and its time
    zone. *)
Record Process `{ZonedLib} := mkProcess {
  ambient : Ambient;
  processZone : Zone
}.

(** [buildDayPlan(items, overrides)] run in the process [p]. *)
Definition buildDayPlanIn `{ZonedLib} (p : Process)
    (items : list Assignment.t) (overrides : OverridesByChunkKey)
  : list PlanChunk.t :=
  @buildDayPlan (libIn (processZone p)) (ambient p) items overrides.

(** A string that is read alike in every zone of the process, as a string
    that carries its UTC offset is. *)
Definition zoneFree `{ZonedLib} (s : string) : Prop :=
  ∀ zone1 zone2 : Zone,
    fromISO_in zone1 s = fromISO_in zone2 s
    ∧ Date_getTime_in zone1 s = Date_getTime_in zone2 s.

(** ** The default spread, as the specification words it

    Chunk [i] of [n] over a window of [L] days defaults to day index
    [round(i/(n-1) * (L-1))] when [n > 1], and to [0] when [n = 1]. *)
Definition spec_dayIndex (i n L : Z) : Z :=
  if 1 <? n
  then Math.round (num_div i (n - 1) * inject_Z (L - 1))%Q
  else 0.

(** ** A concrete date library

    A zone with a fixed offset of five hours behind UTC (Toronto's standard
    time) and the proleptic Gregorian calendar; due strings are read in the
    format the application stores, [YYYY-MM-DDTHH:MM:SS.mmm±HH:MM]. It
    instantiates [DateLib] on concrete inputs. *)
Module FixedZone.
Definition MS_PER_DAY : Z := 86400000.
Definition OFFSET_MS : Z := -18000000.

Definition days_from_civil (y m d : Z) : Z :=
  let y' := if m <=? 2 then y - 1 else y in
  let era := y' / 400 in
  let yoe := y' - era * 400 in
  let mp := (m + 9) mod 12 in
  let doy := (153 * mp + 2) / 5 + d - 1 in
  let doe := yoe * 365 + yoe / 4 - yoe / 100 + doy in
  era * 146097 + doe - 719468.

Definition civil_from_days (z0 : Z) : Z * Z * Z :=
  let z := z0 + 719468 in
  let era := z / 146097 in
  let doe := z - era * 146097 in
  let yoe := (doe - doe / 1460 + doe / 36524 - doe / 146096) / 365 in
  let doy := doe - (365 * yoe + yoe / 4 - yoe / 100) in
  let mp := (5 * doy + 2) / 153 in
  let d := doy - (153 * mp + 2) / 5 + 1 in
  let m := if mp <? 10 then mp + 3 else mp - 9 in
  let y := yoe + era * 400 in
  (if m <=? 2 then y + 1 else y, m, d).

Definition pad2 (n : Z) : string :=
  if n <? 10 then "0" +:+ pretty n else pretty n.

Definition pad4 (n : Z) : string :=
  if n <? 10 then "000" +:+ pretty n
  else if n <? 100 then "00" +:+ pretty n
  else if n <? 1000 then "0" +:+ pretty n
  else pretty n.

Definition isoDate (day : Z) : string :=
  let '(y, m, d) := civil_from_days day in
  pad4 y +:+ "-" +:+ pad2 m +:+ "-" +:+ pad2 d.

Definition digitOf (c : ascii) : option Z :=
  let n := Z.of_nat (nat_of_ascii c) in
  if (48 <=? n) && (n <=? 57) then Some (n - 48) else None.

Fixpoint digits (n : nat) (acc : Z) (s : string) : option (Z * string) :=
  match n with
  | O => Some (acc, s)
  | S n' =>
      match s with
      | String c s' => d ← digitOf c; digits n' (acc * 10 + d) s'
      | EmptyString => None
      end
  end.

Definition expect (c : ascii) (s : string) : option string :=
  match s with
  | String c' s' => if Ascii.eqb c c' then Some s' else None
  | EmptyString => None
  end.

Definition sign (s : string) : option (Z * string) :=
  match s with
  | String c s' =>
      if Ascii.eqb c "+" then Some (1, s')
      else if Ascii.eqb c "-" then Some (-1, s')
      else None
  | EmptyString => None
  end.

Definition parseISO (s : string) : option Z :=
  '(y, s) ← digits 4 0 s; s ← expect "-" s;
  '(m, s) ← digits 2 0 s; s ← expect "-" s;
  '(d, s) ← digits 2 0 s; s ← expect "T" s;
  '(hh, s) ← digits 2 0 s; s ← expect ":" s;
  '(mm, s) ← digits 2 0 s; s ← expect ":" s;
  '(ss, s) ← digits 2 0 s; s ← expect "." s;
  '(ms, s) ← digits 3 0 s;
  '(sg, s) ← sign s;
  '(oh, s) ← digits 2 0 s; s ← expect ":" s;
  '(om, s) ← digits 2 0 s;
  if bool_decide (s = "") && (1 <=? m) && (m <=? 12) && (1 <=? d)
     && (d <=? 31) && (hh <? 24) && (mm <? 60) && (ss <? 60)
  then Some (days_from_civil y m d * MS_PER_DAY
             + hh * 3600000 + mm * 60000 + ss * 1000 + ms
             - sg * (oh * 3600000 + om * 60000))
  else None.

(** Consecutive days render in string order, checked for [n] days from
    day [d]. *)
Definition isoStepOk (d : Z) : bool :=
  String.leb (isoDate d) (isoDate (d + 1)).

Fixpoint allSteps (n : nat) (d : Z) : bool :=
  match n with
  | O => true
  | S n' => isoStepOk d && allSteps n' (d + 1)
  end.

(** Day numbers of 2020-01-01 and of 2040-01-01. *)
Definition DAY_2020 : Z := 18262.
Definition DAY_2040 : Z := 25567.

#[export] Instance lib : DateLib := {|
  fromISO := parseISO;
  Date_getTime := parseISO;
  localDay := λ t, (t + OFFSET_MS) / MS_PER_DAY;
  dayStart := λ d, d * MS_PER_DAY - OFFSET_MS;
  toISODate := isoDate
|}.
End FixedZone.

(** ** Sample inputs *)
Module Sample.
(** 2026-11-02T12:00:00-05:00. *)
Definition env : Ambient :=
  {| DateTime_now := 1793638800000; localStorage := ∅ |}.

Definition essay : Assignment.t :=
  Assignment.mk "a1" (Some "ENG101") "Essay"
    "2026-11-04T23:59:00.000-05:00" None (Some 70).
Definition quiz : Assignment.t :=
  Assignment.mk "a2" None "Quiz"
    "2026-11-03T09:00:00.000-05:00" None (Some 30).
Definition lab : Assignment.t :=
  Assignment.mk "a3" (Some "PHY110") "Lab report"
    "2026-11-20T17:00:00.000-05:00" None (Some 61).
Definition old : Assignment.t :=
  Assignment.mk "a4" None "Old reading"
    "2026-09-15T17:00:00.000-04:00" None None.
Definition late : Assignment.t :=
  Assignment.mk "a5" None "Late problem set"
    "2026-10-28T17:00:00.000-04:00" None (Some 90).

Definition items : list Assignment.t := [essay; quiz; lab; old; late].

(** The list after unrelated edits: the lab report and the old reading
    are deleted, the quiz is re-estimated and a new item is added. *)
Definition edited : list Assignment.t :=
  [Assignment.mk "a6" None "Reading" "2026-11-06T12:00:00.000-05:00"
     None None;
   Assignment.mk "a2" None "Quiz" "2026-11-03T09:00:00.000-05:00"
     None (Some 45);
   essay; late].

(** Overrides that move one chunk past the window and one before it. *)
Definition moved : OverridesByChunkKey :=
  moveDay "a1|1" "2027-01-01" (moveDay "a3|0" "2026-10-31" ∅).

(** An override whose day is no date, yet compares inside the window. *)
Definition scribbled : OverridesByChunkKey :=
  moveDay "a1|1" "2026-11-07 is not a day" ∅.

(** An override left behind by a deleted assignment. *)
Definition orphaned : OverridesByChunkKey :=
  toggleDone "gone|0" (moveDay "gone|1" "2026-11-05" ∅).

(** Chunk [i] of assignment [a], as the plan holds it. *)
Definition chunk (a : Assignment.t) (i : nat) (dayISO : string)
    (minutes : Z) (done : bool) : PlanChunk.t :=
  PlanChunk.mk (chunkKey (Assignment.id a) i) (Assignment.id a)
    (Assignment.course a) (Assignment.title a) (Assignment.dueISO a)
    dayISO minutes done.

(** The same clock, another storage content. *)
Definition env' : Ambient :=
  {| DateTime_now := 1793638800000;
     localStorage := {[ PLAN_KEY := "{}" ]} |}.
End Sample.

(** Consecutive days render in strictly increasing string order, checked
    for [n] days from day [d]. *)
Fixpoint isoStrictSteps (n : nat) (d : Z) : bool :=
  match n with
  | O => true
  | S n' =>
      String.ltb (FixedZone.isoDate d) (FixedZone.isoDate (d + 1))
      && isoStrictSteps n' (d + 1)
  end.

(** ** The concrete date library in a process of a given zone

    The library of [FixedZone], reading a due string with or without its
    offset: [YYYY-MM-DDTHH:MM:SS.mmm] followed by [±HH:MM] is the instant
    it names; without the offset it is that local time in the zone of the
    process, given by its offset from UTC in milliseconds. *)
Module ProcessZone.
(** The date and time, as milliseconds of local time, and what follows. *)
Definition parseLocal (s : string) : option (Z * string) :=
  '(y, s) ← FixedZone.digits 4 0 s; s ← FixedZone.expect "-" s;
  '(m, s) ← FixedZone.digits 2 0 s; s ← FixedZone.expect "-" s;
  '(d, s) ← FixedZone.digits 2 0 s; s ← FixedZone.expect "T" s;
  '(hh, s) ← FixedZone.digits 2 0 s; s ← FixedZone.expect ":" s;
  '(mm, s) ← FixedZone.digits 2 0 s; s ← FixedZone.expect ":" s;
  '(ss, s) ← FixedZone.digits 2 0 s; s ← FixedZone.expect "." s;
  '(ms, s) ← FixedZone.digits 3 0 s;
  if (1 <=? m) && (m <=? 12) && (1 <=? d) && (d <=? 31) && (hh <? 24)
     && (mm <? 60) && (ss <? 60)
  then Some (FixedZone.days_from_civil y m d * FixedZone.MS_PER_DAY
             + hh * 3600000 + mm * 60000 + ss * 1000 + ms, s)
  else None.

(** The offset [±HH:MM], in milliseconds. *)
Definition parseOffset (s : string) : option Z :=
  '(sg, s) ← FixedZone.sign s;
  '(oh, s) ← FixedZone.digits 2 0 s; s ← FixedZone.expect ":" s;
  '(om, s) ← FixedZone.digits 2 0 s;
  if bool_decide (s = "") then Some (sg * (oh * 3600000 + om * 60000))
  else None.

Definition parseISO_in (zoneOffset : Z) (s : string) : option Z :=
  '(t, rest) ← parseLocal s;
  if bool_decide (rest = "") then Some (t - zoneOffset)
  else offset ← parseOffset rest; Some (t - offset).

(** Offsets of Toronto (standard time) and of Tokyo. *)
Definition TORONTO : Z := -18000000.
Definition TOKYO : Z := 32400000.

#[export] Instance zoned : ZonedLib := {|
  Zone := Z;
  fromISO_in := parseISO_in;
  Date_getTime_in := parseISO_in;
  TZ_localDay := λ t, (t + FixedZone.OFFSET_MS) / FixedZone.MS_PER_DAY;
  TZ_dayStart := λ d, d * FixedZone.MS_PER_DAY - FixedZone.OFFSET_MS;
  TZ_toISODate := FixedZone.isoDate
|}.

(** An assignment whose due string carries no offset: one in the morning
    of 3 November, local time. *)
Definition night : Assignment.t :=
  Assignment.mk "a8" None "Problem set" "2026-11-03T01:00:00.000" None None.

(** Processes in Toronto and in Tokyo with the same clock and storage, and
    one in Tokyo with another storage. *)
Definition inToronto : Process := mkProcess _ Sample.env TORONTO.
Definition inTokyo : Process := mkProcess _ Sample.env TOKYO.
Definition abroad : Process := mkProcess _ Sample.env' TOKYO.
End ProcessZone.

(** * The rest of the plan view and of the application *)

(** ** Summary of a plan ([PlanView]) *)

Module PlanView.
(** [plan.reduce((acc, c) => acc + (c.done ? 1 : 0), 0)] *)
Definition doneCount (plan : list PlanChunk.t) : Z :=
  foldl (λ acc c, acc + (if PlanChunk.done c then 1 else 0)) 0 plan.

(** [plan.reduce((acc, c) => acc + c.minutes, 0)] *)
Definition totalMinutes (plan : list PlanChunk.t) : Z :=
  foldl (λ acc c, acc + PlanChunk.minutes c) 0 plan.

(** [plan.reduce((acc, c) => acc + (c.done ? 0 : c.minutes), 0)] *)
Definition remainingMinutes (plan : list PlanChunk.t) : Z :=
  foldl (λ acc c, acc + (if PlanChunk.done c then 0 else PlanChunk.minutes c))
        0 plan.
End PlanView.

(** ** Day labels and day groups *)

(** [d.toFormat("ccc, LLL d")] of a calendar day. *)
Class DayFormat := {
  toFormat_ccc_LLL_d : Z → string
}.

(** [formatDayLabel(dayISO)]: an invalid [DateTime] has a [NaN] difference
    to today and formats as ["Invalid DateTime"]. *)
Definition formatDayLabel `{DateLib} `{DayFormat} (env : Ambient)
    (dayISO : string) : string :=
  let today := localDay (DateTime_now env) in
  match localDay <$> fromISO dayISO with
  | Some d =>
      let diff := d - today in
      if diff =? 0 then "Today"
      else if diff =? 1 then "Tomorrow"
      else toFormat_ccc_LLL_d d
  | None => "Invalid DateTime"
  end.

Module DayGroup.
Record t := mk {
  dayISO : string;
  label : string;
  total : Z;
  list : list PlanChunk.t
}.
End DayGroup.

(** [if (!map.has(k)) map.set(k, []); map.get(k)!.push(c)] on a [Map],
    which keeps its keys in insertion order. *)
Fixpoint map_push {V : Type} (map : list (string * list V)) (k : string)
    (c : V) : list (string * list V) :=
  match map with
  | [] => [(k, [c])]
  | (k', l) :: map' =>
      if bool_decide (k' = k) then (k', l ++ [c]) :: map'
      else (k', l) :: map_push map' k c
  end.

(** The loop [for (const c of plan)] of [grouped]. *)
Definition groupByDay (plan : list PlanChunk.t)
  : list (string * list PlanChunk.t) :=
  foldl (λ map c, map_push map (PlanChunk.dayISO c) c) [] plan.

(** [(a, b) => (a[0] < b[0] ? -1 : 1)] *)
Definition compareEntries {V : Type} (a b : string * V) : option Z :=
  Some (if String.ltb a.1 b.1 then -1 else 1).

Definition grouped `{DateLib} `{DayFormat} (env : Ambient)
    (plan : list PlanChunk.t) : list DayGroup.t :=
  (λ entry,
     DayGroup.mk entry.1 (formatDayLabel env entry.1)
       (foldl (λ acc x, acc + PlanChunk.minutes x) 0 entry.2) entry.2)
  <$> Array_sort compareEntries (groupByDay plan).

(** ** Due status *)

Inductive Chip := Overdue | DueSoon | Upcoming.

Inductive StatusFilter := ALL | UPCOMING | OVERDUE | DUESOON.

(** [due.diff(now, "hours").hours], [None] for [NaN]. *)
Definition diffHours `{DateLib} (env : Ambient) (dueISO : string)
  : option Q :=
  (λ t, num_div (t - DateTime_now env) 3600000) <$> fromISO dueISO.

(** Comparisons of a number that may be [NaN] with a constant: all false
    on [NaN]. *)
Definition num_lt (x : option Q) (y : Q) : bool :=
  match x with Some q => negb (Qle_bool y q) | None => false end.
Definition num_le (x : option Q) (y : Q) : bool :=
  match x with Some q => Qle_bool q y | None => false end.
Definition num_gt (x : option Q) (y : Q) : bool :=
  match x with Some q => negb (Qle_bool q y) | None => false end.
Definition num_ge (x : option Q) (y : Q) : bool :=
  match x with Some q => Qle_bool y q | None => false end.

Definition dueStatusChip `{DateLib} (env : Ambient) (dueISO : string)
  : Chip :=
  let diffHours := diffHours env dueISO in
  if num_lt diffHours 0 then Overdue
  else if num_le diffHours 48 then DueSoon
  else Upcoming.

(** [matchesStatus] of the list filter in [App]. *)
Definition matchesStatus `{DateLib} (env : Ambient)
    (statusFilter : StatusFilter) (a : Assignment.t) : bool :=
  match statusFilter with
  | ALL => true
  | OVERDUE => num_lt (diffHours env (Assignment.dueISO a)) 0
  | DUESOON =>
      num_ge (diffHours env (Assignment.dueISO a)) 0
      && num_le (diffHours env (Assignment.dueISO a)) 48
  | UPCOMING => num_gt (diffHours env (Assignment.dueISO a)) 48
  end.

(** The status filter that carries the name of a chip. *)
Definition filterOfChip (chip : Chip) : StatusFilter :=
  match chip with
  | Overdue => OVERDUE
  | DueSoon => DUESOON
  | Upcoming => UPCOMING
  end.

(** ** The move-day dialog *)

(** State of [PlanView]: a [DateTime] is its instant, [None] when
    invalid. *)
Module PlanViewState.
Record t := mk {
  overrides : OverridesByChunkKey;
  movingKey : option string;
  movingDate : option (option Z)
}.
End PlanViewState.

Definition openMoveDay `{DateLib} (chunk : PlanChunk.t)
    (st : PlanViewState.t) : PlanViewState.t :=
  PlanViewState.mk (PlanViewState.overrides st)
    (Some (PlanChunk.key chunk))
    (Some (fromISO (PlanChunk.dayISO chunk))).

(** [saveMoveDay]: [!movingKey] holds for [null] and for the empty string;
    [toISODate()] of an invalid [DateTime] is [null]. *)
Definition saveMoveDay `{DateLib} (st : PlanViewState.t) : PlanViewState.t :=
  let closed :=
    PlanViewState.mk (PlanViewState.overrides st) None
      (PlanViewState.movingDate st) in
  match PlanViewState.movingKey st, PlanViewState.movingDate st with
  | Some movingKey, Some movingDate =>
      if bool_decide (movingKey = "") then closed
      else
        match movingDate with
        | Some t =>
            let dayISO := toISODate (localDay t) in
            PlanViewState.mk
              (moveDay movingKey dayISO (PlanViewState.overrides st))
              None (PlanViewState.movingDate st)
        | None => closed
        end
  | _, _ => closed
  end.

(** The chunk [c] moved to [dayISO], when its key is [key]. *)
Definition setDayAt (key dayISO : string) (c : PlanChunk.t) : PlanChunk.t :=
  if bool_decide (PlanChunk.key c = key)
  then PlanChunk.mk (PlanChunk.key c) (PlanChunk.assignmentId c)
         (PlanChunk.course c) (PlanChunk.title c) (PlanChunk.dueISO c)
         dayISO (PlanChunk.minutes c) (PlanChunk.done c)
  else c.

(** ** Local storage *)

(** [JSON.stringify] and [JSON.parse] at the type the source casts to;
    [JSON_parse] is [None] when [JSON.parse] throws. *)
Class JSONCodec (A : Type) := {
  JSON_stringify : A → string;
  JSON_parse : string → option A
}.

Definition KEY : string := "assignment_tracker_v1".

Definition getItem (env : Ambient) (key : string) : option string :=
  localStorage env !! key.

Definition setItem (key value : string) (env : Ambient) : Ambient :=
  {| DateTime_now := DateTime_now env;
     localStorage := <[key := value]> (localStorage env) |}.

Definition loadOverrides `{JSONCodec OverridesByChunkKey} (env : Ambient)
  : OverridesByChunkKey :=
  match getItem env PLAN_KEY with
  | Some raw =>
      if bool_decide (raw = "") then ∅ (* !raw *)
      else default ∅ (JSON_parse raw) (* catch *)
  | None => ∅
  end.

Definition saveOverrides `{JSONCodec OverridesByChunkKey}
    (state : OverridesByChunkKey) (env : Ambient) : Ambient :=
  setItem PLAN_KEY (JSON_stringify state) env.

Definition loadAssignments `{JSONCodec (list Assignment.t)} (env : Ambient)
  : list Assignment.t :=
  match getItem env KEY with
  | Some raw =>
      if bool_decide (raw = "") then []
      else default [] (JSON_parse raw)
  | None => []
  end.

Definition saveAssignments `{JSONCodec (list Assignment.t)}
    (items : list Assignment.t) (env : Ambient) : Ambient :=
  setItem KEY (JSON_stringify items) env.

(** ** The assignment list ([App]) *)

(** [String.prototype.trim] and [DateTime.toISO] of a valid [DateTime]. *)
Class FormLib := {
  trim : string → string;
  toISO : Z → string
}.

Module AppState.
Record t := mk {
  items : list Assignment.t;
  editingId : option string;
  course : string;
  title : string;
  due : option (option Z);
  notes : string
}.
End AppState.

Definition resetForm (env : Ambient) (st : AppState.t) : AppState.t :=
  AppState.mk (AppState.items st) None "" ""
    (Some (Some (DateTime_now env))) "".

(** The edited copy [{ ...x, course, title, dueISO, notes }]. *)
Definition editedItem (x : Assignment.t) (course title dueISO notes : string)
  : Assignment.t :=
  Assignment.mk (Assignment.id x) (Some course) title dueISO (Some notes)
    (Assignment.estimateMinutes x).

(** [onSubmit]; [newId] is what [uid()] returns. An [editingId] that is
    [null] or empty is falsy. *)
Definition onSubmit `{FormLib} (env : Ambient) (newId : string)
    (st : AppState.t) : AppState.t :=
  if bool_decide (trim (AppState.title st) = "") then st
  else
    match AppState.due st with
    | None => st
    | Some due =>
        match toISO <$> due with
        | None => st
        | Some dueISO =>
            let editing :=
              match AppState.editingId st with
              | Some editingId =>
                  if bool_decide (editingId = "") then None
                  else Some editingId
              | None => None
              end in
            let items :=
              match editing with
              | Some editingId =>
                  (λ x, if bool_decide (Assignment.id x = editingId)
                        then editedItem x (trim (AppState.course st))
                               (trim (AppState.title st)) dueISO
                               (trim (AppState.notes st))
                        else x) <$> AppState.items st
              | None =>
                  Assignment.mk newId (Some (trim (AppState.course st)))
                    (trim (AppState.title st)) dueISO
                    (Some (trim (AppState.notes st))) None
                  :: AppState.items st
              end in
            resetForm env
              (AppState.mk items (AppState.editingId st) (AppState.course st)
                 (AppState.title st) (AppState.due st) (AppState.notes st))
        end
    end.

Definition startEdit `{DateLib} (a : Assignment.t) (st : AppState.t)
  : AppState.t :=
  AppState.mk (AppState.items st) (Some (Assignment.id a))
    (default "" (Assignment.course a)) (Assignment.title a)
    (Some (fromISO (Assignment.dueISO a)))
    (default "" (Assignment.notes a)).

Definition remove (env : Ambient) (id : string) (st : AppState.t)
  : AppState.t :=
  let st' :=
    AppState.mk (filter (λ x, Assignment.id x ≠ id) (AppState.items st))
      (AppState.editingId st) (AppState.course st) (AppState.title st)
      (AppState.due st) (AppState.notes st) in
  if bool_decide (AppState.editingId st = Some id) then resetForm env st'
  else st'.

(** ** Calendar export: escaping *)

Definition LF : ascii := "010"%char.
Definition BACKSLASH : ascii := "\"%char.

(** [s.replace(/c/g, by)] for a single character [c]. *)
Fixpoint replaceAll (c : ascii) (by_ : string) (s : string) : string :=
  match s with
  | EmptyString => EmptyString
  | String a s' =>
      if Ascii.eqb a c then by_ +:+ replaceAll c by_ s'
      else String a (replaceAll c by_ s')
  end.

Definition escapeICS (text : option string) : string :=
  replaceAll ";" "\;"
    (replaceAll "," "\,"
       (replaceAll LF "\n"
          (replaceAll BACKSLASH "\\" (default "" text)))).

(** The inverse reading of an escaped text: a backslash announces an
    escaped character. *)
Fixpoint unescapeICS (s : string) : string :=
  match s with
  | EmptyString => EmptyString
  | String a s' =>
      if Ascii.eqb a BACKSLASH then
        match s' with
        | String b s'' =>
            String (if Ascii.eqb b "n" then LF else b) (unescapeICS s'')
        | EmptyString => String a EmptyString
        end
      else String a (unescapeICS s')
  end.

(** ** Orders that the sorts establish *)

(** The order of a plan: by day, then by due instant. *)
Definition planOrder `{DateLib} (x y : PlanChunk.t) : Prop :=
  String.ltb (PlanChunk.dayISO x) (PlanChunk.dayISO y) = true
  ∨ (PlanChunk.dayISO x = PlanChunk.dayISO y
     ∧ match Date_getTime (PlanChunk.dueISO x),
              Date_getTime (PlanChunk.dueISO y) with
       | Some tx, Some ty => tx ≤ ty
       | _, _ => False
       end).

(** [sorted] of [App]: [[...items].sort((a, b) => new
    Date(a.dueISO).getTime() - new Date(b.dueISO).getTime())]. *)
Definition sorted `{DateLib} (items : list Assignment.t)
  : list Assignment.t :=
  Array_sort compareDue items.

(** The order of the assignment list: by due instant. *)
Definition dueOrder `{DateLib} (a b : Assignment.t) : Prop :=
  match Date_getTime (Assignment.dueISO a),
        Date_getTime (Assignment.dueISO b) with
  | Some ta, Some tb => ta ≤ tb
  | _, _ => False
  end.

(** The order of the day groups: by day, strictly. *)
Definition groupOrder (g1 g2 : DayGroup.t) : Prop :=
  String.ltb (DayGroup.dayISO g1) (DayGroup.dayISO g2) = true.

(** Number of chunks an estimate of [totalMinutes] is split into. *)
Definition chunksFor (totalMinutes : Z) : Z := (totalMinutes + 20) / 30.

(** What a chunk reads of its override entry: [!!ov.done] and
    [ov.dayISO], with [ov = overrides[key] ?? {}]. *)
Definition effective (entry : option ChunkOverride.t) : bool * option string :=
  let ov := default ChunkOverride.empty entry in
  (default false (ChunkOverride.done ov), ChunkOverride.dayISO ov).

(** What [escapeICS] writes for one character. *)
Definition escChar (a : ascii) : string :=
  if Ascii.eqb a BACKSLASH then "\\"
  else if Ascii.eqb a LF then "\n"
  else if Ascii.eqb a "," then "\,"
  else if Ascii.eqb a ";" then "\;"
  else String a EmptyString.

(** The character [c] occurs in [s]. *)
Fixpoint occursIn (c : ascii) (s : string) : Prop :=
  match s with
  | EmptyString => False
  | String a s' => a = c ∨ occursIn c s'
  end.

(** The id and the estimate of each assignment, in list order. *)
Definition idsAndEstimates (items : list Assignment.t)
  : list (string * option Z) :=
  (λ a, (Assignment.id a, Assignment.estimateMinutes a)) <$> items.

(** ** Concrete libraries for the plan view and the form

    The date library of [FixedZone], reading date-only strings
    ([YYYY-MM-DD], taken at the start of that day in the zone) as well; day
    labels as the day number; a codec that knows the JSON text of the
    sample override maps and lists. *)
Module Concrete.
Definition parseISODate (s : string) : option Z :=
  '(y, s) ← FixedZone.digits 4 0 s; s ← FixedZone.expect "-" s;
  '(m, s) ← FixedZone.digits 2 0 s; s ← FixedZone.expect "-" s;
  '(d, s) ← FixedZone.digits 2 0 s;
  if bool_decide (s = "") && (1 <=? m) && (m <=? 12) && (1 <=? d)
     && (d <=? 31)
  then Some (FixedZone.days_from_civil y m d * FixedZone.MS_PER_DAY
             - FixedZone.OFFSET_MS)
  else None.

Definition parse (s : string) : option Z :=
  match FixedZone.parseISO s with
  | Some t => Some t
  | None => parseISODate s
  end.

#[export] Instance dates : DateLib := {|
  fromISO := parse;
  Date_getTime := FixedZone.parseISO;
  localDay := λ t, (t + FixedZone.OFFSET_MS) / FixedZone.MS_PER_DAY;
  dayStart := λ d, d * FixedZone.MS_PER_DAY - FixedZone.OFFSET_MS;
  toISODate := FixedZone.isoDate
|}.

#[export] Instance dayFormat : DayFormat := {|
  toFormat_ccc_LLL_d := λ d, "day " +:+ pretty d
|}.

#[export] Instance ChunkOverride_eq_dec : EqDecision ChunkOverride.t.
Proof. solve_decision. Defined.

#[export] Instance Assignment_eq_dec : EqDecision Assignment.t.
Proof. solve_decision. Defined.

Definition movedJSON : string :=
  "{'a3|0':{'dayISO':'2026-10-31'},'a1|1':{'dayISO':'2027-01-01'}}".

#[export] Instance overridesCodec : JSONCodec OverridesByChunkKey := {|
  JSON_stringify := λ state,
    if decide (state = Sample.moved) then movedJSON else "{}";
  JSON_parse := λ raw,
    if bool_decide (raw = "{}") then Some ∅
    else if bool_decide (raw = movedJSON) then Some Sample.moved
    else None
|}.

#[export] Instance itemsCodec : JSONCodec (list Assignment.t) := {|
  JSON_stringify := λ items,
    if decide (items = Sample.items) then "[sample]" else "[]";
  JSON_parse := λ raw,
    if bool_decide (raw = "[]") then Some []
    else if bool_decide (raw = "[sample]") then Some Sample.items
    else None
|}.

(** The plan view with the dialog closed, and with the dialog open on the
    essay's second chunk and 2026-11-05T08:00-05:00 picked. *)
Definition view : PlanViewState.t := PlanViewState.mk Sample.moved None None.

Definition moving : PlanViewState.t :=
  PlanViewState.mk Sample.moved (Some "a1|1") (Some (Some 1793883600000)).

(** An assignment whose due string is no date. *)
Definition undated : Assignment.t :=
  Assignment.mk "a7" None "Someday" "soon" None None.

(** Today's group of the sample plan. *)
Definition today : DayGroup.t :=
  DayGroup.mk "2026-11-02" "Today" 180
    [ Sample.chunk Sample.late 0 "2026-11-02" 30 false;
      Sample.chunk Sample.late 1 "2026-11-02" 30 false;
      Sample.chunk Sample.late 2 "2026-11-02" 30 false;
      Sample.chunk Sample.quiz 0 "2026-11-02" 30 false;
      Sample.chunk Sample.essay 0 "2026-11-02" 30 false;
      Sample.chunk Sample.lab 0 "2026-11-02" 30 false ].

(** A storage that holds text [JSON.parse] rejects under [PLAN_KEY]. *)
Definition broken : Ambient :=
  {| DateTime_now := 1793638800000;
     localStorage := {[ PLAN_KEY := "{oops" ]} |}.
End Concrete.

(** * Properties *)

(** ** Sorting *)

Section ArraySortFacts.
Context {A : Type} (comparefn : A → A → option Z).

Lemma sort_insert_perm (x : A) (l : list A) :
  sort_insert comparefn x l ≡ₚ x :: l.
Proof.
  induction l as [|y l IH]; simpl; [done|].
  destruct (sortCompare comparefn x y <=? 0); [done|].
  rewrite IH. apply Permutation_swap.
Qed.

Lemma Array_sort_perm (l : list A) : Array_sort comparefn l ≡ₚ l.
Proof.
  induction l as [|x l IH]; simpl; [done|].
  by rewrite sort_insert_perm, IH.
Qed.

(** A map that the comparator cannot see commutes with the sort. *)
Lemma Array_sort_fmap {B : Type} (cmpB : B → B → option Z) (f : A → B)
    (l : list A) :
  (∀ x y, cmpB (f x) (f y) = comparefn x y) →
  Array_sort cmpB (f <$> l) = f <$> Array_sort comparefn l.
Proof.
  intros Hcmp.
  assert (Hins : ∀ x l', sort_insert cmpB (f x) (f <$> l')
                         = f <$> sort_insert comparefn x l').
  { intros x l'. induction l' as [|y l' IH]; simpl; [done|].
    unfold sortCompare. rewrite Hcmp.
    destruct (default 0 (comparefn x y) <=? 0); simpl; [done|].
    f_equal. apply IH. }
  induction l as [|x l IH]; [done|].
  rewrite fmap_cons. simpl. rewrite IH. apply Hins.
Qed.
End ArraySortFacts.

Lemma foldl_push {A B : Type} (body : A → list B) (acc : list B) (l : list A) :
  foldl (λ chunks a, chunks ++ body a) acc l = acc ++ (l ≫= body).
Proof.
  revert acc. induction l as [|a l IH]; intros acc; simpl.
  - by rewrite app_nil_r.
  - rewrite IH. by rewrite <- app_assoc.
Qed.

(** ** Splitting *)

Lemma sumZ_app (l1 l2 : list Z) : sumZ (l1 ++ l2) = sumZ l1 + sumZ l2.
Proof. unfold sumZ. induction l1 as [|x l1 IH]; simpl; lia. Qed.

Lemma sumZ_perm (l1 l2 : list Z) : l1 ≡ₚ l2 → sumZ l1 = sumZ l2.
Proof. unfold sumZ. induction 1; simpl; lia. Qed.

Lemma addToLast_snoc (l : list Z) (m mins : Z) :
  addToLast (l ++ [m]) mins = l ++ [m + mins].
Proof.
  unfold addToLast. rewrite length_app. simpl.
  replace (length l + 1 - 1)%nat with (length l + 0)%nat by lia.
  by rewrite alter_app_r.
Qed.

Lemma ceil_div_30 (t : Z) :
  Math.ceil (num_div t CHUNK_MINUTES) = (t + 29) / 30.
Proof.
  unfold Math.ceil, num_div, CHUNK_MINUTES, Qceiling, Qfloor, Qdiv, Qmult.
  simpl. Z.div_mod_to_equations. lia.
Qed.

Lemma chunkCountOf_eq (t : Z) : 30 ≤ t → chunkCountOf t = (t + 29) / 30.
Proof.
  intros Ht. unfold chunkCountOf, Math.max. rewrite ceil_div_30.
  Z.div_mod_to_equations. lia.
Qed.

(** Loop invariant of the split: with [r] minutes still to place and
    exactly [ceil(r/30)] iterations left, the loop appends chunks of 30
    minutes and ends on the remainder, merged when it is under 10. *)
Lemma splitLoop_spec (steps : nat) (i t : Z) (acc : list Z) :
  let r := t - i * CHUNK_MINUTES in
  0 < r →
  30 * (Z.of_nat steps - 1) < r ≤ 30 * Z.of_nat steps →
  (0 < i → acc ≠ []) →
  Forall (λ m, m = 30) acc →
  ∃ body tail,
    splitLoop steps i t acc = body ++ [tail]
    ∧ Forall (λ m, m = 30) body
    ∧ sumZ (body ++ [tail]) = sumZ acc + r
    ∧ (acc ≠ [] ∨ 30 ≤ r → 10 ≤ tail ≤ 39)
    ∧ (length acc ≤ length (body ++ [tail]))%nat.
Proof.
  revert i acc. induction steps as [|steps IH]; intros i acc r Hpos Hr Hi Hacc.
  { lia. }
  subst r. simpl. unfold Math.min, CHUNK_MINUTES, MIN_LAST_CHUNK in *.
  set (r := t - i * 30) in *.
  destruct (decide (steps = 0%nat)) as [->|Hsteps].
  - (* last iteration *)
    assert (Hmin : Z.min 30 r = r) by lia. rewrite Hmin.
    destruct (r <? 10) eqn:Hlt; simpl.
    + apply Z.ltb_lt in Hlt. revert Hi Hacc.
      induction acc as [|a acc _] using rev_ind; intros Hi Hacc; simpl.
      * exists [], r. simpl. split_and!;
          [done|by apply Forall_nil|unfold sumZ; simpl; lia| |lia].
        intros [?|?]; [done|lia].
      * rewrite length_app; simpl.
        replace (0 <? length acc + 1)%nat with true
          by (symmetry; apply Nat.ltb_lt; lia).
        rewrite addToLast_snoc.
        apply Forall_app in Hacc as [Hacc Ha].
        apply Forall_inv in Ha. simpl in Ha. subst a.
        exists acc, (30 + r). split_and!; [done|done| |lia|].
        -- rewrite !sumZ_app. unfold sumZ. simpl. lia.
        -- rewrite !length_app. simpl. lia.
    + exists acc, r. apply Z.ltb_ge in Hlt. split_and!; [done|done| |lia|].
      * rewrite sumZ_app. unfold sumZ. simpl. lia.
      * rewrite length_app. lia.
  - (* a full chunk, and the loop goes on *)
    assert (Hmin : Z.min 30 r = 30) by lia. rewrite Hmin. simpl.
    destruct (IH (i + 1) (acc ++ [30]))
      as (body & tail & Heq & Hb & Hs & Ht & Hl).
    + unfold CHUNK_MINUTES. lia.
    + unfold CHUNK_MINUTES. lia.
    + intros _. by destruct acc.
    + apply Forall_app. split; [done|]. by apply Forall_singleton.
    + exists body, tail. rewrite Heq. split_and!; [done|done| | |].
      * rewrite Hs, sumZ_app. unfold sumZ, CHUNK_MINUTES. simpl. lia.
      * intros _. apply Ht. left. by destruct acc.
      * rewrite length_app in Hl. simpl in Hl. lia.
Qed.

Lemma splitMinutes_spec (t : Z) :
  30 ≤ t →
  ∃ body tail,
    splitMinutes t = body ++ [tail]
    ∧ Forall (λ m, m = 30) body
    ∧ sumZ (splitMinutes t) = t
    ∧ 10 ≤ tail ≤ 39.
Proof.
  intros Ht. unfold splitMinutes. rewrite chunkCountOf_eq by done.
  destruct (splitLoop_spec (Z.to_nat ((t + 29) / 30)) 0 t [])
    as (body & tail & Heq & Hb & Hs & Htail & _).
  - simpl. lia.
  - simpl. unfold CHUNK_MINUTES.
    rewrite Z2Nat.id by (Z.div_mod_to_equations; lia).
    Z.div_mod_to_equations. lia.
  - lia.
  - constructor.
  - exists body, tail. rewrite Heq. split_and!; [done|done| | |].
    + rewrite Hs. unfold sumZ, CHUNK_MINUTES. simpl. lia.
    + apply Htail. right. unfold CHUNK_MINUTES. lia.
    + apply Htail. right. unfold CHUNK_MINUTES. lia.
Qed.

(** ** String order *)

Lemma ltb_false_leb (s1 s2 : string) :
  String.ltb s1 s2 = false → String.leb s2 s1 = true.
Proof.
  unfold String.ltb, String.leb. rewrite (String.compare_antisym s2 s1).
  by destruct (String.compare s1 s2).
Qed.

Lemma ltb_true_leb (s1 s2 : string) :
  String.ltb s1 s2 = true → String.leb s1 s2 = true.
Proof. unfold String.ltb, String.leb. by destruct (String.compare s1 s2). Qed.

Lemma leb_true_ltb (s1 s2 : string) :
  String.leb s1 s2 = true → String.ltb s2 s1 = false.
Proof.
  unfold String.ltb, String.leb. rewrite (String.compare_antisym s1 s2).
  by destruct (String.compare s2 s1).
Qed.

Lemma leb_refl (s : string) : String.leb s s = true.
Proof. apply Is_true_true. change (String.le s s). reflexivity. Qed.

Lemma ltb_irrefl (s : string) : String.ltb s s = false.
Proof. apply leb_true_ltb, leb_refl. Qed.

Lemma leb_trans (s1 s2 s3 : string) :
  String.leb s1 s2 = true → String.leb s2 s3 = true → String.leb s1 s3 = true.
Proof.
  intros H12 H23. apply Is_true_true.
  change (String.le s1 s3). transitivity s2; by apply Is_true_true.
Qed.

Lemma ltb_neq (s1 s2 : string) : String.ltb s1 s2 = true → s1 ≠ s2.
Proof. intros Hlt ->. by rewrite ltb_irrefl in Hlt. Qed.

Lemma ltb_trans (s1 s2 s3 : string) :
  String.ltb s1 s2 = true → String.ltb s2 s3 = true → String.ltb s1 s3 = true.
Proof.
  intros H12 H23.
  destruct (String.ltb s1 s3) eqn:H13; [done|exfalso].
  apply ltb_false_leb in H13.
  pose proof (leb_trans _ _ _ H13 (ltb_true_leb _ _ H12)) as H32.
  apply leb_true_ltb in H32. congruence.
Qed.

(** ** Chunk keys *)

Lemma string_app_nil (s : string) : "" +:+ s = s.
Proof. done. Qed.

Lemma string_app_cons (c : ascii) (s t : string) :
  String c s +:+ t = String c (s +:+ t).
Proof. done. Qed.

Lemma pretty_N_char_noBar (x : N) : pretty_N_char x ≠ "|"%char.
Proof. unfold pretty_N_char. by repeat case_match. Qed.

Lemma pretty_N_go_noBar (x : N) (s : string) :
  noBar s → noBar (pretty_N_go x s).
Proof.
  revert s. induction (N.lt_wf_0 x) as [x _ IH]; intros s Hs.
  assert (x = 0 ∨ 0 < x)%N as [->|Hpos] by lia.
  - by rewrite pretty_N_go_0.
  - rewrite pretty_N_go_step by done. apply IH.
    + by apply N.div_lt.
    + split; [apply pretty_N_char_noBar | done].
Qed.

Lemma pretty_nat_noBar (n : nat) : noBar (pretty n).
Proof.
  unfold pretty, pretty_nat, pretty, pretty_N.
  case_decide; [by repeat split|]. by apply pretty_N_go_noBar.
Qed.

Lemma noBar_app_bar (s d : string) : ¬ noBar (s +:+ "|" +:+ d).
Proof.
  induction s as [|c s IH];
    repeat (rewrite string_app_nil || rewrite string_app_cons); simpl.
  - by intros [? _].
  - by intros [_ ?].
Qed.

Lemma bar_split_inj (s1 s2 d1 d2 : string) :
  noBar d1 → noBar d2 →
  s1 +:+ "|" +:+ d1 = s2 +:+ "|" +:+ d2 → s1 = s2 ∧ d1 = d2.
Proof.
  intros Hd1 Hd2. revert s2.
  induction s1 as [|c1 s1 IH]; intros [|c2 s2];
    repeat (rewrite string_app_nil || rewrite string_app_cons); intros Heq.
  - by simplify_eq.
  - simplify_eq. by apply noBar_app_bar in Hd1.
  - simplify_eq. by apply noBar_app_bar in Hd2.
  - simplify_eq. destruct (IH s2) as [-> ->]; done.
Qed.

(** A key determines the assignment id and the chunk index it was built
    from, also when the id itself contains ["|"]. *)
Lemma chunkKey_inj (id1 id2 : string) (i1 i2 : nat) :
  chunkKey id1 i1 = chunkKey id2 i2 → id1 = id2 ∧ i1 = i2.
Proof.
  intros Heq.
  apply bar_split_inj in Heq as [-> Hi]; try apply pretty_nat_noBar.
  split; [done|]. by apply (inj pretty).
Qed.

(** ** Clamping *)

Lemma clampToView_bounds (s lo hi : string) :
  String.leb lo hi = true →
  String.leb lo (clampToView s lo hi) = true
  ∧ String.leb (clampToView s lo hi) hi = true.
Proof.
  intros Hlh. unfold clampToView.
  destruct (String.ltb s lo) eqn:H1.
  - split; [apply leb_refl | done].
  - destruct (String.ltb hi s) eqn:H2.
    + split; [done | apply leb_refl].
    + split; by apply ltb_false_leb.
Qed.

Lemma clampToView_before (s lo hi : string) :
  String.ltb s lo = true → clampToView s lo hi = lo.
Proof. intros Hlt. unfold clampToView. by rewrite Hlt. Qed.

Lemma clampToView_after (s lo hi : string) :
  String.leb lo hi = true → String.ltb hi s = true →
  clampToView s lo hi = hi.
Proof.
  intros Hlh Hlt. unfold clampToView. rewrite Hlt.
  destruct (String.ltb s lo) eqn:H1; [|done].
  (* [s < lo ≤ hi < s] cannot be *)
  apply ltb_true_leb in H1.
  pose proof (leb_trans _ _ _ H1 Hlh) as Hle.
  apply leb_true_ltb in Hle. congruence.
Qed.

(** ** The default day index *)

Lemma round_ratio (i p k : Z) :
  0 < p →
  Math.round (num_div i p * inject_Z k) = (2 * i * k + p) / (2 * p).
Proof.
  intros Hp. destruct p as [|p|p]; try lia.
  unfold Math.round, num_div, Qfloor, Qplus, Qmult, Qdiv, Qinv, inject_Z.
  simpl.
  replace (Z.pos (1 * p * 1 * 2)) with (2 * Z.pos p) by lia.
  replace (Z.pos (1 * p * 1)) with (Z.pos p) by lia.
  f_equal. lia.
Qed.

Lemma round_zero (k : Z) : Math.round (0 * inject_Z k) = 0.
Proof. reflexivity. Qed.

Lemma dayIndexOf_one (i L : Z) : dayIndexOf i 1 L = 0.
Proof.
  unfold dayIndexOf. simpl. destruct (L =? 1); [done|apply round_zero].
Qed.

Lemma dayIndexOf_one_day (i n : Z) : dayIndexOf i n 1 = 0.
Proof. unfold dayIndexOf. by destruct (n =? 1). Qed.

Lemma dayIndexOf_closed (i n L : Z) :
  2 ≤ n → dayIndexOf i n L = (2 * i * (L - 1) + (n - 1)) / (2 * (n - 1)).
Proof.
  intros Hn. unfold dayIndexOf.
  destruct (n =? 1) eqn:Hn1; [lia|].
  destruct (L =? 1) eqn:HL.
  - apply Z.eqb_eq in HL. subst L.
    replace (2 * i * (1 - 1) + (n - 1)) with (n - 1) by lia.
    symmetry. apply Z.div_small. lia.
  - apply round_ratio. lia.
Qed.

(** The source's index and the specification's formula agree. *)
Lemma dayIndexOf_spec (i n L : Z) :
  1 ≤ n → dayIndexOf i n L = spec_dayIndex i n L.
Proof.
  intros Hn. unfold spec_dayIndex.
  destruct (1 <? n) eqn:H1.
  - apply Z.ltb_lt in H1. rewrite dayIndexOf_closed by lia.
    symmetry. apply round_ratio. lia.
  - apply Z.ltb_ge in H1. assert (n = 1) as -> by lia.
    apply dayIndexOf_one.
Qed.

Lemma dayIndexOf_range (i n L : Z) :
  1 ≤ n → 0 ≤ i < n → 1 ≤ L → 0 ≤ dayIndexOf i n L ≤ L - 1.
Proof.
  intros Hn Hi HL.
  destruct (decide (n = 1)) as [->|Hn1].
  - rewrite dayIndexOf_one. lia.
  - rewrite dayIndexOf_closed by lia. split.
    + apply Z.div_pos; nia.
    + cut ((2 * i * (L - 1) + (n - 1)) / (2 * (n - 1)) < L); [lia|].
      apply Z.div_lt_upper_bound; nia.
Qed.

Lemma dayIndexOf_first (n L : Z) : 1 ≤ n → dayIndexOf 0 n L = 0.
Proof.
  intros Hn. destruct (decide (n = 1)) as [->|Hn1].
  - apply dayIndexOf_one.
  - rewrite dayIndexOf_closed by lia. apply Z.div_small. lia.
Qed.

Lemma dayIndexOf_last (n L : Z) : 2 ≤ n → dayIndexOf (n - 1) n L = L - 1.
Proof.
  intros Hn. rewrite dayIndexOf_closed by lia.
  replace (2 * (n - 1) * (L - 1) + (n - 1))
    with ((L - 1) * (2 * (n - 1)) + (n - 1)) by lia.
  rewrite Z.div_add_l by lia. rewrite Z.div_small by lia. lia.
Qed.

(** ** The scheduler *)

Section SchedulerFacts.
Context `{DateLib}.
Implicit Types (a : Assignment.t) (c : PlanChunk.t)
  (overrides : OverridesByChunkKey) (env : Ambient).

Lemma windowLenOf_pos viewStart due : 1 ≤ windowLenOf viewStart due.
Proof. unfold windowLenOf, Math.max. lia. Qed.

Lemma DateTime_min_eq viewStart due :
  dayStart_increasing →
  DateTime_min (localDay <$> due) (viewStart + 6) = lastDayOf viewStart due.
Proof.
  intros Hmono. destruct due as [t|]; simpl; [|done].
  destruct (dayStart (localDay t) <=? dayStart (viewStart + 6)) eqn:Hle.
  - apply Z.leb_le in Hle.
    destruct (decide (localDay t ≤ viewStart + 6)) as [?|Hgt]; [lia|].
    specialize (Hmono (viewStart + 6) (localDay t)). lia.
  - apply Z.leb_gt in Hle.
    destruct (decide (viewStart + 6 ≤ localDay t)) as [?|Hlt]; [lia|].
    specialize (Hmono (localDay t) (viewStart + 6)). lia.
Qed.

Lemma windowLenOf_eq viewStart due :
  dayStart_increasing →
  windowLenOf viewStart due
  = Z.max 0 (lastDayOf viewStart due - viewStart) + 1.
Proof.
  intros Hmono. unfold windowLenOf, Math.floor.
  by rewrite DateTime_min_eq, Qfloor_Z.
Qed.

Lemma windowLenOf_le viewStart due :
  dayStart_increasing → windowLenOf viewStart due ≤ 7.
Proof.
  intros Hmono. rewrite windowLenOf_eq by done.
  unfold lastDayOf. destruct due; lia.
Qed.

Lemma windowDaysOf_get viewStart windowLen k :
  0 ≤ k < windowLen →
  array_get (windowDaysOf viewStart windowLen) k
  = Some (toISODate (viewStart + k)).
Proof.
  intros Hk. unfold array_get, windowDaysOf.
  destruct (k <? 0) eqn:Hneg; [lia|].
  rewrite list_lookup_fmap.
  rewrite (lookup_seqZ_lt 0 windowLen (Z.to_nat k)) by lia.
  simpl. do 2 f_equal. lia.
Qed.

(** [days[dayIndex]] is never [undefined]. *)
Lemma defaultDay_defined viewStart due (i chunkCount : nat) :
  (i < chunkCount)%nat →
  let windowLen := windowLenOf viewStart due in
  let dayIndex := dayIndexOf (Z.of_nat i) (Z.of_nat chunkCount) windowLen in
  array_get (windowDaysOf viewStart windowLen) dayIndex
  = Some (toISODate (viewStart + dayIndex)).
Proof.
  intros Hi windowLen dayIndex. apply windowDaysOf_get.
  pose proof (windowLenOf_pos viewStart due).
  pose proof (dayIndexOf_range (Z.of_nat i) (Z.of_nat chunkCount) windowLen).
  subst windowLen dayIndex. lia.
Qed.

Lemma planAssignment_stale viewStart overrides a :
  isStale viewStart (fromISO (Assignment.dueISO a)) = true →
  planAssignment viewStart overrides a = [].
Proof. intros Hs. unfold planAssignment. by rewrite Hs. Qed.

Lemma planAssignment_lookup viewStart overrides a (i : nat) :
  isStale viewStart (fromISO (Assignment.dueISO a)) = false →
  planAssignment viewStart overrides a !! i
  = planChunk viewStart overrides a
      (length (splitMinutes (totalMinutesOf a)))
      (windowLenOf viewStart (fromISO (Assignment.dueISO a))) i
    <$> splitMinutes (totalMinutesOf a) !! i.
Proof.
  intros Hs. unfold planAssignment. rewrite Hs. simpl.
  apply list_lookup_imap.
Qed.

Lemma elem_of_planAssignment viewStart overrides a c :
  c ∈ planAssignment viewStart overrides a ↔
  isStale viewStart (fromISO (Assignment.dueISO a)) = false
  ∧ ∃ (i : nat) (mins : Z),
      splitMinutes (totalMinutesOf a) !! i = Some mins
      ∧ c = planChunk viewStart overrides a
              (length (splitMinutes (totalMinutesOf a)))
              (windowLenOf viewStart (fromISO (Assignment.dueISO a)))
              i mins.
Proof.
  unfold planAssignment.
  destruct (isStale viewStart (fromISO (Assignment.dueISO a))).
  - split; [by intros ?%elem_of_nil | by intros [? _]].
  - rewrite elem_of_lookup_imap. split.
    + intros (i & mins & -> & Hi). split; [done|]. by exists i, mins.
    + intros (_ & i & mins & Hi & ->). by exists i, mins.
Qed.

Lemma planAssignment_minutes viewStart overrides a :
  isStale viewStart (fromISO (Assignment.dueISO a)) = false →
  PlanChunk.minutes <$> planAssignment viewStart overrides a
  = splitMinutes (totalMinutesOf a).
Proof.
  intros Hs. unfold planAssignment. rewrite Hs. simpl.
  rewrite fmap_imap. apply list_eq. intros i.
  rewrite list_lookup_imap. by destruct (_ !! i).
Qed.

Lemma totalMinutesOf_ge a : 30 ≤ totalMinutesOf a.
Proof. unfold totalMinutesOf, Math.max. lia. Qed.

Lemma buildDayPlan_perm env items overrides :
  buildDayPlan env items overrides
  ≡ₚ items ≫= planAssignment (viewStartOf env) overrides.
Proof.
  unfold buildDayPlan. rewrite Array_sort_perm, foldl_push. simpl.
  by rewrite (Array_sort_perm compareDue items).
Qed.

Lemma elem_of_buildDayPlan env items overrides c :
  c ∈ buildDayPlan env items overrides ↔
  ∃ a, a ∈ items ∧ c ∈ planAssignment (viewStartOf env) overrides a.
Proof.
  rewrite buildDayPlan_perm, list_elem_of_bind. split.
  - intros (a & Hc & Ha). by exists a.
  - intros (a & Ha & Hc). by exists a.
Qed.

Lemma planAssignment_assignmentId viewStart overrides a c :
  c ∈ planAssignment viewStart overrides a →
  PlanChunk.assignmentId c = Assignment.id a.
Proof.
  intros (_ & i & mins & _ & ->)%elem_of_planAssignment. done.
Qed.

Lemma chunksOf_own viewStart overrides a :
  chunksOf a (planAssignment viewStart overrides a)
  = planAssignment viewStart overrides a.
Proof.
  unfold chunksOf.
  assert (Hall : Forall (λ c, PlanChunk.assignmentId c = Assignment.id a)
                   (planAssignment viewStart overrides a)).
  { apply Forall_forall. intros c. apply planAssignment_assignmentId. }
  induction Hall as [|c l Hc _ IH]; [done|].
  rewrite filter_cons_True by done. by rewrite IH.
Qed.

Lemma chunksOf_other viewStart overrides a (items : list Assignment.t) :
  Assignment.id a ∉ Assignment.id <$> items →
  chunksOf a (items ≫= planAssignment viewStart overrides) = [].
Proof.
  intros Hnot. unfold chunksOf.
  induction items as [|b items IH]; [done|].
  rewrite bind_cons, filter_app.
  rewrite fmap_cons, not_elem_of_cons in Hnot. destruct Hnot as [Hb Hrest].
  rewrite IH by done. rewrite app_nil_r.
  assert (Hall : Forall (λ c, PlanChunk.assignmentId c ≠ Assignment.id a)
                   (planAssignment viewStart overrides b)).
  { apply Forall_forall. intros c Hc.
    apply planAssignment_assignmentId in Hc. congruence. }
  induction Hall as [|c l Hc _ IHl]; [done|].
  by rewrite filter_cons_False.
Qed.

(** *** The day of a chunk *)

Lemma window_sorted_ends viewStart :
  window_sorted viewStart →
  String.leb (toISODate viewStart) (toISODate (viewStart + 6)) = true.
Proof.
  intros Hw. specialize (Hw 0 6). rewrite Z.add_0_r in Hw. apply Hw; lia.
Qed.

Lemma window_sorted_inside viewStart k :
  window_sorted viewStart → 0 ≤ k ≤ 6 →
  clampToView (toISODate (viewStart + k)) (toISODate viewStart)
    (toISODate (viewStart + 6))
  = toISODate (viewStart + k).
Proof.
  intros Hw Hk. unfold clampToView.
  pose proof (Hw 0 k) as Hlo. rewrite Z.add_0_r in Hlo.
  rewrite (leb_true_ltb _ _ (Hlo ltac:(lia) ltac:(lia) ltac:(lia))).
  rewrite (leb_true_ltb _ _ (Hw k 6 ltac:(lia) ltac:(lia) ltac:(lia))).
  done.
Qed.

Lemma elem_of_windowDaysOf viewStart windowLen k :
  0 ≤ k < windowLen →
  toISODate (viewStart + k) ∈ windowDaysOf viewStart windowLen.
Proof.
  intros Hk. unfold windowDaysOf.
  apply (list_elem_of_fmap_2 (λ d, toISODate (viewStart + d))).
  apply elem_of_seqZ. lia.
Qed.

Lemma planChunk_dayISO_override viewStart overrides a n L (i : nat) mins
    (o : ChunkOverride.t) (s : string) :
  overrides !! chunkKey (Assignment.id a) i = Some o →
  ChunkOverride.dayISO o = Some s →
  PlanChunk.dayISO (planChunk viewStart overrides a n L i mins)
  = clampToView s (toISODate viewStart) (toISODate (viewStart + 6)).
Proof. intros Ho Hs. unfold planChunk. rewrite Ho. simpl. by rewrite Hs. Qed.

Lemma planChunk_dayISO_default viewStart overrides a due (n i : nat) mins :
  dayStart_increasing → window_sorted viewStart →
  (i < n)%nat →
  overrides !! chunkKey (Assignment.id a) i ≫= ChunkOverride.dayISO = None →
  PlanChunk.dayISO
    (planChunk viewStart overrides a n (windowLenOf viewStart due) i mins)
  = toISODate (viewStart
               + dayIndexOf (Z.of_nat i) (Z.of_nat n)
                   (windowLenOf viewStart due)).
Proof.
  intros Hmono Hw Hi Hov. unfold planChunk. simpl.
  assert (ChunkOverride.dayISO
            (default ChunkOverride.empty
               (overrides !! chunkKey (Assignment.id a) i)) = None) as ->.
  { by destruct (overrides !! chunkKey (Assignment.id a) i). }
  simpl. rewrite defaultDay_defined by done. simpl.
  apply window_sorted_inside; [done|].
  pose proof (windowLenOf_pos viewStart due).
  pose proof (windowLenOf_le viewStart due Hmono).
  pose proof (dayIndexOf_range (Z.of_nat i) (Z.of_nat n)
                (windowLenOf viewStart due)).
  lia.
Qed.

Lemma planAssignment_length viewStart overrides a :
  length (planAssignment viewStart overrides a)
  = if isStale viewStart (fromISO (Assignment.dueISO a)) then 0%nat
    else length (splitMinutes (totalMinutesOf a)).
Proof.
  unfold planAssignment. destruct (isStale _ _); [done|].
  simpl. apply length_imap.
Qed.

(** *** Dependence on the override map *)

Lemma planAssignment_ext viewStart overrides overrides' a :
  (∀ i : nat, overrides !! chunkKey (Assignment.id a) i
              = overrides' !! chunkKey (Assignment.id a) i) →
  planAssignment viewStart overrides a
  = planAssignment viewStart overrides' a.
Proof.
  intros Hagree. unfold planAssignment.
  destruct (isStale _ _); [done|]. simpl.
  apply imap_ext. intros i mins _. unfold planChunk. by rewrite Hagree.
Qed.

Lemma planAssignment_keys viewStart overrides overrides' a :
  PlanChunk.key <$> planAssignment viewStart overrides a
  = PlanChunk.key <$> planAssignment viewStart overrides' a.
Proof.
  unfold planAssignment. destruct (isStale _ _); [done|]. simpl.
  rewrite !fmap_imap. by apply imap_ext.
Qed.

Lemma fmap_bind_list {A B C} (f : B → C) (g : A → list B) (l : list A) :
  f <$> (l ≫= g) = l ≫= (λ x, f <$> g x).
Proof.
  induction l as [|x l IH]; [done|].
  by rewrite !bind_cons, fmap_app, IH.
Qed.

Lemma bind_ext_in {A B} (g1 g2 : A → list B) (l : list A) :
  (∀ x, x ∈ l → g1 x = g2 x) → l ≫= g1 = l ≫= g2.
Proof.
  intros Hext. induction l as [|x l IH]; [done|].
  rewrite !bind_cons, IH, Hext; [done|apply list_elem_of_here|].
  intros y Hy. apply Hext. by apply list_elem_of_further.
Qed.

Lemma buildDayPlan_unfold env items overrides :
  buildDayPlan env items overrides
  = Array_sort compareChunks
      (Array_sort compareDue items
         ≫= planAssignment (viewStartOf env) overrides).
Proof. unfold buildDayPlan. simpl. by rewrite foldl_push. Qed.

Lemma compareChunks_markDoneAt key (x y : PlanChunk.t) :
  compareChunks (markDoneAt key x) (markDoneAt key y) = compareChunks x y.
Proof.
  unfold compareChunks, markDoneAt.
  by destruct (bool_decide (PlanChunk.key x = key)),
              (bool_decide (PlanChunk.key y = key)).
Qed.

Lemma planAssignment_toggleDone viewStart overrides a key :
  default false
    (ChunkOverride.done (default ChunkOverride.empty (overrides !! key)))
  = false →
  planAssignment viewStart (toggleDone key overrides) a
  = markDoneAt key <$> planAssignment viewStart overrides a.
Proof.
  intros Hdone. unfold planAssignment.
  destruct (isStale _ _); [done|]. simpl.
  rewrite fmap_imap. apply imap_ext. intros i mins _. simpl.
  unfold planChunk, markDoneAt, markDone, toggleDone. simpl.
  destruct (decide (chunkKey (Assignment.id a) i = key)) as [Heq|Hne].
  - rewrite bool_decide_eq_true_2 by done. simpl.
    rewrite Heq, lookup_insert_eq. simpl. by rewrite Hdone.
  - rewrite bool_decide_eq_false_2 by done.
    by rewrite lookup_insert_ne.
Qed.

Lemma NoDup_fmap_eq {A B} (f : A → B) (l : list A) (x y : A) :
  NoDup (f <$> l) → x ∈ l → y ∈ l → f x = f y → x = y.
Proof.
  intros Hnd (i & Hi)%list_elem_of_lookup_1 (j & Hj)%list_elem_of_lookup_1 Hf.
  assert (i = j) as ->; [|congruence].
  apply (NoDup_lookup _ _ _ (f x) Hnd).
  - by rewrite list_lookup_fmap, Hi.
  - by rewrite list_lookup_fmap, Hj, Hf.
Qed.

Lemma planAssignment_keys_NoDup viewStart overrides a :
  NoDup (PlanChunk.key <$> planAssignment viewStart overrides a).
Proof.
  apply NoDup_alt. intros i j key.
  rewrite !list_lookup_fmap.
  destruct (isStale viewStart (fromISO (Assignment.dueISO a))) eqn:Hstale.
  { by rewrite planAssignment_stale. }
  rewrite !planAssignment_lookup by done.
  destruct (splitMinutes (totalMinutesOf a) !! i) as [mi|]; [|done].
  destruct (splitMinutes (totalMinutesOf a) !! j) as [mj|]; [|done].
  simpl. intros [= <-] [= Hkey]. by apply chunkKey_inj in Hkey as [_ ?].
Qed.

(** With unique assignment ids, a key names a single chunk of the plan. *)
Lemma plan_keys_NoDup env items overrides :
  NoDup (Assignment.id <$> items) →
  NoDup (PlanChunk.key <$> buildDayPlan env items overrides).
Proof.
  intros Hids. rewrite buildDayPlan_perm, fmap_bind_list.
  apply NoDup_bind.
  - intros a1 a2 key Ha1 Ha2.
    intros (c1 & -> & Hc1)%list_elem_of_fmap (c2 & Hkey & Hc2)%list_elem_of_fmap.
    apply elem_of_planAssignment in Hc1 as (_ & i1 & m1 & _ & ->).
    apply elem_of_planAssignment in Hc2 as (_ & i2 & m2 & _ & ->).
    apply chunkKey_inj in Hkey as [Hid _].
    by apply (NoDup_fmap_eq Assignment.id items).
  - intros a _. apply planAssignment_keys_NoDup.
  - by apply NoDup_fmap_1 in Hids.
Qed.
End SchedulerFacts.

(** * The claims *)

Section Claims.
Context `{DateLib}.
Implicit Types (a : Assignment.t) (c : PlanChunk.t)
  (overrides : OverridesByChunkKey) (env : Ambient).

(** C1 — For every assignment of the list that passes the stale-item
    filter and whose due date parses, the minutes of the chunks produced
    for it add up to [max(30, estimateMinutes ?? 60)] exactly, whatever
    the override map: the chunks pushed for the assignment are part of the
    plan and have that sum, and when assignment ids are unique the chunks
    of the plan that carry the assignment's id have that sum. *)
Theorem chunk_minutes_sum env items overrides a :
  a ∈ items →
  isStale (viewStartOf env) (fromISO (Assignment.dueISO a)) = false →
  is_Some (fromISO (Assignment.dueISO a)) →
  sumZ (PlanChunk.minutes
          <$> planAssignment (viewStartOf env) overrides a)
  = Z.max 30 (default 60 (Assignment.estimateMinutes a))
  ∧ (∃ rest, buildDayPlan env items overrides
             ≡ₚ planAssignment (viewStartOf env) overrides a ++ rest)
  ∧ (NoDup (Assignment.id <$> items) →
     sumZ (PlanChunk.minutes
             <$> chunksOf a (buildDayPlan env items overrides))
     = Z.max 30 (default 60 (Assignment.estimateMinutes a))).
Proof.
  intros Ha Hstale _.
  assert (Hsum : sumZ (PlanChunk.minutes
                         <$> planAssignment (viewStartOf env) overrides a)
                 = Z.max 30 (default 60 (Assignment.estimateMinutes a))).
  { rewrite planAssignment_minutes by done.
    destruct (splitMinutes_spec (totalMinutesOf a) (totalMinutesOf_ge a))
      as (_ & _ & _ & _ & Hs & _).
    exact Hs. }
  apply elem_of_Permutation in Ha as [items' Hperm].
  assert (Hplan : buildDayPlan env items overrides
                  ≡ₚ planAssignment (viewStartOf env) overrides a
                     ++ (items' ≫= planAssignment (viewStartOf env) overrides)).
  { rewrite buildDayPlan_perm, Hperm. by rewrite bind_cons. }
  split_and!; [done|by eexists|].
  intros Hnodup. rewrite <- Hsum. apply sumZ_perm.
  apply fmap_Permutation. unfold chunksOf at 1.
  rewrite Hplan, filter_app.
  fold (chunksOf a (planAssignment (viewStartOf env) overrides a)).
  fold (chunksOf a (items' ≫= planAssignment (viewStartOf env) overrides)).
  rewrite chunksOf_own, chunksOf_other; [by rewrite app_nil_r|].
  rewrite Hperm, fmap_cons in Hnodup. by apply NoDup_cons in Hnodup as [? _].
Qed.

(** C7 — An assignment whose due instant lies more than 30 days before
    the start of today produces no chunk, whatever the override map: the
    loop pushes nothing for it, and when no other assignment shares its
    id, no chunk of the plan carries its id. *)
Theorem stale_assignment_has_no_chunks env items overrides a (due : Z) :
  a ∈ items →
  fromISO (Assignment.dueISO a) = Some due →
  due < dayStart (viewStartOf env - 30) →
  planAssignment (viewStartOf env) overrides a = []
  ∧ ((∀ b, b ∈ items → Assignment.id b = Assignment.id a → b = a) →
     chunksOf a (buildDayPlan env items overrides) = []).
Proof.
  intros Ha Hdue Hlt.
  assert (Hnil : planAssignment (viewStartOf env) overrides a = []).
  { apply planAssignment_stale. rewrite Hdue. simpl. by apply Z.ltb_lt. }
  split; [done|]. intros Huniq.
  unfold chunksOf.
  destruct (filter _ (buildDayPlan env items overrides)) as [|c l] eqn:Hf;
    [done|exfalso].
  assert (Hc : c ∈ filter
                 (λ c, PlanChunk.assignmentId c = Assignment.id a)
                 (buildDayPlan env items overrides))
    by (rewrite Hf; apply list_elem_of_here).
  apply list_elem_of_filter in Hc as [Hid Hc].
  apply elem_of_buildDayPlan in Hc as (b & Hb & Hcb).
  pose proof (planAssignment_assignmentId _ _ _ _ Hcb) as Hidb.
  assert (b = a) as -> by (apply Huniq; [done|congruence]).
  rewrite Hnil in Hcb. by apply elem_of_nil in Hcb.
Qed.

(** C8, as the code has it — An assignment with an estimate of 70
    minutes that passes the stale-item filter is split into chunks of
    30, 30 and 10 minutes: a remainder of exactly 10 minutes is not under
    [MIN_LAST_CHUNK] and stays a chunk of its own. *)
Theorem estimate_70_chunks env overrides a :
  Assignment.estimateMinutes a = Some 70 →
  isStale (viewStartOf env) (fromISO (Assignment.dueISO a)) = false →
  PlanChunk.minutes <$> planAssignment (viewStartOf env) overrides a
  = [30; 30; 10]
  ∧ PlanChunk.minutes <$> buildDayPlan env [a] overrides ≡ₚ [30; 30; 10].
Proof.
  intros Hest Hstale.
  assert (Hmins : PlanChunk.minutes
                    <$> planAssignment (viewStartOf env) overrides a
                  = [30; 30; 10]).
  { rewrite planAssignment_minutes by done.
    unfold totalMinutesOf. by rewrite Hest. }
  split; [done|].
  rewrite buildDayPlan_perm, bind_singleton. by rewrite Hmins.
Qed.

(** C9, as the code has it — Every chunk of a plan has between 10 and 39
    minutes: a chunk is 30 minutes long, except the last chunk of an
    assignment, which takes the remainder and, when that remainder is
    under 10 minutes, is the previous 30-minute chunk extended by it. *)
Theorem chunk_minutes_bounds env items overrides c :
  c ∈ buildDayPlan env items overrides →
  10 ≤ PlanChunk.minutes c ≤ 39.
Proof.
  intros (a & _ & Hc)%elem_of_buildDayPlan.
  apply elem_of_planAssignment in Hc as (_ & i & mins & Hi & ->). simpl.
  destruct (splitMinutes_spec (totalMinutesOf a) (totalMinutesOf_ge a))
    as (body & tail & Heq & Hbody & _ & Htail).
  rewrite Heq in Hi. apply list_elem_of_lookup_2 in Hi.
  apply elem_of_app in Hi as [Hi|Hi].
  - rewrite Forall_forall in Hbody. rewrite (Hbody _ Hi). lia.
  - apply list_elem_of_singleton in Hi as ->. done.
Qed.

Lemma plan_days_between env items overrides c :
  dayStart_increasing →
  window_sorted (viewStartOf env) →
  c ∈ buildDayPlan env items overrides →
  String.leb (toISODate (viewStartOf env)) (PlanChunk.dayISO c) = true
  ∧ String.leb (PlanChunk.dayISO c) (toISODate (viewStartOf env + 6)) = true
  ∧ (PlanChunk.dayISO c ∈ windowDaysOf (viewStartOf env) 7
     ∨ overrides !! PlanChunk.key c ≫= ChunkOverride.dayISO
       = Some (PlanChunk.dayISO c)).
Proof.
  intros Hmono Hw (a & _ & Hc)%elem_of_buildDayPlan.
  apply elem_of_planAssignment in Hc as (_ & i & mins & Hi & ->).
  pose proof (window_sorted_ends _ Hw) as Hends.
  set (viewStart := viewStartOf env) in *.
  set (due := fromISO (Assignment.dueISO a)).
  set (n := length (splitMinutes (totalMinutesOf a))).
  assert (Hin : (i < n)%nat) by (by apply lookup_lt_Some in Hi).
  split_and!.
  - unfold planChunk. simpl. by apply clampToView_bounds.
  - unfold planChunk. simpl. by apply clampToView_bounds.
  - change (PlanChunk.key (planChunk viewStart overrides a n
              (windowLenOf viewStart due) i mins))
      with (chunkKey (Assignment.id a) i).
    destruct (overrides !! chunkKey (Assignment.id a) i ≫= ChunkOverride.dayISO)
      as [s|] eqn:Hov.
    + destruct (overrides !! chunkKey (Assignment.id a) i) as [o|] eqn:Ho;
        [|done]. simpl in Hov.
      rewrite (planChunk_dayISO_override _ _ _ _ _ _ _ o s) by done.
      unfold clampToView.
      destruct (String.ltb s (toISODate viewStart)).
      * left. rewrite <- (Z.add_0_r viewStart) at 1.
        apply elem_of_windowDaysOf. lia.
      * destruct (String.ltb (toISODate (viewStart + 6)) s).
        -- left. apply elem_of_windowDaysOf. lia.
        -- by right.
    + left. rewrite planChunk_dayISO_default by done.
      apply elem_of_windowDaysOf.
      pose proof (windowLenOf_pos viewStart due).
      pose proof (windowLenOf_le viewStart due Hmono).
      pose proof (dayIndexOf_range (Z.of_nat i) (Z.of_nat n)
                    (windowLenOf viewStart due)).
      lia.
Qed.

(** C2 — Every chunk of a plan has a day string between [viewStartISO]
    and [viewEndISO] in the order [clampToView] compares days in, for
    every assignment list and override map. It is one of the seven dates
    from today to today+6 unless it is the chunk's own override string,
    kept as written because it compares inside the window; and so it is
    one of the seven whenever the chunk has no day override or its
    override day is the ISO date of a calendar day. *)
Theorem plan_days_in_window env items overrides c :
  dayStart_increasing →
  window_sorted (viewStartOf env) →
  c ∈ buildDayPlan env items overrides →
  String.leb (toISODate (viewStartOf env)) (PlanChunk.dayISO c) = true
  ∧ String.leb (PlanChunk.dayISO c) (toISODate (viewStartOf env + 6)) = true
  ∧ (PlanChunk.dayISO c ∈ windowDaysOf (viewStartOf env) 7
     ∨ overrides !! PlanChunk.key c ≫= ChunkOverride.dayISO
       = Some (PlanChunk.dayISO c))
  ∧ ∀ lo hi : Z,
      iso_dates_ordered lo hi →
      lo ≤ viewStartOf env → viewStartOf env + 6 ≤ hi →
      (∀ s, overrides !! PlanChunk.key c ≫= ChunkOverride.dayISO = Some s →
            ∃ d, lo ≤ d ≤ hi ∧ s = toISODate d) →
      PlanChunk.dayISO c ∈ windowDaysOf (viewStartOf env) 7.
Proof.
  intros Hmono Hw Hc.
  destruct (plan_days_between env items overrides c Hmono Hw Hc)
    as (Hlo & Hhi & Hin).
  split_and!; [done|done|done|].
  intros lo hi Hord Hlo' Hhi' Hiso.
  destruct Hin as [Hin|Hov]; [done|].
  destruct (Hiso _ Hov) as (d & Hd & Hs). rewrite Hs in Hlo, Hhi |- *.
  destruct (decide (d < viewStartOf env)) as [Hbefore|Hnb].
  { apply leb_true_ltb in Hlo.
    by rewrite (Hord d (viewStartOf env)) in Hlo by lia. }
  destruct (decide (viewStartOf env + 6 < d)) as [Hafter|Hna].
  { apply leb_true_ltb in Hhi.
    by rewrite (Hord (viewStartOf env + 6) d) in Hhi by lia. }
  replace d with (viewStartOf env + (d - viewStartOf env)) by lia.
  apply elem_of_windowDaysOf. lia.
Qed.

(** C6 — A chunk whose override names a day outside the window gets the
    nearest boundary of the window as its day, not the override's value:
    [viewStartISO] for an override day before the window, [viewEndISO]
    for one after it. Nothing fails: the plan has as many chunks as the
    plan computed without overrides. *)
Theorem override_day_clamped env items overrides c
    (o : ChunkOverride.t) (s : string) :
  window_sorted (viewStartOf env) →
  c ∈ buildDayPlan env items overrides →
  overrides !! PlanChunk.key c = Some o →
  ChunkOverride.dayISO o = Some s →
  (String.ltb s (toISODate (viewStartOf env)) = true →
   PlanChunk.dayISO c = toISODate (viewStartOf env)
   ∧ PlanChunk.dayISO c ≠ s)
  ∧ (String.ltb (toISODate (viewStartOf env + 6)) s = true →
     PlanChunk.dayISO c = toISODate (viewStartOf env + 6)
     ∧ PlanChunk.dayISO c ≠ s)
  ∧ length (buildDayPlan env items overrides)
    = length (buildDayPlan env items ∅).
Proof.
  intros Hw (a & _ & Hc)%elem_of_buildDayPlan Ho Hs.
  apply elem_of_planAssignment in Hc as (_ & i & mins & Hi & ->).
  pose proof (window_sorted_ends _ Hw) as Hends.
  change (PlanChunk.key (planChunk _ _ a _ _ i mins))
    with (chunkKey (Assignment.id a) i) in Ho.
  rewrite (planChunk_dayISO_override _ _ _ _ _ _ _ o s) by done.
  split_and!.
  - intros Hlt. rewrite clampToView_before by done.
    split; [done|]. intros Heq. by apply ltb_neq in Hlt.
  - intros Hlt. rewrite clampToView_after by done.
    split; [done|]. by apply ltb_neq in Hlt.
  - rewrite !buildDayPlan_perm.
    induction items as [|b items IH]; [done|].
    rewrite !bind_cons, !length_app, IH. f_equal.
    by rewrite !planAssignment_length.
Qed.

(** C5, as the code has it — For an assignment that yields [n] chunks
    over a local window of [L] days (today up to [min(due day, window
    end)], one day when the due day is already past), a chunk [i] without
    a day override falls on day [round(i/(n-1) * (L-1))] of the window
    when [n > 1] and on day 0 when [n = 1]. The first chunk falls on
    today; the last chunk falls on [min(due day, window end)] when there
    are at least two chunks and the due day is not before today; every
    chunk falls on today when the due day is today or earlier. *)
Theorem default_day_spread env overrides a (i : nat) c :
  dayStart_increasing →
  window_sorted (viewStartOf env) →
  planAssignment (viewStartOf env) overrides a !! i = Some c →
  overrides !! chunkKey (Assignment.id a) i ≫= ChunkOverride.dayISO = None →
  PlanChunk.dayISO c
  = toISODate
      (viewStartOf env
       + spec_dayIndex (Z.of_nat i)
           (Z.of_nat (length (planAssignment (viewStartOf env) overrides a)))
           (windowLenOf (viewStartOf env) (fromISO (Assignment.dueISO a))))
  ∧ windowLenOf (viewStartOf env) (fromISO (Assignment.dueISO a))
    = Z.max 0 (lastDayOf (viewStartOf env) (fromISO (Assignment.dueISO a))
               - viewStartOf env) + 1
  ∧ (i = 0%nat → PlanChunk.dayISO c = toISODate (viewStartOf env))
  ∧ ((1 < length (planAssignment (viewStartOf env) overrides a))%nat →
     S i = length (planAssignment (viewStartOf env) overrides a) →
     viewStartOf env
     ≤ lastDayOf (viewStartOf env) (fromISO (Assignment.dueISO a)) →
     PlanChunk.dayISO c
     = toISODate
         (lastDayOf (viewStartOf env) (fromISO (Assignment.dueISO a))))
  ∧ (lastDayOf (viewStartOf env) (fromISO (Assignment.dueISO a))
     ≤ viewStartOf env →
     PlanChunk.dayISO c = toISODate (viewStartOf env)).
Proof.
  intros Hmono Hw Hc Hov.
  set (viewStart := viewStartOf env) in *.
  set (due := fromISO (Assignment.dueISO a)) in *.
  destruct (isStale viewStart due) eqn:Hstale.
  { by rewrite planAssignment_stale in Hc. }
  rewrite planAssignment_length. fold due. rewrite Hstale.
  rewrite planAssignment_lookup in Hc by done.
  set (n := length (splitMinutes (totalMinutesOf a))) in *.
  destruct (splitMinutes (totalMinutesOf a) !! i) as [mins|] eqn:Hi;
    [|done].
  assert (Hin : (i < n)%nat) by (by apply lookup_lt_Some in Hi).
  simpl in Hc. injection Hc as <-. fold due.
  rewrite (planChunk_dayISO_default _ _ _ due) by done.
  pose proof (windowLenOf_eq viewStart due Hmono) as HL.
  split_and!.
  - by rewrite dayIndexOf_spec by lia.
  - done.
  - intros ->. rewrite dayIndexOf_first by lia. by rewrite Z.add_0_r.
  - intros Hn Hlast Hdue.
    replace (Z.of_nat i) with (Z.of_nat n - 1) by lia.
    rewrite dayIndexOf_last by lia. rewrite HL. f_equal. lia.
  - intros Hpast. rewrite HL.
    replace (Z.max 0 (lastDayOf viewStart due - viewStart) + 1) with 1
      by lia.
    by rewrite dayIndexOf_one_day, Z.add_0_r.
Qed.

(** C10 — Every chunk of a plan carries the id of an assignment of the
    input list, and its key is built from that id; override entries under
    keys of no input assignment have no effect on the plan: two override
    maps that agree on the keys of the input assignments give the same
    plan. *)
Theorem plan_ignores_orphan_overrides env items overrides overrides' :
  (∀ a (i : nat), a ∈ items →
     overrides !! chunkKey (Assignment.id a) i
     = overrides' !! chunkKey (Assignment.id a) i) →
  (∀ c, c ∈ buildDayPlan env items overrides →
        ∃ a (i : nat), a ∈ items
          ∧ PlanChunk.assignmentId c = Assignment.id a
          ∧ PlanChunk.key c = chunkKey (Assignment.id a) i)
  ∧ buildDayPlan env items overrides = buildDayPlan env items overrides'.
Proof.
  intros Hagree. split.
  - intros c (a & Ha & Hc)%elem_of_buildDayPlan.
    apply elem_of_planAssignment in Hc as (_ & i & mins & _ & ->).
    by exists a, i.
  - rewrite !buildDayPlan_unfold. f_equal. apply bind_ext_in.
    intros b Hb. apply planAssignment_ext. intros i. apply Hagree.
    by rewrite Array_sort_perm in Hb.
Qed.

(** C3 — Chunk keys are built from the assignment id and the chunk index
    and do not depend on the override map; with unique assignment ids a
    key names a single chunk of the plan. For a chunk [c] of assignment
    [a] that is not done, toggling [done] under [c]'s key and recomputing
    gives the same plan with the chunks of that key marked done and every
    other chunk unchanged; and in the plan of any edited list [items']
    that still holds [a], the chunk is there, marked done, and every
    chunk of that key is done. *)
Theorem done_override_is_stable env items items' overrides overrides2 a c :
  a ∈ items →
  a ∈ items' →
  c ∈ planAssignment (viewStartOf env) overrides a →
  PlanChunk.done c = false →
  (∃ i : nat, PlanChunk.key c = chunkKey (Assignment.id a) i)
  ∧ PlanChunk.key <$> buildDayPlan env items overrides2
    ≡ₚ PlanChunk.key <$> buildDayPlan env items overrides
  ∧ (NoDup (Assignment.id <$> items) →
     NoDup (PlanChunk.key <$> buildDayPlan env items overrides))
  ∧ buildDayPlan env items (toggleDone (PlanChunk.key c) overrides)
    = markDoneAt (PlanChunk.key c) <$> buildDayPlan env items overrides
  ∧ markDone c
    ∈ buildDayPlan env items' (toggleDone (PlanChunk.key c) overrides)
  ∧ (∀ c', c' ∈ buildDayPlan env items'
                  (toggleDone (PlanChunk.key c) overrides) →
           PlanChunk.key c' = PlanChunk.key c →
           PlanChunk.done c' = true).
Proof.
  intros Ha Ha' Hc Hdone.
  pose proof Hc as Hc0.
  apply elem_of_planAssignment in Hc as (Hstale & i & mins & Hi & ->).
  set (viewStart := viewStartOf env) in *.
  set (key := chunkKey (Assignment.id a) i).
  change (PlanChunk.key (planChunk _ _ a _ _ i mins)) with key in *.
  assert (Hold : default false
                   (ChunkOverride.done
                      (default ChunkOverride.empty (overrides !! key)))
                 = false) by exact Hdone.
  split_and!.
  - by exists i.
  - rewrite !buildDayPlan_perm, !fmap_bind_list.
    erewrite bind_ext_in; [done|].
    intros b _. apply planAssignment_keys.
  - apply plan_keys_NoDup.
  - rewrite !buildDayPlan_unfold.
    rewrite <- (Array_sort_fmap compareChunks compareChunks)
      by apply compareChunks_markDoneAt.
    f_equal. rewrite fmap_bind_list. apply bind_ext_in.
    intros b _. by apply planAssignment_toggleDone.
  - apply elem_of_buildDayPlan. exists a. split; [done|].
    fold viewStart. rewrite planAssignment_toggleDone by done.
    replace (markDone _) with (markDoneAt key (planChunk viewStart overrides a
      (length (splitMinutes (totalMinutesOf a)))
      (windowLenOf viewStart (fromISO (Assignment.dueISO a))) i mins)).
    + by apply list_elem_of_fmap_2.
    + unfold markDoneAt. by rewrite bool_decide_eq_true_2.
  - intros c' (b & _ & Hc')%elem_of_buildDayPlan Hkey.
    apply elem_of_planAssignment in Hc' as (_ & j & mins' & _ & ->).
    change (chunkKey (Assignment.id b) j = key) in Hkey.
    unfold planChunk, toggleDone. simpl.
    rewrite Hkey, lookup_insert_eq. simpl. by rewrite Hold.
Qed.

End Claims.

(** ** The plan and the process it is computed in *)

Section SortExt.
Context {A : Type} (cmp1 cmp2 : A → A → option Z).

Lemma sort_insert_ext_in (x : A) (l : list A) :
  (∀ y, y ∈ l → cmp1 x y = cmp2 x y) →
  sort_insert cmp1 x l = sort_insert cmp2 x l.
Proof.
  induction l as [|y l IH]; intros Hext; [done|]. simpl.
  unfold sortCompare. rewrite (Hext y) by left.
  destruct (default 0 (cmp2 x y) <=? 0); [done|].
  f_equal. apply IH. intros z Hz. apply Hext. by right.
Qed.

Lemma Array_sort_ext_in (l : list A) :
  (∀ x y, x ∈ l → y ∈ l → cmp1 x y = cmp2 x y) →
  Array_sort cmp1 l = Array_sort cmp2 l.
Proof.
  induction l as [|x l IH]; intros Hext; [done|]. simpl.
  rewrite IH by (intros y z Hy Hz; apply Hext; by right).
  apply sort_insert_ext_in. intros y Hy. rewrite Array_sort_perm in Hy.
  apply Hext; [by left|by right].
Qed.
End SortExt.

Section Determinism.
Context `{ZonedLib}.

(** C4 — The plan is a function of the assignment list, the override map,
    the current moment and the time zone of the process, which is read for
    due strings that carry no UTC offset: computed in two processes that
    agree on the clock (and may differ in their storage), the plans are
    identical when the processes are in the same zone, and also across
    zones when every due string of the list is read alike in every zone,
    as one with its offset is. *)
Theorem buildDayPlan_deterministic (p1 p2 : Process) items overrides :
  DateTime_now (ambient p1) = DateTime_now (ambient p2) →
  processZone p1 = processZone p2
  ∨ (∀ a, a ∈ items → zoneFree (Assignment.dueISO a)) →
  buildDayPlanIn p1 items overrides = buildDayPlanIn p2 items overrides.
Proof.
  intros Hnow Hzone.
  assert (Hdue : ∀ a, a ∈ items →
            fromISO_in (processZone p1) (Assignment.dueISO a)
            = fromISO_in (processZone p2) (Assignment.dueISO a)
            ∧ Date_getTime_in (processZone p1) (Assignment.dueISO a)
              = Date_getTime_in (processZone p2) (Assignment.dueISO a)).
  { intros a Ha. destruct Hzone as [->|Hfree]; [done|]. by apply Hfree. }
  clear Hzone. unfold buildDayPlanIn, buildDayPlan. rewrite Hnow.
  rewrite !foldl_push, !app_nil_l.
  assert (Hsorted : Array_sort (@compareDue (libIn (processZone p1))) items
                    = Array_sort (@compareDue (libIn (processZone p2))) items).
  { apply Array_sort_ext_in. intros a b Ha Hb. unfold compareDue.
    cbn [Date_getTime libIn].
    by rewrite (proj2 (Hdue a Ha)), (proj2 (Hdue b Hb)). }
  rewrite Hsorted.
  set (sorted := Array_sort (@compareDue (libIn (processZone p2))) items).
  assert (Hin : ∀ a, a ∈ sorted → a ∈ items).
  { intros a Ha. subst sorted. by rewrite Array_sort_perm in Ha. }
  assert (Hchunks :
    sorted ≫= @planAssignment (libIn (processZone p1))
                (TZ_localDay (DateTime_now (ambient p2))) overrides
    = sorted ≫= @planAssignment (libIn (processZone p2))
                  (TZ_localDay (DateTime_now (ambient p2))) overrides).
  { apply bind_ext_in. intros a Ha. unfold planAssignment.
    cbn [fromISO libIn]. by rewrite (proj1 (Hdue a (Hin a Ha))). }
  cbn [localDay libIn]. rewrite Hchunks.
  apply Array_sort_ext_in. intros x y Hx Hy.
  apply list_elem_of_bind in Hx as (a & Hx & Ha).
  apply list_elem_of_bind in Hy as (b & Hy & Hb).
  apply elem_of_planAssignment in Hx as (_ & i & m & _ & ->).
  apply elem_of_planAssignment in Hy as (_ & j & n & _ & ->).
  unfold compareChunks. cbn [Date_getTime libIn PlanChunk.dueISO planChunk].
  by rewrite (proj2 (Hdue a (Hin a Ha))), (proj2 (Hdue b (Hin b Hb))).
Qed.
End Determinism.

(** * The claims on concrete inputs *)

Example split_60 : splitMinutes 60 = [30; 30].
Proof. reflexivity. Qed.

Example split_61 : splitMinutes 61 = [30; 31].
Proof. reflexivity. Qed.

Example split_65 : splitMinutes 65 = [30; 35].
Proof. reflexivity. Qed.

Example split_69 : splitMinutes 69 = [30; 39].
Proof. reflexivity. Qed.

Example split_30 : splitMinutes 30 = [30].
Proof. reflexivity. Qed.

Section OnSamples.
#[local] Existing Instance FixedZone.lib.

Lemma FixedZone_dayStart_increasing : dayStart_increasing.
Proof.
  intros d1 d2 Hlt. simpl. unfold FixedZone.MS_PER_DAY, FixedZone.OFFSET_MS.
  lia.
Qed.

Lemma allSteps_spec (n : nat) (d0 d : Z) :
  FixedZone.allSteps n d0 = true →
  d0 ≤ d < d0 + Z.of_nat n →
  FixedZone.isoStepOk d = true.
Proof.
  revert d0. induction n as [|n IH]; intros d0 Hall Hd; [lia|].
  simpl in Hall. apply andb_true_iff in Hall as [Hd0 Hrest].
  destruct (decide (d = d0)) as [->|Hne]; [done|].
  apply (IH (d0 + 1)); [done|lia].
Qed.

Lemma allSteps_sorted (n : nat) (d0 d1 d2 : Z) :
  FixedZone.allSteps n d0 = true →
  d0 ≤ d1 → d1 ≤ d2 → d2 ≤ d0 + Z.of_nat n →
  String.leb (FixedZone.isoDate d1) (FixedZone.isoDate d2) = true.
Proof.
  intros Hall Hd1 Hle Hd2.
  remember (Z.to_nat (d2 - d1)) as k eqn:Hk.
  revert d2 Hle Hd2 Hk. induction k as [|k IH]; intros d2 Hle Hd2 Hk.
  - assert (d2 = d1) as -> by lia. apply leb_refl.
  - apply (leb_trans _ (FixedZone.isoDate (d2 - 1))).
    + apply IH; lia.
    + pose proof (allSteps_spec n d0 (d2 - 1) Hall ltac:(lia)) as Hstep.
      unfold FixedZone.isoStepOk in Hstep.
      by replace (d2 - 1 + 1) with d2 in Hstep by lia.
Qed.

Lemma FixedZone_steps_2020_2040 :
  FixedZone.allSteps (Z.to_nat (FixedZone.DAY_2040 - FixedZone.DAY_2020))
    FixedZone.DAY_2020 = true.
Proof. vm_compute. reflexivity. Qed.

(** In the concrete library the assumption on the window holds on every
    day from 2020 to the end of 2039. *)
Lemma FixedZone_window_sorted (viewStart : Z) :
  FixedZone.DAY_2020 ≤ viewStart → viewStart + 6 ≤ FixedZone.DAY_2040 →
  window_sorted viewStart.
Proof.
  intros Hlo Hhi i j Hi Hij Hj. simpl.
  apply (allSteps_sorted _ _ _ _ FixedZone_steps_2020_2040); lia.
Qed.

Lemma Sample_window_sorted : window_sorted (viewStartOf Sample.env).
Proof. apply FixedZone_window_sorted; vm_compute; discriminate. Qed.

Lemma isoStrictSteps_spec (n : nat) (d0 d : Z) :
  isoStrictSteps n d0 = true →
  d0 ≤ d < d0 + Z.of_nat n →
  String.ltb (FixedZone.isoDate d) (FixedZone.isoDate (d + 1)) = true.
Proof.
  revert d0. induction n as [|n IH]; intros d0 Hall Hd; [lia|].
  simpl in Hall. apply andb_true_iff in Hall as [Hd0 Hrest].
  destruct (decide (d = d0)) as [->|Hne]; [done|].
  apply (IH (d0 + 1)); [done|lia].
Qed.

Lemma isoStrictSteps_2020_2040 :
  isoStrictSteps (Z.to_nat (FixedZone.DAY_2040 - FixedZone.DAY_2020))
    FixedZone.DAY_2020 = true.
Proof. vm_compute. reflexivity. Qed.

(** In the concrete library the ISO dates from 2020 to the start of 2040
    are in strict string order. *)
Lemma FixedZone_iso_dates_ordered :
  iso_dates_ordered FixedZone.DAY_2020 FixedZone.DAY_2040.
Proof.
  intros d1 d2 Hlo Hlt Hhi. simpl.
  remember (Z.to_nat (d2 - d1 - 1)) as k eqn:Hk.
  revert d2 Hlt Hhi Hk. induction k as [|k IH]; intros d2 Hlt Hhi Hk.
  - assert (d2 = d1 + 1) as -> by lia.
    apply (isoStrictSteps_spec _ _ _ isoStrictSteps_2020_2040).
    unfold FixedZone.DAY_2020, FixedZone.DAY_2040 in *. lia.
  - apply (ltb_trans _ (FixedZone.isoDate (d2 - 1))).
    + apply IH; lia.
    + replace d2 with (d2 - 1 + 1) at 2 by lia.
      apply (isoStrictSteps_spec _ _ _ isoStrictSteps_2020_2040).
      unfold FixedZone.DAY_2020, FixedZone.DAY_2040 in *. lia.
Qed.

Example sample_plan :
  buildDayPlan Sample.env Sample.items ∅
  = [ Sample.chunk Sample.late 0 "2026-11-02" 30 false;
      Sample.chunk Sample.late 1 "2026-11-02" 30 false;
      Sample.chunk Sample.late 2 "2026-11-02" 30 false;
      Sample.chunk Sample.quiz 0 "2026-11-02" 30 false;
      Sample.chunk Sample.essay 0 "2026-11-02" 30 false;
      Sample.chunk Sample.lab 0 "2026-11-02" 30 false;
      Sample.chunk Sample.essay 1 "2026-11-03" 30 false;
      Sample.chunk Sample.essay 2 "2026-11-04" 10 false;
      Sample.chunk Sample.lab 1 "2026-11-08" 31 false ].
Proof. vm_compute. reflexivity. Qed.

Example sample_plan_moved :
  buildDayPlan Sample.env Sample.items Sample.moved
  = [ Sample.chunk Sample.late 0 "2026-11-02" 30 false;
      Sample.chunk Sample.late 1 "2026-11-02" 30 false;
      Sample.chunk Sample.late 2 "2026-11-02" 30 false;
      Sample.chunk Sample.quiz 0 "2026-11-02" 30 false;
      Sample.chunk Sample.essay 0 "2026-11-02" 30 false;
      Sample.chunk Sample.lab 0 "2026-11-02" 30 false;
      Sample.chunk Sample.essay 2 "2026-11-04" 10 false;
      Sample.chunk Sample.essay 1 "2026-11-08" 30 false;
      Sample.chunk Sample.lab 1 "2026-11-08" 31 false ].
Proof. vm_compute. reflexivity. Qed.

(** C1 on the sample list: the essay, estimated at 70 minutes. *)
Lemma chunk_minutes_sum_witness :
  sumZ (PlanChunk.minutes
          <$> planAssignment (viewStartOf Sample.env) Sample.moved
                Sample.essay)
  = Z.max 30 (default 60 (Assignment.estimateMinutes Sample.essay))
  ∧ (∃ rest, buildDayPlan Sample.env Sample.items Sample.moved
             ≡ₚ planAssignment (viewStartOf Sample.env) Sample.moved
                  Sample.essay ++ rest)
  ∧ (NoDup (Assignment.id <$> Sample.items) →
     sumZ (PlanChunk.minutes
             <$> chunksOf Sample.essay
                   (buildDayPlan Sample.env Sample.items Sample.moved))
     = Z.max 30 (default 60 (Assignment.estimateMinutes Sample.essay))).
Proof.
  apply (chunk_minutes_sum Sample.env Sample.items Sample.moved Sample.essay).
  - apply list_elem_of_here.
  - vm_compute. reflexivity.
  - eexists. vm_compute. reflexivity.
Defined.

(** C7 on the sample list: the old reading, due on 15 September. *)
Lemma stale_assignment_has_no_chunks_witness :
  planAssignment (viewStartOf Sample.env) Sample.moved Sample.old = []
  ∧ ((∀ b, b ∈ Sample.items →
           Assignment.id b = Assignment.id Sample.old → b = Sample.old) →
     chunksOf Sample.old
       (buildDayPlan Sample.env Sample.items Sample.moved) = []).
Proof.
  apply (stale_assignment_has_no_chunks Sample.env Sample.items Sample.moved
           Sample.old 1789506000000).
  - apply (list_elem_of_lookup_2 _ 3%nat). reflexivity.
  - vm_compute. reflexivity.
  - vm_compute. reflexivity.
Defined.

(** C8: the claim's sizes are not those of the plan. *)
Lemma estimate_70_is_not_30_40 :
  PlanChunk.minutes <$> buildDayPlan Sample.env [Sample.essay] ∅
  ≠ [30; 40].
Proof. vm_compute. discriminate. Qed.

Lemma estimate_70_chunks_witness :
  PlanChunk.minutes
    <$> planAssignment (viewStartOf Sample.env) Sample.moved Sample.essay
  = [30; 30; 10]
  ∧ PlanChunk.minutes <$> buildDayPlan Sample.env [Sample.essay] Sample.moved
    ≡ₚ [30; 30; 10].
Proof.
  apply (estimate_70_chunks Sample.env Sample.moved Sample.essay).
  - reflexivity.
  - vm_compute. reflexivity.
Defined.

(** C9: the lab report, estimated at 61 minutes, has a chunk of 31. *)
Lemma chunk_longer_than_30 :
  ¬ (∀ c, c ∈ buildDayPlan Sample.env Sample.items ∅ →
          PlanChunk.minutes c ≤ 30).
Proof.
  intros Hall.
  specialize (Hall (Sample.chunk Sample.lab 1 "2026-11-08" 31 false)).
  rewrite sample_plan in Hall.
  assert (Hle : 31 ≤ 30); [|lia].
  apply Hall. apply (list_elem_of_lookup_2 _ 8%nat). reflexivity.
Qed.

Lemma chunk_minutes_bounds_witness :
  10 ≤ PlanChunk.minutes (Sample.chunk Sample.lab 1 "2026-11-08" 31 false)
  ≤ 39.
Proof.
  apply (chunk_minutes_bounds Sample.env Sample.items ∅).
  rewrite sample_plan. apply (list_elem_of_lookup_2 _ 8%nat). reflexivity.
Defined.

(** C2: with a day override that is no date but compares inside the
    window, the essay's second chunk keeps the string as its day, which is
    none of the seven days of the window. *)
Lemma malformed_override_day_kept :
  Sample.chunk Sample.essay 1 "2026-11-07 is not a day" 30 false
  ∈ buildDayPlan Sample.env Sample.items Sample.scribbled
  ∧ PlanChunk.dayISO
      (Sample.chunk Sample.essay 1 "2026-11-07 is not a day" 30 false)
    ∉ windowDaysOf (viewStartOf Sample.env) 7.
Proof.
  split.
  - apply (list_elem_of_lookup_2 _ 7%nat). vm_compute. reflexivity.
  - intros Hin. vm_compute in Hin.
    repeat (apply elem_of_cons in Hin as [Hin|Hin]; [discriminate|]).
    by apply elem_of_nil in Hin.
Qed.

(** C2 on the sample list: the essay's second chunk, moved to 2027-01-01
    (day 20819), is planned on the last day of the window. *)
Lemma plan_days_in_window_witness :
  String.leb (toISODate (viewStartOf Sample.env))
    (PlanChunk.dayISO (Sample.chunk Sample.essay 1 "2026-11-08" 30 false))
  = true
  ∧ String.leb
      (PlanChunk.dayISO (Sample.chunk Sample.essay 1 "2026-11-08" 30 false))
      (toISODate (viewStartOf Sample.env + 6))
    = true
  ∧ PlanChunk.dayISO (Sample.chunk Sample.essay 1 "2026-11-08" 30 false)
    ∈ windowDaysOf (viewStartOf Sample.env) 7.
Proof.
  destruct (plan_days_in_window Sample.env Sample.items Sample.moved
              (Sample.chunk Sample.essay 1 "2026-11-08" 30 false))
    as (Hlo & Hhi & _ & Hin).
  - exact FixedZone_dayStart_increasing.
  - exact Sample_window_sorted.
  - rewrite sample_plan_moved.
    apply (list_elem_of_lookup_2 _ 7%nat). reflexivity.
  - split_and!; [exact Hlo|exact Hhi|].
    apply (Hin FixedZone.DAY_2020 FixedZone.DAY_2040).
    + exact FixedZone_iso_dates_ordered.
    + vm_compute. discriminate.
    + vm_compute. discriminate.
    + intros s Hs. exists 20819. split; [done|].
      vm_compute in Hs. injection Hs as <-. vm_compute. reflexivity.
Defined.

(** C6 on the sample list: the essay's second chunk, moved to
    2027-01-01, lands on the last day of the window. *)
Lemma override_day_clamped_witness :
  (String.ltb "2027-01-01" (toISODate (viewStartOf Sample.env)) = true →
   PlanChunk.dayISO (Sample.chunk Sample.essay 1 "2026-11-08" 30 false)
   = toISODate (viewStartOf Sample.env)
   ∧ PlanChunk.dayISO (Sample.chunk Sample.essay 1 "2026-11-08" 30 false)
     ≠ "2027-01-01")
  ∧ (String.ltb (toISODate (viewStartOf Sample.env + 6)) "2027-01-01"
     = true →
     PlanChunk.dayISO (Sample.chunk Sample.essay 1 "2026-11-08" 30 false)
     = toISODate (viewStartOf Sample.env + 6)
     ∧ PlanChunk.dayISO (Sample.chunk Sample.essay 1 "2026-11-08" 30 false)
       ≠ "2027-01-01")
  ∧ length (buildDayPlan Sample.env Sample.items Sample.moved)
    = length (buildDayPlan Sample.env Sample.items ∅).
Proof.
  apply (override_day_clamped Sample.env Sample.items Sample.moved
           (Sample.chunk Sample.essay 1 "2026-11-08" 30 false)
           (ChunkOverride.mk None (Some "2027-01-01")) "2027-01-01").
  - exact Sample_window_sorted.
  - rewrite sample_plan_moved.
    apply (list_elem_of_lookup_2 _ 7%nat). reflexivity.
  - vm_compute. reflexivity.
  - reflexivity.
Defined.

(** C5: the quiz has a single chunk; it is the last one, and it falls on
    today (2026-11-02), not on the due day (2026-11-03). *)
Lemma single_chunk_not_on_due_day :
  ∃ c, last (buildDayPlan Sample.env [Sample.quiz] ∅) = Some c
       ∧ PlanChunk.dayISO c = "2026-11-02"
       ∧ toISODate
           (lastDayOf (viewStartOf Sample.env)
              (fromISO (Assignment.dueISO Sample.quiz)))
         = "2026-11-03"
       ∧ PlanChunk.dayISO c
         ≠ toISODate
             (lastDayOf (viewStartOf Sample.env)
                (fromISO (Assignment.dueISO Sample.quiz))).
Proof.
  exists (Sample.chunk Sample.quiz 0 "2026-11-02" 30 false).
  split_and!; [vm_compute; reflexivity..|vm_compute; discriminate].
Qed.

Lemma default_day_spread_witness :
  PlanChunk.dayISO (Sample.chunk Sample.essay 2 "2026-11-04" 10 false)
  = toISODate
      (viewStartOf Sample.env
       + spec_dayIndex (Z.of_nat 2)
           (Z.of_nat (length (planAssignment (viewStartOf Sample.env)
                                Sample.moved Sample.essay)))
           (windowLenOf (viewStartOf Sample.env)
              (fromISO (Assignment.dueISO Sample.essay))))
  ∧ windowLenOf (viewStartOf Sample.env)
      (fromISO (Assignment.dueISO Sample.essay))
    = Z.max 0 (lastDayOf (viewStartOf Sample.env)
                 (fromISO (Assignment.dueISO Sample.essay))
               - viewStartOf Sample.env) + 1
  ∧ (2%nat = 0%nat →
     PlanChunk.dayISO (Sample.chunk Sample.essay 2 "2026-11-04" 10 false)
     = toISODate (viewStartOf Sample.env))
  ∧ ((1 < length (planAssignment (viewStartOf Sample.env) Sample.moved
                    Sample.essay))%nat →
     3%nat = length (planAssignment (viewStartOf Sample.env) Sample.moved
                       Sample.essay) →
     viewStartOf Sample.env
     ≤ lastDayOf (viewStartOf Sample.env)
         (fromISO (Assignment.dueISO Sample.essay)) →
     PlanChunk.dayISO (Sample.chunk Sample.essay 2 "2026-11-04" 10 false)
     = toISODate
         (lastDayOf (viewStartOf Sample.env)
            (fromISO (Assignment.dueISO Sample.essay))))
  ∧ (lastDayOf (viewStartOf Sample.env)
       (fromISO (Assignment.dueISO Sample.essay))
     ≤ viewStartOf Sample.env →
     PlanChunk.dayISO (Sample.chunk Sample.essay 2 "2026-11-04" 10 false)
     = toISODate (viewStartOf Sample.env)).
Proof.
  apply (default_day_spread Sample.env Sample.moved Sample.essay 2
           (Sample.chunk Sample.essay 2 "2026-11-04" 10 false)).
  - exact FixedZone_dayStart_increasing.
  - exact Sample_window_sorted.
  - vm_compute. reflexivity.
  - vm_compute. reflexivity.
Defined.

Lemma Sample_orphaned_agrees a (i : nat) :
  a ∈ Sample.items →
  (∅ : OverridesByChunkKey) !! chunkKey (Assignment.id a) i
  = Sample.orphaned !! chunkKey (Assignment.id a) i.
Proof.
  intros Ha. unfold Sample.orphaned, toggleDone, moveDay.
  apply list_elem_of_In in Ha. simpl in Ha.
  destruct Ha as [<-|[<-|[<-|[<-|[<-|[]]]]]];
    by rewrite !lookup_insert_ne by (unfold chunkKey; simpl; discriminate).
Qed.

(** C10 on the sample list: overrides left by a deleted assignment. *)
Lemma plan_ignores_orphan_overrides_witness :
  (∀ c, c ∈ buildDayPlan Sample.env Sample.items ∅ →
        ∃ a (i : nat), a ∈ Sample.items
          ∧ PlanChunk.assignmentId c = Assignment.id a
          ∧ PlanChunk.key c = chunkKey (Assignment.id a) i)
  ∧ buildDayPlan Sample.env Sample.items ∅
    = buildDayPlan Sample.env Sample.items Sample.orphaned.
Proof.
  apply (plan_ignores_orphan_overrides Sample.env Sample.items ∅
           Sample.orphaned).
  exact Sample_orphaned_agrees.
Defined.

(** C3 on the sample list: the essay's second chunk is checked off, then
    the list is edited around the essay. *)
Lemma done_override_is_stable_witness :
  (∃ i : nat,
     PlanChunk.key (Sample.chunk Sample.essay 1 "2026-11-08" 30 false)
     = chunkKey (Assignment.id Sample.essay) i)
  ∧ PlanChunk.key <$> buildDayPlan Sample.env Sample.items ∅
    ≡ₚ PlanChunk.key <$> buildDayPlan Sample.env Sample.items Sample.moved
  ∧ (NoDup (Assignment.id <$> Sample.items) →
     NoDup (PlanChunk.key
              <$> buildDayPlan Sample.env Sample.items Sample.moved))
  ∧ buildDayPlan Sample.env Sample.items
      (toggleDone
         (PlanChunk.key (Sample.chunk Sample.essay 1 "2026-11-08" 30 false))
         Sample.moved)
    = markDoneAt
        (PlanChunk.key (Sample.chunk Sample.essay 1 "2026-11-08" 30 false))
        <$> buildDayPlan Sample.env Sample.items Sample.moved
  ∧ markDone (Sample.chunk Sample.essay 1 "2026-11-08" 30 false)
    ∈ buildDayPlan Sample.env Sample.edited
        (toggleDone
           (PlanChunk.key
              (Sample.chunk Sample.essay 1 "2026-11-08" 30 false))
           Sample.moved)
  ∧ (∀ c', c' ∈ buildDayPlan Sample.env Sample.edited
                  (toggleDone
                     (PlanChunk.key
                        (Sample.chunk Sample.essay 1 "2026-11-08" 30 false))
                     Sample.moved) →
           PlanChunk.key c'
           = PlanChunk.key
               (Sample.chunk Sample.essay 1 "2026-11-08" 30 false) →
           PlanChunk.done c' = true).
Proof.
  apply (done_override_is_stable Sample.env Sample.items Sample.edited
           Sample.moved ∅ Sample.essay).
  - apply list_elem_of_here.
  - apply (list_elem_of_lookup_2 _ 2%nat). reflexivity.
  - apply (list_elem_of_lookup_2 _ 1%nat). vm_compute. reflexivity.
  - reflexivity.
Defined.

Lemma ProcessZone_offset_zoneFree (s : string) (t : Z) (rest : string) :
  ProcessZone.parseLocal s = Some (t, rest) → rest ≠ "" →
  zoneFree (H := ProcessZone.zoned) s.
Proof.
  intros Hlocal Hrest zone1 zone2. simpl. unfold ProcessZone.parseISO_in.
  rewrite Hlocal. simpl. by rewrite bool_decide_eq_false_2.
Qed.

(** C4: an assignment due at 01:00 on 3 November, written without
    offset. With the same list, override map, clock and storage, a process
    in Toronto plans the two chunks on 2 and 3 November; a process in
    Tokyo, where that local time is still 2 November in Toronto, plans
    both on 2 November. *)
Lemma plan_reads_process_zone :
  DateTime_now (ambient ProcessZone.inToronto)
  = DateTime_now (ambient ProcessZone.inTokyo)
  ∧ PlanChunk.dayISO
      <$> buildDayPlanIn ProcessZone.inToronto [ProcessZone.night] ∅
    = ["2026-11-02"; "2026-11-03"]
  ∧ PlanChunk.dayISO
      <$> buildDayPlanIn ProcessZone.inTokyo [ProcessZone.night] ∅
    = ["2026-11-02"; "2026-11-02"]
  ∧ buildDayPlanIn ProcessZone.inToronto [ProcessZone.night] ∅
    ≠ buildDayPlanIn ProcessZone.inTokyo [ProcessZone.night] ∅.
Proof.
  split_and!; [reflexivity|vm_compute; reflexivity|vm_compute; reflexivity|].
  intros Heq. apply (f_equal (fmap PlanChunk.dayISO)) in Heq.
  vm_compute in Heq. discriminate.
Qed.

(** C4 on the sample list, whose due strings carry their offsets: same
    clock, another storage and another zone. *)
Lemma buildDayPlan_deterministic_witness :
  buildDayPlanIn ProcessZone.inToronto Sample.items Sample.moved
  = buildDayPlanIn ProcessZone.abroad Sample.items Sample.moved.
Proof.
  apply (buildDayPlan_deterministic ProcessZone.inToronto ProcessZone.abroad
           Sample.items Sample.moved).
  - reflexivity.
  - right. apply Forall_forall.
    repeat constructor;
      (eapply ProcessZone_offset_zoneFree;
       [vm_compute; reflexivity|discriminate]).
Defined.
End OnSamples.

(** * Further properties of the plan *)

(** ** Sorting gives sorted lists *)

Section ArraySortSorted.
Context {A : Type} (comparefn : A → A → option Z) (R : A → A → Prop).
Hypothesis R_trans : ∀ x y z, R x y → R y z → R x z.

Lemma sort_insert_sorted (x : A) (l : list A) :
  (∀ y, y ∈ l → sortCompare comparefn x y ≤ 0 → R x y) →
  (∀ y, y ∈ l → ¬ sortCompare comparefn x y ≤ 0 → R y x) →
  StronglySorted R l →
  StronglySorted R (sort_insert comparefn x l).
Proof.
  intros Hle Hgt Hsorted.
  induction Hsorted as [|y l Hsorted IH Hy]; simpl.
  { repeat constructor. }
  destruct (sortCompare comparefn x y <=? 0) eqn:Hcmp.
  - apply Z.leb_le in Hcmp.
    assert (Hxy : R x y) by (apply Hle; [apply list_elem_of_here|done]).
    constructor; [by constructor|].
    constructor; [done|].
    eapply Forall_impl; [exact Hy|]. intros z Hz. by apply (R_trans x y z).
  - apply Z.leb_gt in Hcmp.
    assert (Hyx : R y x) by (apply Hgt; [apply list_elem_of_here|lia]).
    constructor.
    + apply IH.
      * intros z Hz. apply Hle. by apply list_elem_of_further.
      * intros z Hz. apply Hgt. by apply list_elem_of_further.
    + rewrite sort_insert_perm. by constructor.
Qed.

Lemma Array_sort_sorted (l : list A) :
  (∀ x y, x ∈ l → y ∈ l → sortCompare comparefn x y ≤ 0 → R x y) →
  (∀ x y, x ∈ l → y ∈ l → ¬ sortCompare comparefn x y ≤ 0 → R y x) →
  StronglySorted R (Array_sort comparefn l).
Proof.
  intros Hle Hgt. induction l as [|x l IH]; simpl; [constructor|].
  apply sort_insert_sorted.
  - intros y Hy. rewrite Array_sort_perm in Hy.
    apply Hle; [apply list_elem_of_here|by apply list_elem_of_further].
  - intros y Hy. rewrite Array_sort_perm in Hy.
    apply Hgt; [apply list_elem_of_here|by apply list_elem_of_further].
  - apply IH.
    + intros x' y' Hx' Hy'. apply Hle; by apply list_elem_of_further.
    + intros x' y' Hx' Hy'. apply Hgt; by apply list_elem_of_further.
Qed.
End ArraySortSorted.

Lemma ltb_total (s1 s2 : string) :
  s1 ≠ s2 → String.ltb s1 s2 = false → String.ltb s2 s1 = true.
Proof.
  intros Hne. unfold String.ltb.
  rewrite (String.compare_antisym s2 s1).
  destruct (String.compare s1 s2) eqn:Hc; try done.
  by apply String.compare_eq_iff in Hc.
Qed.

(** ** How many chunks *)

Lemma splitLoop_length (steps : nat) (i t : Z) (acc : list Z) :
  let r := t - i * CHUNK_MINUTES in
  0 < r →
  30 * (Z.of_nat steps - 1) < r ≤ 30 * Z.of_nat steps →
  acc ≠ [] ∨ 10 ≤ r →
  Z.of_nat (length (splitLoop steps i t acc))
  = Z.of_nat (length acc) + chunksFor r.
Proof.
  revert i acc. induction steps as [|steps IH]; intros i acc r Hpos Hr Hacc.
  { lia. }
  subst r. simpl.
  unfold Math.min, CHUNK_MINUTES, MIN_LAST_CHUNK, chunksFor in *.
  set (r := t - i * 30) in *.
  destruct (decide (steps = 0%nat)) as [->|Hsteps].
  - assert (Hmin : Z.min 30 r = r) by lia. rewrite Hmin.
    destruct (r <? 10) eqn:Hlt; simpl.
    + apply Z.ltb_lt in Hlt. destruct Hacc as [Hacc|?]; [|lia].
      destruct acc as [|a acc]; [done|]. simpl.
      unfold addToLast. rewrite length_alter. simpl.
      rewrite Z.div_small by lia. lia.
    + apply Z.ltb_ge in Hlt. rewrite length_app. simpl.
      assert ((r + 20) / 30 = 1) as -> by (Z.div_mod_to_equations; lia).
      lia.
  - assert (Hmin : Z.min 30 r = 30) by lia. rewrite Hmin. simpl.
    rewrite (IH (i + 1) (acc ++ [30])).
    + rewrite length_app. simpl.
      replace (t - (i + 1) * 30 + 20) with ((r + 20) + (-1) * 30) by lia.
      rewrite Z.div_add by lia. lia.
    + lia.
    + lia.
    + left. by destruct acc.
Qed.

Lemma splitMinutes_length (t : Z) :
  30 ≤ t → Z.of_nat (length (splitMinutes t)) = chunksFor t.
Proof.
  intros Ht. unfold splitMinutes. rewrite chunkCountOf_eq by done.
  rewrite splitLoop_length; simpl; unfold CHUNK_MINUTES.
  - replace (t - 0 * 30) with t by lia. lia.
  - lia.
  - rewrite Z2Nat.id by (Z.div_mod_to_equations; lia).
    Z.div_mod_to_equations. lia.
  - right. lia.
Qed.

(** ** Counting and summing over a plan *)

Lemma foldl_add {A : Type} (f : A → Z) (z : Z) (l : list A) :
  foldl (λ acc c, acc + f c) z l = z + sumZ (f <$> l).
Proof.
  revert z. induction l as [|x l IH]; intros z.
  - unfold sumZ. simpl. lia.
  - rewrite fmap_cons. cbn [foldl]. rewrite IH. unfold sumZ. simpl. lia.
Qed.

Lemma totalMinutes_sum (plan : list PlanChunk.t) :
  PlanView.totalMinutes plan = sumZ (PlanChunk.minutes <$> plan).
Proof. unfold PlanView.totalMinutes. rewrite foldl_add. lia. Qed.

Lemma doneCount_sum (plan : list PlanChunk.t) :
  PlanView.doneCount plan
  = sumZ ((λ c, if PlanChunk.done c then 1 else 0) <$> plan).
Proof.
  unfold PlanView.doneCount.
  rewrite (foldl_add (λ c, if PlanChunk.done c then 1 else 0)). lia.
Qed.

Lemma remainingMinutes_sum (plan : list PlanChunk.t) :
  PlanView.remainingMinutes plan
  = sumZ ((λ c, if PlanChunk.done c then 0 else PlanChunk.minutes c)
            <$> plan).
Proof.
  unfold PlanView.remainingMinutes.
  rewrite (foldl_add
             (λ c, if PlanChunk.done c then 0 else PlanChunk.minutes c)).
  lia.
Qed.

(** For chunks of positive length, what is left to do is the total exactly
    when nothing is done, and nothing exactly when everything is done. *)
Lemma summary_of_positive_plan (plan : list PlanChunk.t) :
  Forall (λ c, 0 < PlanChunk.minutes c) plan →
  0 ≤ PlanView.doneCount plan ≤ Z.of_nat (length plan)
  ∧ 0 ≤ PlanView.remainingMinutes plan ≤ PlanView.totalMinutes plan
  ∧ (PlanView.remainingMinutes plan = PlanView.totalMinutes plan
     ↔ PlanView.doneCount plan = 0)
  ∧ (PlanView.remainingMinutes plan = 0
     ↔ PlanView.doneCount plan = Z.of_nat (length plan)).
Proof.
  rewrite totalMinutes_sum, doneCount_sum, remainingMinutes_sum.
  unfold sumZ.
  induction 1 as [|c plan Hc _ IH]; [simpl; intuition lia|].
  rewrite !fmap_cons. cbn [foldr length].
  destruct (PlanChunk.done c); intuition lia.
Qed.

Section PlanFacts.
Context `{DateLib}.
Implicit Types (a : Assignment.t) (c : PlanChunk.t)
  (overrides : OverridesByChunkKey) (env : Ambient).

Lemma planAssignment_count viewStart overrides a :
  isStale viewStart (fromISO (Assignment.dueISO a)) = false →
  Z.of_nat (length (planAssignment viewStart overrides a))
  = chunksFor (totalMinutesOf a).
Proof.
  intros Hstale. rewrite planAssignment_length, Hstale.
  apply splitMinutes_length, totalMinutesOf_ge.
Qed.

Lemma chunksFor_pos (t : Z) : 30 ≤ t → 1 ≤ chunksFor t.
Proof. intros Ht. unfold chunksFor. Z.div_mod_to_equations. lia. Qed.

Lemma planChunk_minutes_pos viewStart overrides a c :
  c ∈ planAssignment viewStart overrides a → 10 ≤ PlanChunk.minutes c.
Proof.
  intros (_ & i & mins & Hi & ->)%elem_of_planAssignment. simpl.
  destruct (splitMinutes_spec (totalMinutesOf a) (totalMinutesOf_ge a))
    as (body & tail & Heq & Hbody & _ & Htail).
  rewrite Heq in Hi. apply list_elem_of_lookup_2 in Hi.
  apply elem_of_app in Hi as [Hi|Hi].
  - rewrite Forall_forall in Hbody. rewrite (Hbody _ Hi). lia.
  - apply list_elem_of_singleton in Hi as ->. lia.
Qed.

Lemma buildDayPlan_minutes_pos env items overrides :
  Forall (λ c, 0 < PlanChunk.minutes c) (buildDayPlan env items overrides).
Proof.
  apply Forall_forall. intros c (a & _ & Hc)%elem_of_buildDayPlan.
  apply planChunk_minutes_pos in Hc. lia.
Qed.

(** The transitivity of the plan order. *)
Lemma planOrder_trans (x y z : PlanChunk.t) :
  planOrder x y → planOrder y z → planOrder x z.
Proof.
  unfold planOrder. intros [Hxy|[Hxy Hdxy]] [Hyz|[Hyz Hdyz]].
  - left. by apply (ltb_trans _ (PlanChunk.dayISO y)).
  - left. by rewrite <- Hyz.
  - left. by rewrite Hxy.
  - right. split; [congruence|].
    destruct (Date_getTime (PlanChunk.dueISO x)),
             (Date_getTime (PlanChunk.dueISO y)),
             (Date_getTime (PlanChunk.dueISO z)); try done. lia.
Qed.

Lemma compareChunks_le (x y : PlanChunk.t) :
  is_Some (Date_getTime (PlanChunk.dueISO x)) →
  is_Some (Date_getTime (PlanChunk.dueISO y)) →
  sortCompare compareChunks x y ≤ 0 → planOrder x y.
Proof.
  intros [tx Hx] [ty Hy]. unfold sortCompare, compareChunks, planOrder.
  rewrite Hx, Hy. case_bool_decide as Hd; simpl.
  - destruct (String.ltb _ _); [by left|lia].
  - intros Hle. right. split; [|lia].
    by destruct (decide (PlanChunk.dayISO x = PlanChunk.dayISO y)).
Qed.

Lemma compareChunks_gt (x y : PlanChunk.t) :
  is_Some (Date_getTime (PlanChunk.dueISO x)) →
  is_Some (Date_getTime (PlanChunk.dueISO y)) →
  ¬ sortCompare compareChunks x y ≤ 0 → planOrder y x.
Proof.
  intros [tx Hx] [ty Hy]. unfold sortCompare, compareChunks, planOrder.
  rewrite Hx, Hy. case_bool_decide as Hd; simpl.
  - destruct (String.ltb _ _) eqn:Hlt; [lia|]. intros _. left.
    by apply ltb_total.
  - intros Hgt. right. split; [|lia].
    by destruct (decide (PlanChunk.dayISO x = PlanChunk.dayISO y)).
Qed.

Lemma planChunk_dueISO viewStart overrides a c :
  c ∈ planAssignment viewStart overrides a →
  PlanChunk.dueISO c = Assignment.dueISO a.
Proof. by intros (_ & i & mins & _ & ->)%elem_of_planAssignment. Qed.
End PlanFacts.

(** * Further properties: the plan and its summary *)

Section PlanProperties.
Context `{DateLib}.
Implicit Types (a : Assignment.t) (c : PlanChunk.t)
  (overrides : OverridesByChunkKey) (env : Ambient).

(** X1 — An assignment that passes the stale-item filter is split into
    [(M + 20) div 30] chunks, [M] being [max(30, estimateMinutes ?? 60)]:
    at least one chunk, and [chunkCount = max(1, ceil(M / 30))] of them
    unless the remainder [M mod 30] is between 1 and 9, in which case the
    merge leaves one fewer. *)
Theorem chunk_count env overrides a :
  isStale (viewStartOf env) (fromISO (Assignment.dueISO a)) = false →
  Z.of_nat (length (planAssignment (viewStartOf env) overrides a))
  = (Z.max 30 (default 60 (Assignment.estimateMinutes a)) + 20) / 30
  ∧ (1 ≤ length (planAssignment (viewStartOf env) overrides a))%nat
  ∧ Z.of_nat (length (planAssignment (viewStartOf env) overrides a))
    = chunkCountOf (Z.max 30 (default 60 (Assignment.estimateMinutes a)))
      - (if (1 <=? Z.max 30 (default 60 (Assignment.estimateMinutes a))
                   mod 30)
            && (Z.max 30 (default 60 (Assignment.estimateMinutes a))
                mod 30 <=? 9)
         then 1 else 0).
Proof.
  intros Hstale.
  pose proof (planAssignment_count _ overrides a Hstale) as Hlen.
  pose proof (totalMinutesOf_ge a) as Hge.
  pose proof (chunksFor_pos _ Hge) as Hpos.
  unfold totalMinutesOf, Math.max in *.
  set (M := Z.max 30 (default 60 (Assignment.estimateMinutes a))) in *.
  rewrite Hlen. unfold chunksFor in *. split_and!; [done|lia|].
  rewrite chunkCountOf_eq by done.
  destruct (1 <=? M mod 30) eqn:H1; destruct (M mod 30 <=? 9) eqn:H9;
    simpl; Z.div_mod_to_equations; lia.
Qed.

(** X2 — The plan is empty exactly when every assignment of the list is
    excluded by the stale-item filter (an empty list included): this is
    when the view shows "No plan items". *)
Theorem plan_empty_iff_all_stale env items overrides :
  buildDayPlan env items overrides = []
  ↔ ∀ a, a ∈ items →
         isStale (viewStartOf env) (fromISO (Assignment.dueISO a)) = true.
Proof.
  split.
  - intros Hnil a Ha.
    destruct (isStale _ _) eqn:Hstale; [done|exfalso].
    pose proof (planAssignment_count _ overrides a Hstale) as Hlen.
    pose proof (chunksFor_pos _ (totalMinutesOf_ge a)) as Hpos.
    destruct (planAssignment (viewStartOf env) overrides a) as [|c l] eqn:Hp;
      [simpl in Hlen; lia|].
    assert (Hc : c ∈ buildDayPlan env items overrides).
    { apply elem_of_buildDayPlan. exists a. split; [done|].
      rewrite Hp. apply list_elem_of_here. }
    rewrite Hnil in Hc. by apply elem_of_nil in Hc.
  - intros Hall.
    destruct (buildDayPlan env items overrides) as [|c l] eqn:Hp; [done|].
    assert (Hc : c ∈ buildDayPlan env items overrides)
      by (rewrite Hp; apply list_elem_of_here).
    apply elem_of_buildDayPlan in Hc as (a & Ha & Hc).
    rewrite planAssignment_stale in Hc by auto.
    by apply elem_of_nil in Hc.
Qed.

(** X3 — When every due string of the list is one [Date] can read, the
    plan comes out ordered by day (in string order) and, within a day, by
    due instant: each chunk is before every later chunk in that order. *)
Theorem plan_sorted env items overrides :
  (∀ a, a ∈ items → is_Some (Date_getTime (Assignment.dueISO a))) →
  StronglySorted planOrder (buildDayPlan env items overrides).
Proof.
  intros Hparse. rewrite buildDayPlan_unfold.
  assert (Hdue : ∀ c,
            c ∈ Array_sort compareDue items
                  ≫= planAssignment (viewStartOf env) overrides →
            is_Some (Date_getTime (PlanChunk.dueISO c))).
  { intros c (a & Hc & Ha)%list_elem_of_bind.
    rewrite Array_sort_perm in Ha.
    rewrite (planChunk_dueISO _ _ _ _ Hc). by apply Hparse. }
  apply Array_sort_sorted.
  - apply planOrder_trans.
  - intros x y Hx Hy. apply compareChunks_le; by apply Hdue.
  - intros x y Hx Hy. apply compareChunks_gt; by apply Hdue.
Qed.

(** X4 — The planned total shown by the view is the sum, over the
    assignments that pass the stale-item filter, of
    [max(30, estimateMinutes ?? 60)]; overrides never change it. *)
Theorem total_minutes_of_plan env items overrides :
  PlanView.totalMinutes (buildDayPlan env items overrides)
  = sumZ ((λ a, if isStale (viewStartOf env)
                     (fromISO (Assignment.dueISO a))
                then 0
                else Z.max 30 (default 60 (Assignment.estimateMinutes a)))
            <$> items).
Proof.
  rewrite totalMinutes_sum.
  rewrite (sumZ_perm _ (PlanChunk.minutes
                          <$> (items ≫= planAssignment (viewStartOf env)
                                          overrides)))
    by (apply fmap_Permutation, buildDayPlan_perm).
  induction items as [|a items IH]; [done|].
  rewrite bind_cons, fmap_app, sumZ_app, IH, fmap_cons.
  unfold sumZ at 3. simpl. fold (sumZ ((λ a, if isStale (viewStartOf env)
                     (fromISO (Assignment.dueISO a))
                then 0
                else Z.max 30 (default 60 (Assignment.estimateMinutes a)))
            <$> items)).
  f_equal.
  destruct (isStale _ _) eqn:Hstale.
  - by rewrite planAssignment_stale.
  - rewrite planAssignment_minutes by done.
    destruct (splitMinutes_spec (totalMinutesOf a) (totalMinutesOf_ge a))
      as (_ & _ & _ & _ & Hs & _).
    exact Hs.
Qed.

(** X5 — In the summary of a plan, the count of done chunks lies between 0
    and the number of chunks and the remaining minutes between 0 and the
    planned total; the remaining minutes equal the total exactly when no
    chunk is done, and are 0 exactly when every chunk is done. *)
Theorem summary_bounds env items overrides :
  0 ≤ PlanView.doneCount (buildDayPlan env items overrides)
    ≤ Z.of_nat (length (buildDayPlan env items overrides))
  ∧ 0 ≤ PlanView.remainingMinutes (buildDayPlan env items overrides)
      ≤ PlanView.totalMinutes (buildDayPlan env items overrides)
  ∧ (PlanView.remainingMinutes (buildDayPlan env items overrides)
     = PlanView.totalMinutes (buildDayPlan env items overrides)
     ↔ PlanView.doneCount (buildDayPlan env items overrides) = 0)
  ∧ (PlanView.remainingMinutes (buildDayPlan env items overrides) = 0
     ↔ PlanView.doneCount (buildDayPlan env items overrides)
       = Z.of_nat (length (buildDayPlan env items overrides))).
Proof. apply summary_of_positive_plan, buildDayPlan_minutes_pos. Qed.
End PlanProperties.

(** * Further properties: checking off and moving chunks *)

Lemma toggleDone_moveDay (key1 key2 dayISO : string)
    (prev : OverridesByChunkKey) :
  toggleDone key1 (moveDay key2 dayISO prev)
  = moveDay key2 dayISO (toggleDone key1 prev).
Proof.
  unfold toggleDone, moveDay.
  destruct (decide (key1 = key2)) as [->|Hne].
  - rewrite !lookup_insert_eq. simpl. by rewrite !insert_insert_eq.
  - rewrite !lookup_insert_ne by done. by apply insert_insert_ne.
Qed.

Lemma effective_toggleDone_twice (key k : string)
    (prev : OverridesByChunkKey) :
  effective (toggleDone key (toggleDone key prev) !! k)
  = effective (prev !! k).
Proof.
  unfold toggleDone. destruct (decide (key = k)) as [->|Hne].
  - rewrite !lookup_insert_eq. unfold effective. simpl.
    by rewrite negb_involutive.
  - by rewrite !lookup_insert_ne.
Qed.

Lemma chunkKey_nonempty (id : string) (i : nat) : chunkKey id i ≠ "".
Proof.
  unfold chunkKey. destruct id as [|c id]; [|done].
  rewrite string_app_nil. done.
Qed.

Lemma clampToView_idem (s lo hi : string) :
  String.leb lo hi = true →
  clampToView (clampToView s lo hi) lo hi = clampToView s lo hi.
Proof.
  intros Hlh. destruct (clampToView_bounds s lo hi Hlh) as [Hlo Hhi].
  unfold clampToView at 1.
  by rewrite (leb_true_ltb _ _ Hlo), (leb_true_ltb _ _ Hhi).
Qed.

(** With keys that name one chunk each, marking one chunk done adds one to
    the count of done chunks and takes its minutes off what remains. *)
Lemma summary_markDoneAt (plan : list PlanChunk.t) (c : PlanChunk.t) :
  NoDup (PlanChunk.key <$> plan) →
  c ∈ plan →
  PlanChunk.done c = false →
  PlanView.doneCount (markDoneAt (PlanChunk.key c) <$> plan)
  = PlanView.doneCount plan + 1
  ∧ PlanView.remainingMinutes (markDoneAt (PlanChunk.key c) <$> plan)
    = PlanView.remainingMinutes plan - PlanChunk.minutes c
  ∧ PlanView.totalMinutes (markDoneAt (PlanChunk.key c) <$> plan)
    = PlanView.totalMinutes plan.
Proof.
  rewrite !totalMinutes_sum, !doneCount_sum, !remainingMinutes_sum.
  unfold sumZ. intros Hnd Hc Hdone.
  induction plan as [|x plan IH]; [by apply elem_of_nil in Hc|].
  rewrite fmap_cons in Hnd. apply NoDup_cons in Hnd as [Hx Hnd].
  rewrite !fmap_cons. cbn [foldr].
  apply elem_of_cons in Hc as [->|Hc].
  - assert (Hrest : markDoneAt (PlanChunk.key x) <$> plan = plan).
    { clear IH Hnd. induction plan as [|y plan IH]; [done|].
      rewrite fmap_cons in Hx. apply not_elem_of_cons in Hx as [Hy Hx].
      rewrite fmap_cons, IH by done. f_equal.
      unfold markDoneAt. by rewrite bool_decide_eq_false_2. }
    rewrite Hrest. unfold markDoneAt. rewrite bool_decide_eq_true_2 by done.
    simpl. rewrite Hdone. lia.
  - assert (Hne : PlanChunk.key x ≠ PlanChunk.key c).
    { intros Heq. apply Hx. rewrite Heq. by apply list_elem_of_fmap_2. }
    destruct (IH Hnd Hc) as (IH1 & IH2 & IH3).
    rewrite IH1, IH2, IH3.
    unfold markDoneAt. rewrite bool_decide_eq_false_2 by done. lia.
Qed.

Section OverrideFacts.
Context `{DateLib}.
Implicit Types (a : Assignment.t) (c : PlanChunk.t)
  (overrides : OverridesByChunkKey) (env : Ambient).

Lemma planAssignment_ext_effective viewStart overrides overrides' a :
  (∀ i : nat, effective (overrides !! chunkKey (Assignment.id a) i)
              = effective (overrides' !! chunkKey (Assignment.id a) i)) →
  planAssignment viewStart overrides a
  = planAssignment viewStart overrides' a.
Proof.
  intros Hagree. unfold planAssignment.
  destruct (isStale _ _); [done|]. simpl.
  apply imap_ext. intros i mins _. unfold planChunk.
  specialize (Hagree i). unfold effective in Hagree.
  injection Hagree as Hdone Hday. by rewrite Hdone, Hday.
Qed.

Lemma buildDayPlan_ext_effective env items overrides overrides' :
  (∀ k, effective (overrides !! k) = effective (overrides' !! k)) →
  buildDayPlan env items overrides = buildDayPlan env items overrides'.
Proof.
  intros Hagree. rewrite !buildDayPlan_unfold. f_equal.
  apply bind_ext_in. intros a _. apply planAssignment_ext_effective.
  intros i. apply Hagree.
Qed.

Lemma buildDayPlan_toggleDone env items overrides key :
  default false
    (ChunkOverride.done (default ChunkOverride.empty (overrides !! key)))
  = false →
  buildDayPlan env items (toggleDone key overrides)
  = markDoneAt key <$> buildDayPlan env items overrides.
Proof.
  intros Hdone. rewrite !buildDayPlan_unfold.
  rewrite <- (Array_sort_fmap compareChunks compareChunks)
    by apply compareChunks_markDoneAt.
  f_equal. rewrite fmap_bind_list. apply bind_ext_in.
  intros b _. by apply planAssignment_toggleDone.
Qed.

Lemma planAssignment_moveDay viewStart overrides a key dayISO :
  planAssignment viewStart (moveDay key dayISO overrides) a
  = setDayAt key
      (clampToView dayISO (toISODate viewStart) (toISODate (viewStart + 6)))
    <$> planAssignment viewStart overrides a.
Proof.
  unfold planAssignment. destruct (isStale _ _); [done|]. simpl.
  rewrite fmap_imap. apply imap_ext. intros i mins _. simpl.
  unfold planChunk, setDayAt, moveDay. simpl.
  destruct (decide (chunkKey (Assignment.id a) i = key)) as [Heq|Hne].
  - rewrite bool_decide_eq_true_2 by done.
    by rewrite Heq, lookup_insert_eq.
  - rewrite bool_decide_eq_false_2 by done.
    by rewrite lookup_insert_ne.
Qed.

Lemma buildDayPlan_moveDay env items overrides key dayISO :
  buildDayPlan env items (moveDay key dayISO overrides)
  ≡ₚ setDayAt key
       (clampToView dayISO (toISODate (viewStartOf env))
          (toISODate (viewStartOf env + 6)))
     <$> buildDayPlan env items overrides.
Proof.
  rewrite !buildDayPlan_perm, fmap_bind_list.
  erewrite bind_ext_in; [done|].
  intros a _. apply planAssignment_moveDay.
Qed.
End OverrideFacts.

Section OverrideProperties.
Context `{DateLib}.
Implicit Types (a : Assignment.t) (c : PlanChunk.t)
  (overrides : OverridesByChunkKey) (env : Ambient).

Lemma planChunk_done_effective env items overrides c :
  c ∈ buildDayPlan env items overrides →
  PlanChunk.done c
  = default false
      (ChunkOverride.done
         (default ChunkOverride.empty (overrides !! PlanChunk.key c))).
Proof.
  intros (a & _ & Hc)%elem_of_buildDayPlan.
  by apply elem_of_planAssignment in Hc as (_ & i & mins & _ & ->).
Qed.

(** X6 — With unique assignment ids, checking off a chunk that is not done
    ([toggleDone] on its key) and recomputing raises the count of done
    chunks by one, lowers the remaining minutes by the chunk's minutes and
    leaves the planned total as it was. *)
Theorem toggle_updates_summary env items overrides c :
  NoDup (Assignment.id <$> items) →
  c ∈ buildDayPlan env items overrides →
  PlanChunk.done c = false →
  PlanView.doneCount
    (buildDayPlan env items (toggleDone (PlanChunk.key c) overrides))
  = PlanView.doneCount (buildDayPlan env items overrides) + 1
  ∧ PlanView.remainingMinutes
      (buildDayPlan env items (toggleDone (PlanChunk.key c) overrides))
    = PlanView.remainingMinutes (buildDayPlan env items overrides)
      - PlanChunk.minutes c
  ∧ PlanView.totalMinutes
      (buildDayPlan env items (toggleDone (PlanChunk.key c) overrides))
    = PlanView.totalMinutes (buildDayPlan env items overrides).
Proof.
  intros Hids Hc Hdone.
  rewrite buildDayPlan_toggleDone
    by (by rewrite <- (planChunk_done_effective env items)).
  apply summary_markDoneAt; [by apply plan_keys_NoDup|done|done].
Qed.

(** X7 — Toggling [done] twice under the same key gives back the plan:
    the entry stays in the override map, but no chunk reads a difference. *)
Theorem toggle_twice_restores_plan env items overrides (key : string) :
  buildDayPlan env items (toggleDone key (toggleDone key overrides))
  = buildDayPlan env items overrides.
Proof.
  apply buildDayPlan_ext_effective. intros k.
  apply effective_toggleDone_twice.
Qed.

(** X8 — Checking off and moving can be done in either order: the two
    updates of the override map commute, for the same key as for different
    keys; done on one key, the entry holds the moved day and the toggled
    flag. *)
Theorem toggle_and_move_commute overrides (key1 key2 dayISO : string) :
  toggleDone key1 (moveDay key2 dayISO overrides)
  = moveDay key2 dayISO (toggleDone key1 overrides)
  ∧ effective (toggleDone key2 (moveDay key2 dayISO overrides) !! key2)
    = (negb (effective (overrides !! key2)).1, Some dayISO).
Proof.
  split; [apply toggleDone_moveDay|].
  unfold toggleDone, moveDay, effective.
  by rewrite !lookup_insert_eq.
Qed.

(** X9 — Saving the move-day dialog with a key and a valid date gives, up
    to the order of the plan, the same plan with the chunks of that key on
    the picked day clamped into the window; every other chunk, and the
    minutes and done flag of every chunk, are unchanged. The dialog
    closes. *)
Theorem save_move_day_moves_chunk env items (st : PlanViewState.t)
    (key : string) (t : Z) :
  PlanViewState.movingKey st = Some key →
  key ≠ "" →
  PlanViewState.movingDate st = Some (Some t) →
  buildDayPlan env items (PlanViewState.overrides (saveMoveDay st))
  ≡ₚ setDayAt key
       (clampToView (toISODate (localDay t)) (toISODate (viewStartOf env))
          (toISODate (viewStartOf env + 6)))
     <$> buildDayPlan env items (PlanViewState.overrides st)
  ∧ PlanViewState.movingKey (saveMoveDay st) = None.
Proof.
  intros Hkey Hne Hdate. unfold saveMoveDay. rewrite Hkey, Hdate.
  rewrite bool_decide_eq_false_2 by done. simpl.
  split; [apply buildDayPlan_moveDay|done].
Qed.

(** X10 — Opening the move-day dialog on a chunk and saving without
    picking another date keeps the plan as it is, when assignment ids are
    unique and the chunk's day reads back as itself
    ([fromISO] then [toISODate]); the chunk's day is then held by an
    override. *)
Theorem open_then_save_keeps_plan env items (st : PlanViewState.t) c (t : Z) :
  NoDup (Assignment.id <$> items) →
  window_sorted (viewStartOf env) →
  c ∈ buildDayPlan env items (PlanViewState.overrides st) →
  fromISO (PlanChunk.dayISO c) = Some t →
  toISODate (localDay t) = PlanChunk.dayISO c →
  buildDayPlan env items
    (PlanViewState.overrides (saveMoveDay (openMoveDay c st)))
  = buildDayPlan env items (PlanViewState.overrides st)
  ∧ PlanViewState.overrides (saveMoveDay (openMoveDay c st))
      !! PlanChunk.key c ≫= ChunkOverride.dayISO
    = Some (PlanChunk.dayISO c)
  ∧ PlanViewState.movingKey (saveMoveDay (openMoveDay c st)) = None.
Proof.
  intros Hids Hw Hc Hparse Hround.
  pose proof (window_sorted_ends _ Hw) as Hends.
  pose proof Hc as Hc0.
  apply elem_of_buildDayPlan in Hc as (a0 & Ha0 & Hc).
  apply elem_of_planAssignment in Hc as (Hstale0 & i0 & m0 & Hi0 & Hceq).
  assert (Hkey : PlanChunk.key c = chunkKey (Assignment.id a0) i0)
    by (by rewrite Hceq).
  assert (Hday : clampToView (PlanChunk.dayISO c)
                   (toISODate (viewStartOf env))
                   (toISODate (viewStartOf env + 6))
                 = PlanChunk.dayISO c).
  { rewrite Hceq. unfold planChunk. simpl. by apply clampToView_idem. }
  assert (Hsave : saveMoveDay (openMoveDay c st)
                  = PlanViewState.mk
                      (moveDay (PlanChunk.key c) (PlanChunk.dayISO c)
                         (PlanViewState.overrides st))
                      None (Some (Some t))).
  { unfold saveMoveDay, openMoveDay. simpl. rewrite Hparse.
    rewrite bool_decide_eq_false_2
      by (rewrite Hkey; apply chunkKey_nonempty).
    by rewrite Hround. }
  rewrite Hsave. simpl. split_and!; [|  |done].
  - rewrite !buildDayPlan_unfold. f_equal. apply bind_ext_in.
    intros b Hb. rewrite Array_sort_perm in Hb.
    rewrite planAssignment_moveDay.
    set (day := clampToView _ _ _).
    assert (Hfix : ∀ c', c' ∈ planAssignment (viewStartOf env)
                                 (PlanViewState.overrides st) b →
                         setDayAt (PlanChunk.key c) day c' = c').
    { intros c' Hc'. unfold setDayAt. case_bool_decide as Hk; [|done].
      apply elem_of_planAssignment in Hc' as (_ & j & m' & Hj & Hc'eq).
      assert (Hk' : chunkKey (Assignment.id b) j
                    = chunkKey (Assignment.id a0) i0)
        by (by rewrite <- Hkey, <- Hk, Hc'eq).
      apply chunkKey_inj in Hk' as [Hid ->].
      assert (b = a0) as -> by (by apply (NoDup_fmap_eq Assignment.id items)).
      assert (m' = m0) as -> by congruence.
      assert (c' = c) as -> by congruence.
      subst day. rewrite Hday. by destruct c. }
    induction (planAssignment (viewStartOf env)
                 (PlanViewState.overrides st) b) as [|x l IH]; [done|].
    rewrite fmap_cons, Hfix by apply list_elem_of_here.
    f_equal. apply IH. intros c' Hc'. apply Hfix.
    by apply list_elem_of_further.
  - unfold moveDay. by rewrite lookup_insert_eq.
Qed.
End OverrideProperties.

(** * Further properties: day groups *)

Section MapPush.
Context {V : Type}.
Implicit Types (map : list (string * list V)) (k : string) (c : V).

Lemma map_push_keys map k c :
  (map_push map k c).*1 = if decide (k ∈ map.*1) then map.*1
                          else map.*1 ++ [k].
Proof.
  induction map as [|[k' l] map IH].
  - done.
  - cbn [map_push]. case_bool_decide as Hk.
    + subst k'. clear IH. rewrite !fmap_cons. simpl.
      destruct (decide (k ∈ k :: map.*1)) as [Hin|Hin]; [done|].
      exfalso. apply Hin, list_elem_of_here.
    + rewrite !fmap_cons, IH. simpl.
      destruct (decide (k ∈ map.*1)) as [Hin|Hin];
        destruct (decide (k ∈ k' :: map.*1)) as [Hin'|Hin']; try done.
      * exfalso. apply Hin'. by apply list_elem_of_further.
      * exfalso. apply elem_of_cons in Hin' as [?|?]; [congruence|done].
Qed.

Lemma map_push_concat map k c :
  concat (map_push map k c).*2 ≡ₚ concat map.*2 ++ [c].
Proof.
  induction map as [|[k' l] map IH]; simpl; [done|].
  case_bool_decide; simpl.
  - rewrite <- !app_assoc. apply Permutation_app_head.
    apply Permutation_app_comm.
  - by rewrite IH, app_assoc.
Qed.

Lemma map_push_entry map k c (e : string * list V) :
  NoDup map.*1 →
  e ∈ map_push map k c →
  (e ∈ map ∧ e.1 ≠ k)
  ∨ (e.1 = k ∧ ∃ old, e.2 = old ++ [c]
                      ∧ ((k, old) ∈ map ∨ (old = [] ∧ k ∉ map.*1))).
Proof.
  induction map as [|[k' l] map IH]; simpl; intros Hnd He.
  - apply list_elem_of_singleton in He as ->. right. simpl.
    split; [done|]. exists []. split; [done|]. right.
    split; [done|apply not_elem_of_nil].
  - apply NoDup_cons in Hnd as [Hk' Hnd].
    case_bool_decide as Hk.
    + subst k'. apply elem_of_cons in He as [->|He].
      * right. simpl. split; [done|]. exists l. split; [done|]. left.
        apply list_elem_of_here.
      * left. split; [by apply list_elem_of_further|].
        intros <-. apply Hk'. by apply (list_elem_of_fmap_2 fst) in He.
    + apply elem_of_cons in He as [->|He].
      * left. split; [apply list_elem_of_here|done].
      * destruct (IH Hnd He) as [[Hin Hne]|(Hek & old & Hold & Hcase)].
        -- left. split; [by apply list_elem_of_further|done].
        -- right. split; [done|]. exists old. split; [done|].
           destruct Hcase as [Hin|[-> Hnin]].
           ++ left. by apply list_elem_of_further.
           ++ right. split; [done|].
              intros [?|?]%elem_of_cons; [congruence|done].
Qed.
End MapPush.

Lemma filter_none {A : Type} (P : A → Prop) `{∀ x, Decision (P x)}
    (l : list A) :
  (∀ x, x ∈ l → ¬ P x) → filter P l = [].
Proof.
  intros Hnone. induction l as [|x l IH]; [done|].
  rewrite filter_cons_False by (apply Hnone, list_elem_of_here).
  apply IH. intros y Hy. apply Hnone. by apply list_elem_of_further.
Qed.

(** What [grouped]'s loop has built after the chunks of [plan]: one entry
    per day that occurs, holding the chunks of that day in plan order. *)
Lemma groupByDay_spec (plan : list PlanChunk.t) :
  NoDup (groupByDay plan).*1
  ∧ (∀ e, e ∈ groupByDay plan →
          e.2 = filter (λ c, PlanChunk.dayISO c = e.1) plan ∧ e.2 ≠ [])
  ∧ (∀ c, c ∈ plan → PlanChunk.dayISO c ∈ (groupByDay plan).*1)
  ∧ concat (groupByDay plan).*2 ≡ₚ plan.
Proof.
  unfold groupByDay.
  induction plan as [|c plan IH] using rev_ind.
  { simpl. split_and!; [constructor|by intros e ?%elem_of_nil|
                        by intros c ?%elem_of_nil|done]. }
  rewrite foldl_snoc.
  destruct IH as (Hnd & Hent & Hcov & Hcat).
  set (map := foldl (λ map c, map_push map (PlanChunk.dayISO c) c) [] plan)
    in *.
  split_and!.
  - rewrite map_push_keys. case_decide; [done|].
    apply NoDup_app. split_and!; [done| |apply NoDup_singleton].
    intros k Hk ->%list_elem_of_singleton. done.
  - intros e He. rewrite filter_app.
    destruct (map_push_entry map _ c e Hnd He)
      as [[Hin Hne]|(Hek & old & Hold & Hcase)].
    + destruct (Hent e Hin) as [Heq Hnil]. split; [|done].
      rewrite (filter_cons_False _ c) by done.
      rewrite filter_nil, app_nil_r. exact Heq.
    + split; [|rewrite Hold; by destruct old].
      rewrite Hek, (filter_cons_True _ c) by done.
      rewrite filter_nil, Hold.
      f_equal. destruct Hcase as [Hin|[-> Hnin]].
      * by destruct (Hent _ Hin) as [Heq _].
      * symmetry. apply filter_none. intros x Hx Hday.
        apply Hnin. rewrite <- Hday. by apply Hcov.
  - intros x Hx. rewrite map_push_keys.
    apply elem_of_app in Hx as [Hx|Hx].
    + case_decide; [by apply Hcov|].
      apply elem_of_app. left. by apply Hcov.
    + apply list_elem_of_singleton in Hx as ->.
      case_decide; [done|]. apply elem_of_app. right.
      apply list_elem_of_here.
  - by rewrite map_push_concat, Hcat.
Qed.

Lemma StronglySorted_fmap {A B : Type} (R : B → B → Prop) (f : A → B)
    (l : list A) :
  StronglySorted (λ x y, R (f x) (f y)) l → StronglySorted R (f <$> l).
Proof.
  induction 1 as [|x l _ IH Hx]; [constructor|].
  rewrite fmap_cons. constructor; [done|].
  apply Forall_fmap. exact Hx.
Qed.

Lemma entries_sorted {V : Type} (map : list (string * list V)) :
  NoDup map.*1 →
  StronglySorted (λ e1 e2 : string * list V, String.ltb e1.1 e2.1 = true)
    (Array_sort compareEntries map).
Proof.
  intros Hnd.
  assert (Hweak : StronglySorted
                    (λ e1 e2 : string * list V, String.leb e1.1 e2.1 = true)
                    (Array_sort compareEntries map)).
  { apply Array_sort_sorted.
    - intros x y z. apply leb_trans.
    - intros x y _ _. unfold sortCompare, compareEntries. simpl.
      destruct (String.ltb x.1 y.1) eqn:Hlt; [|lia].
      intros _. by apply ltb_true_leb.
    - intros x y _ _. unfold sortCompare, compareEntries. simpl.
      destruct (String.ltb x.1 y.1) eqn:Hlt; [lia|].
      intros _. by apply ltb_false_leb. }
  assert (Hnd' : NoDup (Array_sort compareEntries map).*1)
    by (by rewrite Array_sort_perm).
  induction Hweak as [|e l _ IH He]; [constructor|].
  rewrite fmap_cons in Hnd'. apply NoDup_cons in Hnd' as [Hnotin Hnd'].
  constructor; [by apply IH|].
  apply Forall_forall. intros e' He'.
  rewrite Forall_forall in He. specialize (He e' He').
  destruct (String.ltb e.1 e'.1) eqn:Hlt; [done|exfalso].
  assert (Hne : e.1 ≠ e'.1).
  { intros Heq. apply Hnotin. rewrite Heq. by apply list_elem_of_fmap_2. }
  pose proof (ltb_total _ _ Hne Hlt) as Hgt.
  apply leb_true_ltb in He. congruence.
Qed.

Section GroupProperties.
Context `{DateLib} `{DayFormat}.
Implicit Types (c : PlanChunk.t) (g : DayGroup.t) (env : Ambient).

Lemma elem_of_grouped env (plan : list PlanChunk.t) g :
  g ∈ grouped env plan ↔
  ∃ e, e ∈ groupByDay plan
       ∧ g = DayGroup.mk e.1 (formatDayLabel env e.1)
               (foldl (λ acc x, acc + PlanChunk.minutes x) 0 e.2) e.2.
Proof.
  unfold grouped. rewrite list_elem_of_fmap.
  split; intros (e & He1 & He2); exists e.
  - by rewrite Array_sort_perm in He2.
  - by rewrite Array_sort_perm.
Qed.

Lemma grouped_contents env (plan : list PlanChunk.t) g :
  g ∈ grouped env plan →
  DayGroup.list g
  = filter (λ c, PlanChunk.dayISO c = DayGroup.dayISO g) plan
  ∧ DayGroup.list g ≠ []
  ∧ DayGroup.total g = sumZ (PlanChunk.minutes <$> DayGroup.list g)
  ∧ DayGroup.label g = formatDayLabel env (DayGroup.dayISO g).
Proof.
  intros (e & He & ->)%elem_of_grouped. simpl.
  destruct (groupByDay_spec plan) as (_ & Hent & _ & _).
  destruct (Hent e He) as [Heq Hnil].
  split_and!; [done|done| |done].
  rewrite foldl_add. lia.
Qed.

Lemma grouped_partition env (plan : list PlanChunk.t) :
  StronglySorted groupOrder (grouped env plan)
  ∧ concat (DayGroup.list <$> grouped env plan) ≡ₚ plan
  ∧ sumZ (DayGroup.total <$> grouped env plan) = PlanView.totalMinutes plan
  ∧ (∀ c, c ∈ plan →
          ∃ g, g ∈ grouped env plan
               ∧ DayGroup.dayISO g = PlanChunk.dayISO c
               ∧ c ∈ DayGroup.list g).
Proof.
  destruct (groupByDay_spec plan) as (Hnd & Hent & Hcov & Hcat).
  assert (Hlists : DayGroup.list <$> grouped env plan
                   = (Array_sort compareEntries (groupByDay plan)).*2).
  { unfold grouped. rewrite <- list_fmap_compose. by apply list_fmap_ext. }
  assert (Hperm : concat (DayGroup.list <$> grouped env plan) ≡ₚ plan).
  { rewrite Hlists. etrans; [|exact Hcat].
    by rewrite (Array_sort_perm compareEntries (groupByDay plan)). }
  split_and!.
  - unfold grouped. apply StronglySorted_fmap. unfold groupOrder. simpl.
    by apply entries_sorted.
  - done.
  - rewrite totalMinutes_sum, <- (sumZ_perm _ _ (fmap_Permutation _ _ _ Hperm)).
    clear Hperm Hlists. unfold grouped.
    induction (Array_sort compareEntries (groupByDay plan)) as [|e l IH];
      [done|].
    rewrite !fmap_cons. simpl. rewrite fmap_app, sumZ_app.
    rewrite foldl_add, IH. lia.
  - intros c Hc. specialize (Hcov c Hc).
    apply list_elem_of_fmap in Hcov as (e & Hday & He).
    exists (DayGroup.mk e.1 (formatDayLabel env e.1)
              (foldl (λ acc x, acc + PlanChunk.minutes x) 0 e.2) e.2).
    split_and!; [apply elem_of_grouped; by exists e|done|].
    simpl. destruct (Hent e He) as [-> _].
    apply list_elem_of_filter. by split.
Qed.

(** X11 — Every day group of a plan holds exactly the chunks of the plan
    planned on the group's day, in plan order, and at least one; its total
    is the sum of their minutes and its label that of its day. *)
Theorem group_contents env (plan : list PlanChunk.t) g :
  g ∈ grouped env plan →
  DayGroup.list g
  = filter (λ c, PlanChunk.dayISO c = DayGroup.dayISO g) plan
  ∧ DayGroup.list g ≠ []
  ∧ DayGroup.total g = sumZ (PlanChunk.minutes <$> DayGroup.list g)
  ∧ DayGroup.label g = formatDayLabel env (DayGroup.dayISO g).
Proof. apply grouped_contents. Qed.

(** X12 — The day groups of a plan come in strictly increasing order of
    their days (so no day has two groups); together they hold every chunk
    of the plan once, each chunk in the group of its day, and their totals
    add up to the planned total. *)
Theorem groups_partition_plan env (plan : list PlanChunk.t) :
  StronglySorted groupOrder (grouped env plan)
  ∧ concat (DayGroup.list <$> grouped env plan) ≡ₚ plan
  ∧ sumZ (DayGroup.total <$> grouped env plan) = PlanView.totalMinutes plan
  ∧ (∀ c, c ∈ plan →
          ∃ g, g ∈ grouped env plan
               ∧ DayGroup.dayISO g = PlanChunk.dayISO c
               ∧ c ∈ DayGroup.list g).
Proof. apply grouped_partition. Qed.
End GroupProperties.

Section TodayGroup.
Context `{DateLib} `{DayFormat}.
Implicit Types (c : PlanChunk.t) (g : DayGroup.t) (env : Ambient).

Lemma plan_day_not_before_window env items overrides c :
  window_sorted (viewStartOf env) →
  c ∈ buildDayPlan env items overrides →
  String.ltb (PlanChunk.dayISO c) (toISODate (viewStartOf env)) = false.
Proof.
  intros Hw (a & _ & Hc)%elem_of_buildDayPlan.
  apply elem_of_planAssignment in Hc as (_ & i & mins & _ & ->).
  apply leb_true_ltb. unfold planChunk. simpl.
  by apply clampToView_bounds, window_sorted_ends.
Qed.

Lemma first_chunk_today env items overrides :
  dayStart_increasing →
  window_sorted (viewStartOf env) →
  (∀ k, overrides !! k ≫= ChunkOverride.dayISO = None) →
  buildDayPlan env items overrides ≠ [] →
  ∃ c, c ∈ buildDayPlan env items overrides
       ∧ PlanChunk.dayISO c = toISODate (viewStartOf env).
Proof.
  intros Hmono Hw Hov Hne.
  destruct (buildDayPlan env items overrides) as [|c0 l] eqn:Hp; [done|].
  assert (Hc0 : c0 ∈ buildDayPlan env items overrides)
    by (rewrite Hp; apply list_elem_of_here).
  apply elem_of_buildDayPlan in Hc0 as (a & Ha & Hc0).
  apply elem_of_planAssignment in Hc0 as (Hstale & _).
  pose proof (planAssignment_count _ overrides a Hstale) as Hlen.
  pose proof (chunksFor_pos _ (totalMinutesOf_ge a)) as Hpos.
  rewrite planAssignment_length, Hstale in Hlen.
  destruct (splitMinutes (totalMinutesOf a)) as [|m ms] eqn:Hsplit;
    [simpl in Hlen; lia|].
  eexists. split.
  - rewrite <- Hp. apply elem_of_buildDayPlan. exists a. split; [done|].
    apply (list_elem_of_lookup_2 _ 0%nat).
    rewrite planAssignment_lookup by done. rewrite Hsplit. reflexivity.
  - rewrite planChunk_dayISO_default; [|done|done|simpl; lia|apply Hov].
    rewrite dayIndexOf_first by (simpl; lia). by rewrite Z.add_0_r.
Qed.

(** X13 — For a plan that is not empty and has no day override, the first
    day group is today's and is labelled "Today", provided today's date
    string reads back as today. *)
Theorem first_group_is_today env items overrides :
  dayStart_increasing →
  window_sorted (viewStartOf env) →
  (∀ k, overrides !! k ≫= ChunkOverride.dayISO = None) →
  localDay <$> fromISO (toISODate (viewStartOf env))
  = Some (viewStartOf env) →
  buildDayPlan env items overrides ≠ [] →
  ∃ g rest,
    grouped env (buildDayPlan env items overrides) = g :: rest
    ∧ DayGroup.dayISO g = toISODate (viewStartOf env)
    ∧ DayGroup.label g = "Today".
Proof.
  intros Hmono Hw Hov Hround Hne.
  destruct (first_chunk_today env items overrides Hmono Hw Hov Hne)
    as (c & Hc & Hday).
  set (plan := buildDayPlan env items overrides) in *.
  destruct (grouped_partition env plan) as (Hsorted & _ & _ & Hcov).
  destruct (Hcov c Hc) as (g & Hg & Hgday & _).
  assert (Hlabel : formatDayLabel env (toISODate (viewStartOf env))
                   = "Today").
  { unfold formatDayLabel. rewrite Hround. fold (viewStartOf env).
    by rewrite Z.sub_diag. }
  destruct (grouped env plan) as [|g0 rest] eqn:Hgrouped;
    [by apply elem_of_nil in Hg|].
  exists g0, rest. split; [done|].
  assert (Hg0 : g0 ∈ grouped env plan)
    by (rewrite Hgrouped; apply list_elem_of_here).
  assert (Hg0day : DayGroup.dayISO g0 = toISODate (viewStartOf env)).
  { apply elem_of_cons in Hg as [->|Hg]; [congruence|].
    exfalso. apply StronglySorted_inv in Hsorted as [_ Hall].
    rewrite Forall_forall in Hall. specialize (Hall g Hg).
    unfold groupOrder in Hall. rewrite Hgday, Hday in Hall.
    destruct (grouped_contents env plan g0 Hg0) as (Hlist & Hnil & _).
    destruct (DayGroup.list g0) as [|c1 l1] eqn:Hl; [done|].
    assert (Hc1 : c1 ∈ filter
                    (λ c, PlanChunk.dayISO c = DayGroup.dayISO g0) plan)
      by (rewrite <- Hlist; apply list_elem_of_here).
    apply list_elem_of_filter in Hc1 as [Hc1day Hc1].
    pose proof (plan_day_not_before_window env items overrides c1 Hw Hc1)
      as Hnb.
    rewrite Hc1day in Hnb. congruence. }
  split; [done|].
  destruct (grouped_contents env plan g0 Hg0) as (_ & _ & _ & ->).
  by rewrite Hg0day.
Qed.
End TodayGroup.

(** ** Due status and the status filter *)

Lemma hours_le (d k : Z) :
  Qle_bool (num_div d 3600000) (inject_Z k) = (d <=? k * 3600000).
Proof.
  apply eq_true_iff_eq. rewrite Qle_bool_iff, Z.leb_le.
  unfold num_div, Qle, Qdiv, Qmult, Qinv, inject_Z. simpl. lia.
Qed.

Lemma hours_ge (d k : Z) :
  Qle_bool (inject_Z k) (num_div d 3600000) = (k * 3600000 <=? d).
Proof.
  apply eq_true_iff_eq. rewrite Qle_bool_iff, Z.leb_le.
  unfold num_div, Qle, Qdiv, Qmult, Qinv, inject_Z. simpl. lia.
Qed.

Section StatusProperties.
Context `{DateLib}.

(** X14 — With a due date that parses, the status chip is Overdue before
    now, Due soon from now to 48 hours later (both ends included) and
    Upcoming after that, and an assignment passes exactly the status filter
    named like its chip (and the filter ALL). *)
Theorem chip_agrees_with_filter (env : Ambient) (a : Assignment.t) (t : Z) :
  fromISO (Assignment.dueISO a) = Some t →
  let chip := dueStatusChip env (Assignment.dueISO a) in
  let now := DateTime_now env in
  (chip = Overdue ↔ t < now)
  ∧ (chip = DueSoon ↔ now ≤ t ≤ now + 48 * 3600000)
  ∧ (chip = Upcoming ↔ now + 48 * 3600000 < t)
  ∧ ∀ statusFilter,
      matchesStatus env statusFilter a = true
      ↔ statusFilter = ALL ∨ statusFilter = filterOfChip chip.
Proof.
  intros Ht chip now. subst chip now.
  unfold dueStatusChip, matchesStatus, diffHours. rewrite Ht. simpl.
  change 0%Q with (inject_Z 0). change 48%Q with (inject_Z 48).
  rewrite !hours_le, !hours_ge.
  destruct (Z.leb_spec (0 * 3600000) (t - DateTime_now env)),
    (Z.leb_spec (t - DateTime_now env) (48 * 3600000)); simpl.
  all: split_and!; try (split; [done || (intros _; lia) | done || lia]).
  all: intros []; simpl; split; auto; try done.
  all: intros [|]; done.
Qed.

(** X15 — With a due date that does not parse the chip reads Upcoming, yet
    the assignment passes none of the three status filters: it is listed
    under ALL only. *)
Theorem unparsed_due_matches_no_status (env : Ambient) (a : Assignment.t) :
  fromISO (Assignment.dueISO a) = None →
  dueStatusChip env (Assignment.dueISO a) = Upcoming
  ∧ ∀ statusFilter,
      matchesStatus env statusFilter a = true ↔ statusFilter = ALL.
Proof.
  intros Ht. unfold dueStatusChip, matchesStatus, diffHours. rewrite Ht.
  split; [done|]. by intros [].
Qed.
End StatusProperties.

(** ** Local storage *)

Lemma PLAN_KEY_ne_KEY : PLAN_KEY ≠ KEY.
Proof. done. Qed.

Lemma setItem_setItem (key v1 v2 : string) (env : Ambient) :
  setItem key v2 (setItem key v1 env) = setItem key v2 env.
Proof. unfold setItem. simpl. by rewrite insert_insert_eq. Qed.

Lemma getItem_setItem (key value : string) (env : Ambient) :
  getItem (setItem key value env) key = Some value.
Proof. unfold getItem, setItem. simpl. by rewrite lookup_insert_eq. Qed.

Lemma getItem_setItem_ne (key key' value : string) (env : Ambient) :
  key ≠ key' → getItem (setItem key value env) key' = getItem env key'.
Proof.
  intros Hne. unfold getItem, setItem. simpl. by rewrite lookup_insert_ne.
Qed.

Lemma all_not_done (plan : list PlanChunk.t) :
  (∀ c, c ∈ plan → PlanChunk.done c = false) →
  PlanView.doneCount plan = 0
  ∧ PlanView.remainingMinutes plan = PlanView.totalMinutes plan.
Proof.
  intros Hall. rewrite doneCount_sum, remainingMinutes_sum, totalMinutes_sum.
  induction plan as [|c plan IH]; [done|].
  rewrite !fmap_cons. cbn [sumZ foldr].
  rewrite (Hall c) by left.
  destruct IH as [IH1 IH2]; [intros c' Hc'; apply Hall; by right|].
  unfold sumZ in IH1, IH2. rewrite IH1, IH2. done.
Qed.

Section StorageProperties.
Context `{DateLib} `{JSONCodec OverridesByChunkKey}
  `{JSONCodec (list Assignment.t)}.

(** X16 — Saving an override map and loading it back gives the same map,
    provided JSON reads back what it wrote and wrote a non-empty text;
    saving leaves the stored assignments and the clock alone and replaces
    whatever map was saved before. *)
Theorem save_then_load_overrides (env : Ambient)
    (state : OverridesByChunkKey) :
  JSON_parse (JSON_stringify state) = Some state →
  JSON_stringify state ≠ "" →
  loadOverrides (saveOverrides state env) = state
  ∧ loadAssignments (saveOverrides state env) = loadAssignments env
  ∧ DateTime_now (saveOverrides state env) = DateTime_now env
  ∧ ∀ state0,
      saveOverrides state (saveOverrides state0 env)
      = saveOverrides state env.
Proof.
  intros Hparse Hne. split_and!.
  - unfold loadOverrides, saveOverrides. rewrite getItem_setItem.
    rewrite bool_decide_eq_false_2 by done. by rewrite Hparse.
  - unfold loadAssignments, saveOverrides.
    by rewrite getItem_setItem_ne by apply PLAN_KEY_ne_KEY.
  - done.
  - intros state0. apply setItem_setItem.
Qed.

(** X17 — Saving the assignment list and loading it back gives the same
    list, under the same proviso on JSON; saving leaves the stored override
    map alone. *)
Theorem save_then_load_assignments (env : Ambient)
    (items : list Assignment.t) :
  JSON_parse (JSON_stringify items) = Some items →
  JSON_stringify items ≠ "" →
  loadAssignments (saveAssignments items env) = items
  ∧ loadOverrides (saveAssignments items env) = loadOverrides env
  ∧ ∀ overrides,
      buildDayPlan (saveAssignments items env) items overrides
      = buildDayPlan env items overrides.
Proof.
  intros Hparse Hne. split_and!.
  - unfold loadAssignments, saveAssignments. rewrite getItem_setItem.
    rewrite bool_decide_eq_false_2 by done. by rewrite Hparse.
  - unfold loadOverrides, saveAssignments.
    rewrite getItem_setItem_ne; [done|]. intros Heq. symmetry in Heq.
    by apply PLAN_KEY_ne_KEY in Heq.
  - done.
Qed.

(** X18 — When nothing is stored under the plan key, or the empty text, or
    a text that JSON cannot parse, the loaded override map is empty: the
    plan built from it has no chunk done and as many minutes remaining as
    planned. *)
Theorem unreadable_overrides_give_fresh_plan (env : Ambient)
    (items : list Assignment.t) :
  getItem env PLAN_KEY = None
  ∨ getItem env PLAN_KEY = Some ""
  ∨ (∃ raw, getItem env PLAN_KEY = Some raw
            ∧ JSON_parse (A := OverridesByChunkKey) raw = None) →
  let plan := buildDayPlan env items (loadOverrides env) in
  loadOverrides env = ∅
  ∧ PlanView.doneCount plan = 0
  ∧ PlanView.remainingMinutes plan = PlanView.totalMinutes plan.
Proof.
  intros Hraw plan.
  assert (Hempty : loadOverrides env = ∅).
  { unfold loadOverrides.
    destruct Hraw as [->|[->|(raw & -> & Hparse)]]; [done|done|].
    case_bool_decide; [done|]. by rewrite Hparse. }
  split; [done|]. apply all_not_done. intros c Hc. subst plan.
  rewrite (planChunk_done_effective _ _ _ _ Hc), Hempty.
  by rewrite lookup_empty.
Qed.
End StorageProperties.

(** ** The assignment list *)

Lemma filter_all {A : Type} (P : A → Prop) `{∀ x, Decision (P x)}
    (l : list A) :
  (∀ x, x ∈ l → P x) → filter P l = l.
Proof.
  induction l as [|x l IH]; intros Hall; [done|].
  rewrite filter_cons_True by (apply Hall; left).
  f_equal. apply IH. intros y Hy. apply Hall. by right.
Qed.

Lemma remove_items (env : Ambient) (id : string) (st : AppState.t) :
  AppState.items (remove env id st)
  = filter (λ x, Assignment.id x ≠ id) (AppState.items st).
Proof. unfold remove. by case_bool_decide. Qed.

Section AppProperties.
Context `{DateLib}.

(** X19 — Removing an assignment removes exactly its chunks from the plan
    (the other chunks stay as they are, overrides included), whatever the
    override map, and no assignment with that id is left in the list. *)
Theorem remove_drops_chunks (env : Ambient) (id : string) (st : AppState.t)
    (overrides : OverridesByChunkKey) :
  buildDayPlan env (AppState.items (remove env id st)) overrides
  ≡ₚ filter (λ c, PlanChunk.assignmentId c ≠ id)
       (buildDayPlan env (AppState.items st) overrides)
  ∧ id ∉ Assignment.id <$> AppState.items (remove env id st).
Proof.
  rewrite remove_items. split.
  - rewrite !buildDayPlan_perm.
    induction (AppState.items st) as [|a items IH]; [done|].
    rewrite bind_cons, filter_app.
    destruct (decide (Assignment.id a = id)) as [Heq|Hne].
    + rewrite filter_cons_False by (intros Hn; by apply Hn).
      rewrite (filter_none _ (planAssignment (viewStartOf env) overrides a));
        [by rewrite IH|].
      intros c Hc Hn. apply Hn.
      by rewrite (planAssignment_assignmentId _ _ _ _ Hc).
    + rewrite filter_cons_True by done.
      rewrite (filter_all _ (planAssignment (viewStartOf env) overrides a)).
      * by rewrite bind_cons, IH.
      * intros c Hc. by rewrite (planAssignment_assignmentId _ _ _ _ Hc).
  - intros (a & Hid & Ha)%list_elem_of_fmap.
    apply list_elem_of_filter in Ha as [Hne _]. by apply Hne.
Qed.
End AppProperties.

Section FormProperties.
Context `{FormLib}.

(** X20 — Submitting the form never changes the id or the estimate of a
    listed assignment, nor the order of the list: the ids and estimates
    stay as they are, or one new assignment without estimate is put in
    front. With a blank title, no due date or an invalid one the state is
    left as it is; an assignment that is not being edited is kept
    unchanged. *)
Theorem submit_keeps_ids_and_estimates (env : Ambient) (newId : string)
    (st : AppState.t) :
  let st' := onSubmit env newId st in
  (idsAndEstimates (AppState.items st') = idsAndEstimates (AppState.items st)
   ∨ idsAndEstimates (AppState.items st')
     = (newId, None) :: idsAndEstimates (AppState.items st))
  ∧ (trim (AppState.title st) = "" ∨ AppState.due st = None
     ∨ AppState.due st = Some None → st' = st)
  ∧ ∀ a, a ∈ AppState.items st →
         AppState.editingId st ≠ Some (Assignment.id a) →
         a ∈ AppState.items st'.
Proof.
  intros st'. subst st'. unfold onSubmit.
  case_bool_decide as Htitle.
  { split_and!; [by left|done|done]. }
  destruct (AppState.due st) as [[t|]|] eqn:Hdue; simpl.
  2,3: split_and!; [by left|done|done].
  split_and!.
  - destruct (AppState.editingId st) as [e|]; [|by right].
    case_bool_decide; [by right|]. left. simpl.
    unfold idsAndEstimates. rewrite <- list_fmap_compose.
    apply list_fmap_ext. intros i a _. simpl. by case_bool_decide.
  - intros [?|[?|?]]; done.
  - intros a Ha Hed.
    destruct (AppState.editingId st) as [e|]; [|by right].
    case_bool_decide; [by right|]. simpl.
    apply list_elem_of_fmap. exists a. split; [|done].
    rewrite bool_decide_eq_false_2; [done|]. intros Hid. apply Hed.
    by rewrite Hid.
Qed.
End FormProperties.

Section ListProperties.
Context `{DateLib}.

Lemma dueOrder_trans (a b c : Assignment.t) :
  dueOrder a b → dueOrder b c → dueOrder a c.
Proof.
  unfold dueOrder.
  destruct (Date_getTime (Assignment.dueISO a)),
    (Date_getTime (Assignment.dueISO b)),
    (Date_getTime (Assignment.dueISO c)); try done. lia.
Qed.

(** X21 — The list shown by [App] holds the same assignments as the
    stored list, whatever their due strings; when every due string is one
    [Date] can read it is in ascending order of due instant. *)
Theorem list_sorted_by_due (items : list Assignment.t) :
  sorted items ≡ₚ items
  ∧ ((∀ a, a ∈ items → is_Some (Date_getTime (Assignment.dueISO a))) →
     StronglySorted dueOrder (sorted items)).
Proof.
  split; [apply Array_sort_perm|]. intros Hparse.
  apply Array_sort_sorted.
  - apply dueOrder_trans.
  - intros a b [ta Ha]%Hparse [tb Hb]%Hparse.
    unfold sortCompare, compareDue, dueOrder. rewrite Ha, Hb. simpl. lia.
  - intros a b [ta Ha]%Hparse [tb Hb]%Hparse.
    unfold sortCompare, compareDue, dueOrder. rewrite Ha, Hb. simpl. lia.
Qed.
End ListProperties.

(** ** Calendar export: escaping *)

Ltac esc_step :=
  repeat first
    [ progress simpl
    | rewrite string_app_cons
    | rewrite string_app_nil
    | match goal with E : Ascii.eqb _ _ = _ |- _ => rewrite E end ].

Lemma escapeICS_cons (a : ascii) (s : string) :
  escapeICS (Some (String a s)) = escChar a +:+ escapeICS (Some s).
Proof.
  unfold escapeICS, escChar.
  destruct (Ascii.eqb a BACKSLASH) eqn:E1;
    [apply Ascii.eqb_eq in E1; subst a; by esc_step|].
  destruct (Ascii.eqb a LF) eqn:E2;
    [apply Ascii.eqb_eq in E2; subst a; by esc_step|].
  destruct (Ascii.eqb a ",") eqn:E3;
    [apply Ascii.eqb_eq in E3; subst a; by esc_step|].
  destruct (Ascii.eqb a ";") eqn:E4;
    [apply Ascii.eqb_eq in E4; subst a; by esc_step|].
  by esc_step.
Qed.

Lemma string_app_assoc (s1 s2 s3 : string) :
  (s1 +:+ s2) +:+ s3 = s1 +:+ (s2 +:+ s3).
Proof.
  induction s1 as [|a s1 IH]; [by rewrite !string_app_nil|].
  by rewrite !string_app_cons, IH.
Qed.

Lemma escapeICS_app (s1 s2 : string) :
  escapeICS (Some (s1 +:+ s2))
  = escapeICS (Some s1) +:+ escapeICS (Some s2).
Proof.
  induction s1 as [|a s1 IH]; [by rewrite !string_app_nil|].
  rewrite string_app_cons, !escapeICS_cons, IH.
  by rewrite string_app_assoc.
Qed.

Lemma unescapeICS_escChar (a : ascii) (s : string) :
  unescapeICS (escChar a +:+ s) = String a (unescapeICS s).
Proof.
  unfold escChar.
  destruct (Ascii.eqb a BACKSLASH) eqn:E1;
    [apply Ascii.eqb_eq in E1; subst a; by esc_step|].
  destruct (Ascii.eqb a LF) eqn:E2;
    [apply Ascii.eqb_eq in E2; subst a; by esc_step|].
  destruct (Ascii.eqb a ",") eqn:E3;
    [apply Ascii.eqb_eq in E3; subst a; by esc_step|].
  destruct (Ascii.eqb a ";") eqn:E4;
    [apply Ascii.eqb_eq in E4; subst a; by esc_step|].
  by esc_step.
Qed.

Lemma unescapeICS_escapeICS (s : string) :
  unescapeICS (escapeICS (Some s)) = s.
Proof.
  induction s as [|a s IH]; [done|].
  by rewrite escapeICS_cons, unescapeICS_escChar, IH.
Qed.

Lemma occursIn_app (c : ascii) (s1 s2 : string) :
  occursIn c (s1 +:+ s2) ↔ occursIn c s1 ∨ occursIn c s2.
Proof.
  induction s1 as [|a s1 IH].
  - rewrite string_app_nil. simpl. tauto.
  - rewrite string_app_cons. simpl. rewrite IH. tauto.
Qed.

Lemma escChar_no_LF (a : ascii) : ¬ occursIn LF (escChar a).
Proof.
  unfold escChar.
  destruct (Ascii.eqb a BACKSLASH) eqn:E1;
    [simpl; intros [|[|[]]]; done|].
  destruct (Ascii.eqb a LF) eqn:E2; [simpl; intros [|[|[]]]; done|].
  destruct (Ascii.eqb a ",") eqn:E3; [simpl; intros [|[|[]]]; done|].
  destruct (Ascii.eqb a ";") eqn:E4; [simpl; intros [|[|[]]]; done|].
  simpl. intros [->|[]]. by rewrite Ascii.eqb_refl in E2.
Qed.

(** X22 — Escaping a text for the calendar file loses nothing: reading the
    escapes back gives the text, so different texts have different escaped
    forms; and the escaped form holds no line break. *)
Theorem escapeICS_reversible (s : string) :
  unescapeICS (escapeICS (Some s)) = s
  ∧ (∀ s', escapeICS (Some s) = escapeICS (Some s') → s = s')
  ∧ ¬ occursIn LF (escapeICS (Some s)).
Proof.
  split_and!.
  - apply unescapeICS_escapeICS.
  - intros s' Heq.
    by rewrite <- (unescapeICS_escapeICS s), Heq, unescapeICS_escapeICS.
  - induction s as [|a s IH]; [by intros []|].
    rewrite escapeICS_cons, occursIn_app. intros [Ha|Hs]; [|done].
    by apply escChar_no_LF in Ha.
Qed.

(** X23 — The four successive replacements of [escapeICS] act as a single
    pass that escapes each character on its own (no replacement touches
    what an earlier one wrote): the escaped form of a concatenation is the
    concatenation of the escaped forms, and a missing text is escaped as
    the empty text. *)
Theorem escapeICS_one_pass (a : ascii) (s1 s2 : string) :
  escapeICS (Some (String a s1)) = escChar a +:+ escapeICS (Some s1)
  ∧ escapeICS (Some (s1 +:+ s2))
    = escapeICS (Some s1) +:+ escapeICS (Some s2)
  ∧ escapeICS None = "".
Proof.
  split_and!; [apply escapeICS_cons|apply escapeICS_app|done].
Qed.

(** * The further properties on concrete inputs *)

Section OnConcrete.
#[local] Existing Instance Concrete.dates.
#[local] Existing Instance Concrete.dayFormat.
#[local] Existing Instance Concrete.overridesCodec.
#[local] Existing Instance Concrete.itemsCodec.

Lemma Concrete_dayStart_increasing : dayStart_increasing.
Proof. exact FixedZone_dayStart_increasing. Qed.

Lemma Concrete_window_sorted : window_sorted (viewStartOf Sample.env).
Proof. exact Sample_window_sorted. Qed.

Lemma Sample_ids_NoDup : NoDup (Assignment.id <$> Sample.items).
Proof. apply (bool_decide_unpack _). vm_compute. reflexivity. Qed.

(** X1 on the sample list: the essay, 70 minutes, in three chunks. *)
Lemma chunk_count_witness :
  Z.of_nat (length (planAssignment (viewStartOf Sample.env) Sample.moved
                      Sample.essay))
  = (Z.max 30 (default 60 (Assignment.estimateMinutes Sample.essay)) + 20)
    / 30
  ∧ (1 ≤ length (planAssignment (viewStartOf Sample.env) Sample.moved
                   Sample.essay))%nat
  ∧ Z.of_nat (length (planAssignment (viewStartOf Sample.env) Sample.moved
                        Sample.essay))
    = chunkCountOf
        (Z.max 30 (default 60 (Assignment.estimateMinutes Sample.essay)))
      - (if (1 <=? Z.max 30
                     (default 60 (Assignment.estimateMinutes Sample.essay))
                   mod 30)
            && (Z.max 30
                  (default 60 (Assignment.estimateMinutes Sample.essay))
                mod 30 <=? 9)
         then 1 else 0).
Proof.
  apply (chunk_count Sample.env Sample.moved Sample.essay).
  vm_compute. reflexivity.
Defined.

(** X3 on the sample list. *)
Lemma plan_sorted_witness :
  StronglySorted planOrder
    (buildDayPlan Sample.env Sample.items Sample.moved).
Proof.
  apply (plan_sorted Sample.env Sample.items Sample.moved).
  apply Forall_forall. repeat constructor; vm_compute; eauto.
Defined.
(** X6 on the sample list: the essay's second chunk is checked off. *)
Lemma toggle_updates_summary_witness :
  PlanView.doneCount
    (buildDayPlan Sample.env Sample.items
       (toggleDone
          (PlanChunk.key (Sample.chunk Sample.essay 1 "2026-11-08" 30 false))
          Sample.moved))
  = PlanView.doneCount (buildDayPlan Sample.env Sample.items Sample.moved) + 1
  ∧ PlanView.remainingMinutes
      (buildDayPlan Sample.env Sample.items
         (toggleDone
            (PlanChunk.key
               (Sample.chunk Sample.essay 1 "2026-11-08" 30 false))
            Sample.moved))
    = PlanView.remainingMinutes
        (buildDayPlan Sample.env Sample.items Sample.moved)
      - PlanChunk.minutes (Sample.chunk Sample.essay 1 "2026-11-08" 30 false)
  ∧ PlanView.totalMinutes
      (buildDayPlan Sample.env Sample.items
         (toggleDone
            (PlanChunk.key
               (Sample.chunk Sample.essay 1 "2026-11-08" 30 false))
            Sample.moved))
    = PlanView.totalMinutes
        (buildDayPlan Sample.env Sample.items Sample.moved).
Proof.
  apply (toggle_updates_summary Sample.env Sample.items Sample.moved
           (Sample.chunk Sample.essay 1 "2026-11-08" 30 false)).
  - exact Sample_ids_NoDup.
  - apply (list_elem_of_lookup_2 _ 7%nat). vm_compute. reflexivity.
  - reflexivity.
Defined.

(** X9 on the sample list: the essay's second chunk is moved to
    5 November. *)
Lemma save_move_day_moves_chunk_witness :
  buildDayPlan Sample.env Sample.items
    (PlanViewState.overrides (saveMoveDay Concrete.moving))
  ≡ₚ setDayAt "a1|1"
       (clampToView (toISODate (localDay 1793883600000))
          (toISODate (viewStartOf Sample.env))
          (toISODate (viewStartOf Sample.env + 6)))
     <$> buildDayPlan Sample.env Sample.items
           (PlanViewState.overrides Concrete.moving)
  ∧ PlanViewState.movingKey (saveMoveDay Concrete.moving) = None.
Proof.
  apply (save_move_day_moves_chunk Sample.env Sample.items Concrete.moving
           "a1|1" 1793883600000).
  - reflexivity.
  - discriminate.
  - reflexivity.
Defined.

(** X10 on the sample list: the dialog is opened on the essay's first
    chunk and saved. *)
Lemma open_then_save_keeps_plan_witness :
  buildDayPlan Sample.env Sample.items
    (PlanViewState.overrides
       (saveMoveDay
          (openMoveDay (Sample.chunk Sample.essay 0 "2026-11-02" 30 false)
             Concrete.view)))
  = buildDayPlan Sample.env Sample.items
      (PlanViewState.overrides Concrete.view)
  ∧ PlanViewState.overrides
      (saveMoveDay
         (openMoveDay (Sample.chunk Sample.essay 0 "2026-11-02" 30 false)
            Concrete.view))
      !! PlanChunk.key (Sample.chunk Sample.essay 0 "2026-11-02" 30 false)
      ≫= ChunkOverride.dayISO
    = Some (PlanChunk.dayISO
              (Sample.chunk Sample.essay 0 "2026-11-02" 30 false))
  ∧ PlanViewState.movingKey
      (saveMoveDay
         (openMoveDay (Sample.chunk Sample.essay 0 "2026-11-02" 30 false)
            Concrete.view))
    = None.
Proof.
  apply (open_then_save_keeps_plan Sample.env Sample.items Concrete.view
           (Sample.chunk Sample.essay 0 "2026-11-02" 30 false)
           1793595600000).
  - exact Sample_ids_NoDup.
  - exact Concrete_window_sorted.
  - apply (list_elem_of_lookup_2 _ 4%nat). vm_compute. reflexivity.
  - vm_compute. reflexivity.
  - vm_compute. reflexivity.
Defined.

(** X11 on the sample plan: today's group. *)
Lemma group_contents_witness :
  DayGroup.list Concrete.today
  = filter (λ c, PlanChunk.dayISO c = DayGroup.dayISO Concrete.today)
      (buildDayPlan Sample.env Sample.items Sample.moved)
  ∧ DayGroup.list Concrete.today ≠ []
  ∧ DayGroup.total Concrete.today
    = sumZ (PlanChunk.minutes <$> DayGroup.list Concrete.today)
  ∧ DayGroup.label Concrete.today
    = formatDayLabel Sample.env (DayGroup.dayISO Concrete.today).
Proof.
  apply (group_contents Sample.env
           (buildDayPlan Sample.env Sample.items Sample.moved)
           Concrete.today).
  apply (list_elem_of_lookup_2 _ 0%nat). vm_compute. reflexivity.
Defined.

(** X13 on the sample list, without overrides. *)
Lemma first_group_is_today_witness :
  ∃ g rest,
    grouped Sample.env (buildDayPlan Sample.env Sample.items ∅) = g :: rest
    ∧ DayGroup.dayISO g = toISODate (viewStartOf Sample.env)
    ∧ DayGroup.label g = "Today".
Proof.
  apply (first_group_is_today Sample.env Sample.items ∅).
  - exact Concrete_dayStart_increasing.
  - exact Concrete_window_sorted.
  - intros k. rewrite lookup_empty. reflexivity.
  - vm_compute. reflexivity.
  - vm_compute. discriminate.
Defined.

(** X14 on the quiz, due 21 hours after the sample clock. *)
Lemma chip_agrees_with_filter_witness :
  let chip := dueStatusChip Sample.env (Assignment.dueISO Sample.quiz) in
  let now := DateTime_now Sample.env in
  (chip = Overdue ↔ 1793714400000 < now)
  ∧ (chip = DueSoon ↔ now ≤ 1793714400000 ≤ now + 48 * 3600000)
  ∧ (chip = Upcoming ↔ now + 48 * 3600000 < 1793714400000)
  ∧ ∀ statusFilter,
      matchesStatus Sample.env statusFilter Sample.quiz = true
      ↔ statusFilter = ALL ∨ statusFilter = filterOfChip chip.
Proof.
  apply (chip_agrees_with_filter Sample.env Sample.quiz 1793714400000).
  vm_compute. reflexivity.
Defined.

(** X15 on an assignment due ["soon"]. *)
Lemma unparsed_due_matches_no_status_witness :
  dueStatusChip Sample.env (Assignment.dueISO Concrete.undated) = Upcoming
  ∧ ∀ statusFilter,
      matchesStatus Sample.env statusFilter Concrete.undated = true
      ↔ statusFilter = ALL.
Proof.
  apply (unparsed_due_matches_no_status Sample.env Concrete.undated).
  vm_compute. reflexivity.
Defined.

(** X16 on the sample overrides. *)
Lemma save_then_load_overrides_witness :
  loadOverrides (saveOverrides Sample.moved Sample.env) = Sample.moved
  ∧ loadAssignments (saveOverrides Sample.moved Sample.env)
    = loadAssignments Sample.env
  ∧ DateTime_now (saveOverrides Sample.moved Sample.env)
    = DateTime_now Sample.env
  ∧ ∀ state0,
      saveOverrides Sample.moved (saveOverrides state0 Sample.env)
      = saveOverrides Sample.moved Sample.env.
Proof.
  apply (save_then_load_overrides Sample.env Sample.moved).
  - vm_compute. reflexivity.
  - vm_compute. discriminate.
Defined.

(** X17 on the sample list. *)
Lemma save_then_load_assignments_witness :
  loadAssignments (saveAssignments Sample.items Sample.env) = Sample.items
  ∧ loadOverrides (saveAssignments Sample.items Sample.env)
    = loadOverrides Sample.env
  ∧ ∀ overrides,
      buildDayPlan (saveAssignments Sample.items Sample.env) Sample.items
        overrides
      = buildDayPlan Sample.env Sample.items overrides.
Proof.
  apply (save_then_load_assignments Sample.env Sample.items).
  - vm_compute. reflexivity.
  - vm_compute. discriminate.
Defined.

(** X18 on a storage whose plan entry is not JSON. *)
Lemma unreadable_overrides_give_fresh_plan_witness :
  let plan :=
    buildDayPlan Concrete.broken Sample.items
      (loadOverrides Concrete.broken) in
  loadOverrides Concrete.broken = ∅
  ∧ PlanView.doneCount plan = 0
  ∧ PlanView.remainingMinutes plan = PlanView.totalMinutes plan.
Proof.
  apply (unreadable_overrides_give_fresh_plan Concrete.broken Sample.items).
  right. right. exists "{oops". split; vm_compute; reflexivity.
Defined.
End OnConcrete.
